(** * Comment cleaning and sentiment prediction pipeline

    A shallow embedding of [src/clean_text.py] and
    [src/sentiment_predictor.py], and the properties of the two files.

    Python strings are sequences of Unicode code points. The third-party
    components the two files call (the language detector, the Porter
    stemmer, the tokenizer, the two classification models, the stopword
    corpus and [str.lower] outside ASCII) are the fields of a record [Lib];
    every definition is stated for an arbitrary [Lib]. Methods run in a
    state and exception monad over the running process: the detector's seed
    class attribute, the [DataFrame] the caller shares with the cleaning
    classes, the printed lines and a log of the calls made. *)

From Stdlib Require Import ZArith NArith List String Ascii Bool Lia.
From stdpp Require Import base decidable countable gmap.
Import ListNotations.

Set Warnings "-clear-no-such-hyp".

Local Open Scope N_scope.

(** ** Python strings *)

(** A [str] is a list of code points. *)
Definition pystr : Type := list N.

(** A string literal of the source, as code points. *)
Definition lit (s : string) : pystr := List.map N_of_ascii (list_ascii_of_string s).

Module PyStr.

Definition SPACE : N := 32.

(** [str.isspace] on one code point, which is also what [\s] matches in a
    [str] pattern: the white-space table of CPython. *)
Definition isspace (c : N) : bool :=
  ((9 <=? c) && (c <=? 13)) || ((28 <=? c) && (c <=? 32))
  || (c =? 133) || (c =? 160) || (c =? 5760)
  || ((8192 <=? c) && (c <=? 8202))
  || (c =? 8232) || (c =? 8233) || (c =? 8239) || (c =? 8287) || (c =? 12288).

Definition is_ascii (c : N) : bool := c <? 128.

(** [str.lower] on one ASCII code point. *)
Definition ascii_lower (c : N) : N :=
  if (65 <=? c) && (c <=? 90) then c + 32 else c.

Fixpoint lstrip (s : pystr) : pystr :=
  match s with
  | [] => []
  | c :: r => if isspace c then lstrip r else s
  end.

Fixpoint rstrip (s : pystr) : pystr :=
  match s with
  | [] => []
  | c :: r =>
      match rstrip r with
      | [] => if isspace c then [] else [c]
      | r' => c :: r'
      end
  end.

(** [s.strip()] *)
Definition strip (s : pystr) : pystr := rstrip (lstrip s).

(** [s.split()]: the maximal runs of characters that are not white space.
    [cur] is the run being read, most recent character first. *)
Fixpoint split_from (cur : pystr) (s : pystr) : list pystr :=
  match s with
  | [] => match cur with [] => [] | _ => [rev cur] end
  | c :: r =>
      if isspace c
      then match cur with
           | [] => split_from [] r
           | _ => rev cur :: split_from [] r
           end
      else split_from (c :: cur) r
  end.

Definition split (s : pystr) : list pystr := split_from [] s.

(** [sep.join(parts)] *)
Fixpoint join (sep : pystr) (parts : list pystr) : pystr :=
  match parts with
  | [] => []
  | [p] => p
  | p :: ps => p ++ sep ++ join sep ps
  end.

End PyStr.

(** ** The two regular expressions of [clean_text] *)

Module Re.

(** The character class [a-z0-9?!]. *)
Definition in_class (c : N) : bool :=
  ((97 <=? c) && (c <=? 122)) || ((48 <=? c) && (c <=? 57))
  || (c =? 63) || (c =? 33).

(** [re.sub('[^a-z0-9?!]', ' ', text)] *)
Definition sub_not_in_class (text : pystr) : pystr :=
  List.map (fun c => if in_class c then c else PyStr.SPACE) text.

(** [re.sub(r'\s+', ' ', text)]: every maximal run of white space becomes
    one space, written when the last character of the run is read. *)
Fixpoint sub_spaces (text : pystr) : pystr :=
  match text with
  | [] => []
  | c :: r =>
      if PyStr.isspace c
      then match r with
           | c' :: _ => if PyStr.isspace c' then sub_spaces r
                        else PyStr.SPACE :: sub_spaces r
           | [] => [PyStr.SPACE]
           end
      else c :: sub_spaces r
  end.

End Re.

(** The characters a cleaned text may hold: [a-z], [0-9], space, [?], [!]. *)
Definition allowed (c : N) : bool := Re.in_class c || (c =? PyStr.SPACE).

(** ** Python values and exceptions *)

Inductive pyval : Type :=
| PyNone
| PyBool (b : bool)
| PyInt (z : Z)
| PyStr (s : pystr).

Inductive exn : Type :=
| TypeError | ValueError | KeyError | IndexError | AttributeError
| LangDetectException.

(** The outcome of a call: a value, or an exception that reaches the caller. *)
Inductive res (A : Type) : Type :=
| Ok (a : A)
| Raise (e : exn).
Arguments Ok {A} a.
Arguments Raise {A} e.


Global Instance exn_eq_dec : EqDecision exn.
Proof. solve_decision. Defined.

Global Instance pyval_eq_dec : EqDecision pyval.
Proof. solve_decision. Defined.

(** ** The table the cleaning passes work on *)

(** A [pandas.DataFrame]: the column names and, per row, the index label
    and one cell per column. *)
Record DataFrame : Type := {
  columns : list pystr;
  rows : list (Z * list pyval)
}.

(** [df.index] *)
Definition index (df : DataFrame) : list Z := List.map fst (rows df).

(** [len(df)] *)
Definition len (df : DataFrame) : nat := List.length (rows df).

(** Every row has one cell per column. *)
Definition rectangular (df : DataFrame) : Prop :=
  Forall (fun row => List.length (snd row) = List.length (columns df)) (rows df).

(** ** The third-party components *)

Record TokenizerArgs : Type := {
  return_tensors : pystr;
  truncation : bool;
  padding : bool;
  max_length : Z
}.

Record Lib : Type := {
  (** [str.lower] *)
  str_lower : pystr -> pystr;
  (** [PorterStemmer().stem] *)
  PorterStemmer_stem : pystr -> pystr;
  (** [langdetect]: the language code found for a text when the detector's
      random generator starts from the given seed, [None] when no language
      can be found. *)
  langdetect : Z -> pystr -> option pystr;
  (** what the tokenizer returns *)
  Encoding : Type;
  (** [AutoTokenizer.from_pretrained(model_name)] *)
  tokenizer : pystr -> TokenizerArgs -> Encoding;
  (** the index of the largest logit each of the two fine-tuned models
      gives for an encoding: [torch.argmax(outputs.logits, dim=1).item()] *)
  model_product : Encoding -> nat;
  model_video : Encoding -> nat;
  (** [nltk.corpus.stopwords.words('english')] *)
  stopwords_words_english : list pystr
}.

(** ** The running process *)

Inductive target : Type := Product | Video.

(** Calls that leave the two source files, and calls of [clean_text]. *)
Inductive call : Type :=
| CallDetect (text : pyval) (seed : option Z)
| CallCleanText (text : pyval)
| CallTokenizer (text : pystr) (args : TokenizerArgs)
| CallModel (which : target).

(** The lines the source prints, by their numbers. *)
Inductive line : Type :=
| NonLanguageEntries (n : nat)
| OtherLanguageEntries (n : nat)
| SizeReduces (new_size original_size remove_num : Z)
| ModelsLoaded.

Record process : Type := {
  (** the class attribute [DetectorFactory.seed]; [None] until assigned *)
  DetectorFactory_seed : option Z;
  (** what the operating system gives a random generator seeded with [None],
      and how many such seeds were drawn *)
  entropy : nat -> Z;
  drawn : nat;
  (** the [DataFrame] object the caller passed: [self.df] is an alias of it *)
  frame : DataFrame;
  stdout : list line;
  calls : list call
}.

Definition set_seed (z : option Z) (p : process) : process :=
  {| DetectorFactory_seed := z; entropy := entropy p; drawn := drawn p;
     frame := frame p; stdout := stdout p; calls := calls p |}.

Definition set_drawn (n : nat) (p : process) : process :=
  {| DetectorFactory_seed := DetectorFactory_seed p; entropy := entropy p; drawn := n;
     frame := frame p; stdout := stdout p; calls := calls p |}.

Definition set_frame (df : DataFrame) (p : process) : process :=
  {| DetectorFactory_seed := DetectorFactory_seed p; entropy := entropy p; drawn := drawn p;
     frame := df; stdout := stdout p; calls := calls p |}.

Definition add_line (l : line) (p : process) : process :=
  {| DetectorFactory_seed := DetectorFactory_seed p; entropy := entropy p; drawn := drawn p;
     frame := frame p; stdout := stdout p ++ [l]; calls := calls p |}.

Definition add_call (c : call) (p : process) : process :=
  {| DetectorFactory_seed := DetectorFactory_seed p; entropy := entropy p; drawn := drawn p;
     frame := frame p; stdout := stdout p; calls := calls p ++ [c] |}.

(** Computations: they change the process and end with a value or an
    exception; what was done before an exception stays done. *)
Definition M (A : Type) : Type := process -> res A * process.

Definition ret {A} (a : A) : M A := fun p => (Ok a, p).

Definition raise {A} (e : exn) : M A := fun p => (Raise e, p).

Definition bind {A B} (m : M A) (f : A -> M B) : M B :=
  fun p =>
    match m p with
    | (Ok a, p') => f a p'
    | (Raise e, p') => (Raise e, p')
    end.

Notation "x <- m ;; k" := (bind m (fun x => k))
  (at level 100, m at next level, right associativity).
Notation "m ;;; k" := (bind m (fun _ => k))
  (at level 100, right associativity).

(** [try: body except exc: handler] *)
Definition try_except {A} (body : M A) (exc : exn) (handler : M A) : M A :=
  fun p =>
    match body p with
    | (Raise e, p') => if bool_decide (e = exc) then handler p' else (Raise e, p')
    | r => r
    end.

Definition lift {A} (r : res A) : M A := fun p => (r, p).

Definition print (l : line) : M unit := fun p => (Ok tt, add_line l p).

Definition log (c : call) : M unit := fun p => (Ok tt, add_call c p).

Definition get_frame : M DataFrame := fun p => (Ok (frame p), p).

(** A block either returns from the enclosing function or runs to its end. *)
Inductive flow (R A : Type) : Type :=
| Return (r : R)
| Next (a : A).
Arguments Return {R A} r.
Arguments Next {R A} a.

(** ** [langdetect.detect] *)

(** The seed the detector's random generator starts from: the class
    attribute when it is set, fresh entropy otherwise. *)
Definition random_seed : M Z :=
  fun p =>
    match DetectorFactory_seed p with
    | Some z => (Ok z, p)
    | None => (Ok (entropy p (drawn p)), set_drawn (S (drawn p)) p)
    end.

(** [detect(text)]: the language code, [LangDetectException] when none is
    found, [TypeError] when [text] is no string. *)
Definition detect (L : Lib) (text : pyval) : M pystr :=
  fun p =>
    (log (CallDetect text (DetectorFactory_seed p)) ;;;
     match text with
     | PyStr s =>
         z <- random_seed ;;
         match langdetect L z s with
         | Some code => ret code
         | None => raise LangDetectException
         end
     | _ => raise TypeError
     end) p.

(** ** [pandas] operations used by the source *)

(** [df.drop(labels=labels, inplace=True)]: the rows with these index labels
    go; a label that is not in the index is a [KeyError]. *)
Definition drop (labels : list Z) : M unit :=
  fun p =>
    let df := frame p in
    if forallb (fun l => existsb (Z.eqb l) (index df)) labels
    then (Ok tt,
          set_frame {| columns := columns df;
                       rows := List.filter
                                 (fun row => negb (existsb (Z.eqb (fst row)) labels))
                                 (rows df) |} p)
    else (Raise KeyError, p).

Fixpoint position (name : pystr) (names : list pystr) : option nat :=
  match names with
  | [] => None
  | n :: rest =>
      if bool_decide (n = name) then Some O
      else option_map S (position name rest)
  end.

(** [df[name][label] = value], writing through to [df], as pandas does
    without copy-on-write and as the source relies on: the cell of column
    [name] in every row labelled [label]; an unknown column is a
    [KeyError]. *)
Definition setitem (name : pystr) (label : Z) (value : pyval) : M unit :=
  fun p =>
    let df := frame p in
    match position name (columns df) with
    | None => (Raise KeyError, p)
    | Some k =>
        (Ok tt,
         set_frame {| columns := columns df;
                      rows := List.map
                                (fun row =>
                                   if Z.eqb (fst row) label
                                   then (fst row, <[k := value]> (snd row))
                                   else row)
                                (rows df) |} p)
    end.

(** ** [class CleanText] *)

Module CleanText.

(** The attributes [do_stemming] and [stopwords]; [self.df] is the
    process's [frame], [self.ps] is [PorterStemmer_stem]. *)
Record t : Type := {
  do_stemming : bool;
  stopwords : gset pystr
}.

Section Methods.
Variable L : Lib.

Definition not_in_stopwords (self : t) (part : pystr) : bool :=
  bool_decide (part ∉ stopwords self).

Definition clean_text (self : t) (text : pystr) : pystr :=
  let text := str_lower L text in
  let text := Re.sub_not_in_class text in
  let text := PyStr.strip (Re.sub_spaces text) in
  if do_stemming self || bool_decide (0 < size (stopwords self))%nat
  then
    let parts := PyStr.split text in
    let parts :=
      if do_stemming self
      then List.map (PorterStemmer_stem L)
                    (List.filter (not_in_stopwords self) parts)
      else List.filter (not_in_stopwords self) parts in
    PyStr.join [PyStr.SPACE] parts
  else text.

(** [self.clean_text(text)] on a cell: a cell that is no string has no
    [lower] attribute. *)
Definition clean_text_cell (self : t) (text : pyval) : M pyval :=
  log (CallCleanText text) ;;;
  match text with
  | PyStr s => ret (PyStr (clean_text self s))
  | _ => raise AttributeError
  end.

(** The body of the loop of [clean_df] for the tuple at one position of
    [self.df.itertuples()], read when the loop reaches it. *)
Definition clean_row (self : t) (i : nat) : M unit :=
  df <- get_frame ;;
  match nth_error (rows df) i with
  | None => ret tt
  | Some (index, [text; _; _]) =>
      cleaned <- clean_text_cell self text ;;
      setitem (lit "text") index cleaned
  | Some _ => raise ValueError
  end.

Fixpoint clean_rows (self : t) (positions : list nat) : M unit :=
  match positions with
  | [] => ret tt
  | i :: rest => clean_row self i ;;; clean_rows self rest
  end.

Definition clean_df (self : t) : M unit :=
  df <- get_frame ;;
  clean_rows self (seq 0 (len df)).

(** [CleanText(df, do_stemming, stopwords)] with [df] the process's
    [frame]. *)
Definition __init__ (do_stemming : bool) (stopwords : gset pystr) : M t :=
  let self := {| do_stemming := do_stemming; stopwords := stopwords |} in
  clean_df self ;;; ret self.

Definition get_df (self : t) : M DataFrame := get_frame.
End Methods.

End CleanText.

(** ** [class RemoveNonEnglish] *)

Module RemoveNonEnglish.

(** [self.df] is the process's [frame]. *)
Record t : Type := {
  exception_entries : list (Z * pyval);
  other_language_entries : list (Z * pyval * pystr);
  original_size : nat
}.

Definition add_exception (self : t) (index : Z) (text : pyval) : t :=
  {| exception_entries := exception_entries self ++ [(index, text)];
     other_language_entries := other_language_entries self;
     original_size := original_size self |}.

Definition add_other_language (self : t) (index : Z) (text : pyval)
    (language : pystr) : t :=
  {| exception_entries := exception_entries self;
     other_language_entries := other_language_entries self ++ [(index, text, language)];
     original_size := original_size self |}.

Section Methods.
Variable L : Lib.

Definition get_language (self : t) (text : pyval) : M pystr := detect L text.

(** The [try] statement of the loop for one row. *)
Definition collect_row (self : t) (index : Z) (text : pyval) : M t :=
  try_except
    (language <- get_language self text ;;
     if bool_decide (language ≠ lit "en")
     then ret (add_other_language self index text language)
     else ret self)
    LangDetectException
    (ret (add_exception self index text)).

Fixpoint collect_rows (self : t) (tuples : list (Z * list pyval)) : M t :=
  match tuples with
  | [] => ret self
  | (index, [text; _; _]) :: rest =>
      self' <- collect_row self index text ;;
      collect_rows self' rest
  | _ :: _ => raise ValueError
  end.

Definition collect_non_english_content (self : t) : M t :=
  df <- get_frame ;;
  self' <- collect_rows self (rows df) ;;
  print (NonLanguageEntries (List.length (exception_entries self'))) ;;;
  print (OtherLanguageEntries (List.length (other_language_entries self'))) ;;;
  ret self'.

Definition remove (self : t) : M unit :=
  drop (List.map fst (exception_entries self)) ;;;
  drop (List.map (fun entry => fst (fst entry)) (other_language_entries self)) ;;;
  df <- get_frame ;;
  let remove_num := (Z.of_nat (original_size self) - Z.of_nat (len df))%Z in
  print (SizeReduces (Z.of_nat (len df)) (Z.of_nat (original_size self)) remove_num).

(** [RemoveNonEnglish(df)] with [df] the process's [frame]. *)
Definition __init__ : M t :=
  (fun p => (Ok tt, set_seed (Some 0%Z) p)) ;;;
  df <- get_frame ;;
  let self := {| exception_entries := []; other_language_entries := [];
                 original_size := len df |} in
  self' <- collect_non_english_content self ;;
  remove self' ;;;
  ret self'.

Definition get_df (self : t) : M DataFrame := get_frame.
End Methods.

End RemoveNonEnglish.

(** ** [class Stopwords] *)

Module Stopwords.

Definition specified : list pystr :=
  List.map lit
    ["i"; "the"; "and"; "for"; "a"; "of"; "to"; "this"; "that"; "in"; "on";
     "at"; "so"; "with"; "as"; "was"; "is"; "are"; "be"; "it"; "have"; "has";
     "you"; "your"]%string.

Definition reserve : list pystr :=
  List.map lit
    ["not"; "no"; "never"; "but"; "only"; "just"; "very"; "really"; "too";
     "don't"; "wasn't"; "didn't"; "can't"; "won't"]%string.

(** [for word in words: if word in stopwords: stopwords.remove(word)] *)
Fixpoint remove_each (words : list pystr) (stopwords : gset pystr) : gset pystr :=
  match words with
  | [] => stopwords
  | word :: rest =>
      remove_each rest
        (if bool_decide (word ∈ stopwords) then stopwords ∖ {[ word ]} else stopwords)
  end.

Record t : Type := {
  stopwords : gset pystr
}.

Section Methods.
Variable L : Lib.

(** [Stopwords(stopwords_type)]; the corpus is taken as downloaded. *)
Definition __init__ (stopwords_type : pystr) : t :=
  if bool_decide (stopwords_type = lit "specified")
  then {| stopwords := list_to_set specified |}
  else if bool_decide (stopwords_type = lit "nltk")
  then {| stopwords := remove_each reserve (list_to_set (stopwords_words_english L)) |}
  else {| stopwords := ∅ |}.

Definition get_stopwords (self : t) : gset pystr := stopwords self.
End Methods.

End Stopwords.

(** ** [class SentimentPredictor] *)

Module SentimentPredictor.

(** The attribute [labels]; tokenizer and models are in [Lib]. The class
    sets no attribute [ps]. *)
Record t : Type := {
  labels : list pystr
}.

(** The dictionary [predict] returns. *)
Record sentiments : Type := {
  sentiment_for_product : pystr;
  sentiment_for_video : pystr
}.

Definition tokenizer_args : TokenizerArgs :=
  {| return_tensors := lit "pt"; truncation := true; padding := true;
     max_length := 128 |}.

Section Methods.
Variable L : Lib.

(** [SentimentPredictor()] *)
Definition __init__ : M t :=
  let self := {| labels := List.map lit ["negative"; "neutral"; "positive"]%string |} in
  print ModelsLoaded ;;; ret self.

Definition get_language (self : t) (text : pyval) : M pystr := detect L text.

(** [self.clean_text(text, do_stemming)]; the comprehension over a
    non-empty [parts] reads [self.ps], which the object does not have. *)
Definition clean_text (self : t) (text : pystr) (do_stemming : bool) : res pystr :=
  let text := str_lower L text in
  let text := Re.sub_not_in_class text in
  let text := PyStr.strip (Re.sub_spaces text) in
  if do_stemming
  then
    match PyStr.split text with
    | [] => Ok (PyStr.join [PyStr.SPACE] [])
    | _ :: _ => Raise AttributeError
    end
  else Ok text.

(** [self.labels[i]] *)
Definition label (self : t) (i : nat) : M pystr :=
  match nth_error (labels self) i with
  | Some l => ret l
  | None => raise IndexError
  end.

(** The part of [predict] after the language test. *)
Definition classify (self : t) (comment : pystr) : M (option sentiments) :=
  log (CallCleanText (PyStr comment)) ;;;
  comment <- lift (clean_text self comment false) ;;
  log (CallTokenizer comment tokenizer_args) ;;;
  let inputs := tokenizer L comment tokenizer_args in
  log (CallModel Product) ;;;
  sentiment_product <- label self (model_product L inputs) ;;
  log (CallModel Video) ;;;
  sentiment_video <- label self (model_video L inputs) ;;
  ret (Some {| sentiment_for_product := sentiment_product;
               sentiment_for_video := sentiment_video |}).

(** [predict(comment)]; [None] is Python's [None]. *)
Definition predict (self : t) (comment : pyval) : M (option sentiments) :=
  match comment with
  | PyStr s =>
      match PyStr.strip s with
      | [] => ret None
      | _ :: _ =>
          r <- try_except
                 (language <- get_language self comment ;;
                  if bool_decide (language ≠ lit "en")
                  then ret (Return None)
                  else ret (Next tt))
                 LangDetectException
                 (ret (Return None)) ;;
          match r with
          | Return v => ret v
          | Next _ => classify self s
          end
      end
  | _ => raise TypeError
  end.
End Methods.

End SentimentPredictor.

(** * Vocabulary of the statements *)

(** The configuration with stemming off and no stopwords. *)
Definition plain : CleanText.t :=
  {| CleanText.do_stemming := false; CleanText.stopwords := ∅ |}.

(** [str.lower] is the ASCII one on strings that are ASCII throughout. *)
Definition lower_on_ascii (L : Lib) : Prop :=
  forall s, forallb PyStr.is_ascii s = true ->
            str_lower L s = List.map PyStr.ascii_lower s.

(** The stemmer gives a token of [a-z0-9?!] a word of allowed characters. *)
Definition stem_keeps_alphabet (L : Lib) : Prop :=
  forall w, Forall (fun c => Re.in_class c = true) w ->
            Forall (fun c => allowed c = true) (PorterStemmer_stem L w).

(** The three steps every [clean_text] starts with. *)
Definition scrub (L : Lib) (text : pystr) : pystr :=
  PyStr.strip (Re.sub_spaces (Re.sub_not_in_class (str_lower L text))).

(** White space occurs only as single [' '] characters. *)
Fixpoint single_spaced (s : pystr) : Prop :=
  match s with
  | [] => True
  | c :: r =>
      (PyStr.isspace c = true ->
       c = PyStr.SPACE /\
       match r with
       | c' :: _ => PyStr.isspace c' = false
       | [] => True
       end)
      /\ single_spaced r
  end.

(** No white space at the start. *)
Definition starts_tight (s : pystr) : Prop :=
  match s with
  | [] => True
  | c :: _ => PyStr.isspace c = false
  end.

(** ** A small instance of the third-party components *)

(** Lower-casing that is right on ASCII and leaves other code points. *)
Definition lower_ascii_only (s : pystr) : pystr := List.map PyStr.ascii_lower s.

(** A stemmer that only drops a final [s]. *)
Definition drop_final_s (w : pystr) : pystr :=
  match rev w with
  | c :: r => if c =? 115 then rev r else w
  | [] => w
  end.

(** A detector with the shape of [langdetect]: nothing found in a text
    without ASCII letters, ["fr"] for a text with a code point above ASCII,
    ["en"] for a text of twelve characters or more, and for a shorter one
    ["en"] or ["nl"] by the parity of the random seed. *)
Definition is_letter (c : N) : bool :=
  ((65 <=? c) && (c <=? 90)) || ((97 <=? c) && (c <=? 122)).

Definition toy_detect (seed : Z) (s : pystr) : option pystr :=
  if negb (existsb is_letter s) then None
  else if negb (forallb PyStr.is_ascii s) then Some (lit "fr")
  else if (12 <=? List.length s)%nat then Some (lit "en")
  else if Z.even seed then Some (lit "en") else Some (lit "nl").

Definition toy_lib : Lib :=
  {| str_lower := lower_ascii_only;
     PorterStemmer_stem := drop_final_s;
     langdetect := toy_detect;
     Encoding := pystr;
     tokenizer := fun text _ => text;
     model_product := fun enc => (List.length enc mod 3)%nat;
     model_video := fun _ => 1%nat;
     stopwords_words_english :=
       List.map lit ["i"; "me"; "the"; "no"; "not"; "don't"; "too"; "very"]%string |}.

(** A process that has imported the modules and done nothing else. *)
Definition fresh (df : DataFrame) : process :=
  {| DetectorFactory_seed := None;
     entropy := fun n => Z.of_nat n;
     drawn := O;
     frame := df;
     stdout := [];
     calls := [] |}.

Definition no_frame : DataFrame := {| columns := []; rows := [] |}.

(** Stemming on, one stopword. *)
Definition stemming : CleanText.t :=
  {| CleanText.do_stemming := true; CleanText.stopwords := {[ lit "the" ]} |}.

(** The object [SentimentPredictor()] returns. *)
Definition predictor : SentimentPredictor.t :=
  {| SentimentPredictor.labels := List.map lit ["negative"; "neutral"; "positive"]%string |}.

(** ** What one call of [detect] does *)

(** The seed the detector's generator gets in process [p]. *)
Definition seed_in (p : process) : Z :=
  match DetectorFactory_seed p with
  | Some z => z
  | None => entropy p (drawn p)
  end.

(** The process after one call of [detect]. *)
Definition after_detect (text : pyval) (p : process) : process :=
  let p1 := add_call (CallDetect text (DetectorFactory_seed p)) p in
  match DetectorFactory_seed p with
  | Some _ => p1
  | None => set_drawn (S (drawn p)) p1
  end.

(** The tokenizer calls of a log, in order. *)
Definition tokenizer_calls (cs : list call) : list (pystr * TokenizerArgs) :=
  flat_map (fun c => match c with
                     | CallTokenizer text args => [(text, args)]
                     | _ => []
                     end) cs.

(** [SentimentPredictor()] followed by two calls of [predict] on the same
    comment, in one process. *)
Definition two_predictions (L : Lib) (comment : pyval) (p : process)
  : res (option SentimentPredictor.sentiments)
    * res (option SentimentPredictor.sentiments) * list call :=
  match SentimentPredictor.__init__ p with
  | (Ok self, p0) =>
      let '(r1, p1) := SentimentPredictor.predict L self comment p0 in
      let '(r2, p2) := SentimentPredictor.predict L self comment p1 in
      (r1, r2, calls p2)
  | (Raise e, p0) => (Raise e, Raise e, calls p0)
  end.

(** ** Rows and their classification in the dataset path *)

(** The outcomes of classification. *)
Inductive outcome : Type :=
| English
| OtherLanguage (code : pystr)
| Undetectable.

(** What the detector, seeded with 0, makes of a text. *)
Definition classify0 (L : Lib) (s : pystr) : outcome :=
  match langdetect L 0%Z s with
  | None => Undetectable
  | Some code => if bool_decide (code ≠ lit "en") then OtherLanguage code else English
  end.

(** The classification of the text of a row: its first data cell. *)
Definition row_outcome (L : Lib) (row : Z * list pyval) : option outcome :=
  match snd row with
  | PyStr s :: _ => Some (classify0 L s)
  | _ => None
  end.

Definition is_english (L : Lib) (row : Z * list pyval) : bool :=
  match row_outcome L row with Some English => true | _ => false end.

Definition is_other (L : Lib) (row : Z * list pyval) : bool :=
  match row_outcome L row with Some (OtherLanguage _) => true | _ => false end.

Definition is_undetectable (L : Lib) (row : Z * list pyval) : bool :=
  match row_outcome L row with Some Undetectable => true | _ => false end.

(** A row of three data cells, the first a string. *)
Definition text_first_of_three (row : Z * list pyval) : bool :=
  match snd row with
  | [PyStr _; _; _] => true
  | _ => false
  end.

(** The number of data cells of each row. *)
Definition widths (df : DataFrame) : list nat :=
  List.map (fun row => List.length (snd row)) (rows df).

(** The statement about [RemoveNonEnglish(df)] for the dataset of process
    [p]: with unique index labels, it ends normally, keeps exactly the rows
    classified English, in order, leaves [N - K] rows where [K] counts the
    rows of another language and the undetectable ones, and prints the two
    counts and [K] as the number removed. *)
Definition filterEnglish_claim (L : Lib) (p : process) : Prop :=
  let df := frame p in
  let N := len df in
  let K_other := List.length (List.filter (is_other L) (rows df)) in
  let K_undetectable := List.length (List.filter (is_undetectable L) (rows df)) in
  let K := (K_other + K_undetectable)%nat in
  List.NoDup (index df) ->
  exists self p',
    RemoveNonEnglish.__init__ L p = (Ok self, p')
    /\ frame p' = {| columns := columns df;
                     rows := List.filter (is_english L) (rows df) |}
    /\ (len (frame p') + K = N)%nat
    /\ List.length (RemoveNonEnglish.other_language_entries self) = K_other
    /\ List.length (RemoveNonEnglish.exception_entries self) = K_undetectable
    /\ stdout p'
       = stdout p ++ [NonLanguageEntries K_undetectable;
                      OtherLanguageEntries K_other;
                      SizeReduces (Z.of_nat N - Z.of_nat K) (Z.of_nat N) (Z.of_nat K)].

(** A computation that ends with an exception and has neither called
    anything nor written to the dataset nor printed. *)
Definition fails_untouched {A} (m : M A) (p : process) : Prop :=
  exists e p', m p = (Raise e, p')
               /\ calls p' = calls p /\ frame p' = frame p /\ stdout p' = stdout p.

(** The statement about the column shape for the dataset of process [p]:
    a pass that ends normally has found three data columns, ['text'] first,
    and on a table of another number of columns both passes fail before
    touching anything. *)
Definition column_shape_claim (L : Lib) (self : CleanText.t) (p : process) : Prop :=
  let df := frame p in
  (fst (CleanText.clean_df L self p) = Ok tt ->
   List.length (columns df) = 3%nat /\ position (lit "text") (columns df) = Some O)
  /\ ((exists r, fst (RemoveNonEnglish.__init__ L p) = Ok r) ->
      List.length (columns df) = 3%nat /\ position (lit "text") (columns df) = Some O)
  /\ (rectangular df -> List.length (columns df) <> 3%nat ->
      fails_untouched (CleanText.clean_df L self) p
      /\ fails_untouched (RemoveNonEnglish.__init__ L) p).

(** ** Example tables *)

(** The table of the data model: an identifier and a text. *)
Definition text_only : DataFrame :=
  {| columns := [lit "text"];
     rows := [(0%Z, [PyStr (lit "This product is amazing!")])] |}.

Definition empty_two_columns : DataFrame :=
  {| columns := [lit "text"; lit "label"]; rows := [] |}.

Definition two_columns : DataFrame :=
  {| columns := [lit "text"; lit "label"];
     rows := [(0%Z, [PyStr (lit "This product is amazing!"); PyInt 1]);
              (1%Z, [PyStr (lit "12345 !!"); PyInt 0])] |}.

(** Three data columns with the text in the second. *)
Definition title_first : DataFrame :=
  {| columns := [lit "title"; lit "text"; lit "label"];
     rows := [(0%Z, [PyStr (lit "A long enough English title");
                     PyStr (lit "Un commentaire"); PyInt 1])] |}.

Definition comments : DataFrame :=
  {| columns := [lit "text"; lit "sentiment_for_product"; lit "sentiment_for_video"];
     rows := [(0%Z, [PyStr (lit "This product is amazing!"); PyInt 2; PyInt 1]);
              (1%Z, [PyStr (lit "12345 !!"); PyInt 1; PyInt 1]);
              (5%Z, [PyStr (220 :: lit "ber alles gut, danke"); PyInt 2; PyInt 2]);
              (7%Z, [PyStr (lit "The video was boring."); PyInt 1; PyInt 0])] |}.

(** What [collect_non_english_content] records for one row, and for a list
    of rows, when the seed is 0. *)
Definition record_row (L : Lib) (self : RemoveNonEnglish.t) (row : Z * list pyval)
  : RemoveNonEnglish.t :=
  match snd row with
  | PyStr s :: _ =>
      match classify0 L s with
      | English => self
      | OtherLanguage code => RemoveNonEnglish.add_other_language self (fst row) (PyStr s) code
      | Undetectable => RemoveNonEnglish.add_exception self (fst row) (PyStr s)
      end
  | _ => self
  end.

Definition record_rows (L : Lib) (self : RemoveNonEnglish.t) (tuples : list (Z * list pyval))
  : RemoveNonEnglish.t :=
  fold_left (record_row L) tuples self.

Definition detect_calls (tuples : list (Z * list pyval)) : list call :=
  List.map (fun row => CallDetect (hd PyNone (snd row)) (Some 0%Z)) tuples.

(** The rows [drop] keeps. *)
Definition kept (labels : list Z) (row : Z * list pyval) : bool :=
  negb (existsb (Z.eqb (fst row)) labels).

(** ** Tokens of a cleaned text *)

(** A token: a non-empty string over [a-z0-9?!]. *)
Definition word (t : pystr) : Prop :=
  t <> [] /\ Forall (fun c => Re.in_class c = true) t.

(** No white space at the end. *)
Definition ends_tight (s : pystr) : Prop := PyStr.rstrip s = s.

(** Stemming off, the given stopwords. *)
Definition unstemmed (stopwords : gset pystr) : CleanText.t :=
  {| CleanText.do_stemming := false; CleanText.stopwords := stopwords |}.

(** ** The calls of one [predict] *)

(** The calls [predict] makes for a string when it runs to its end. *)
Definition predict_calls (L : Lib) (s : pystr) (p : process) : list call :=
  [CallDetect (PyStr s) (DetectorFactory_seed p);
   CallCleanText (PyStr s);
   CallTokenizer (scrub L s) SentimentPredictor.tokenizer_args;
   CallModel Product;
   CallModel Video].

(** The encoding both models get for a comment. *)
Definition inputs_of (L : Lib) (s : pystr) : Encoding L :=
  tokenizer L (scrub L s) SentimentPredictor.tokenizer_args.

(** A product model with a fourth class. *)
Definition four_class_lib : Lib :=
  {| str_lower := lower_ascii_only;
     PorterStemmer_stem := drop_final_s;
     langdetect := toy_detect;
     Encoding := pystr;
     tokenizer := fun text _ => text;
     model_product := fun _ => 3%nat;
     model_video := fun _ => 1%nat;
     stopwords_words_english := [] |}.

(** ** Entries of [RemoveNonEnglish] *)

(** The text cell and the language code of a row, detector seeded with 0. *)
Definition row_text (row : Z * list pyval) : pyval := hd PyNone (snd row).

Definition row_language (L : Lib) (row : Z * list pyval) : pystr :=
  match snd row with
  | PyStr s :: _ => default [] (langdetect L 0%Z s)
  | _ => []
  end.

(** An object of the class before any row was read. *)
Definition no_entries (n : nat) : RemoveNonEnglish.t :=
  {| RemoveNonEnglish.exception_entries := [];
     RemoveNonEnglish.other_language_entries := [];
     RemoveNonEnglish.original_size := n |}.

(** A table where an undetectable row and a row of another language share
    the label 3. *)
Definition shared_label : DataFrame :=
  {| columns := columns comments;
     rows := [(3%Z, [PyStr (lit "12345 !!"); PyInt 1; PyInt 1]);
              (4%Z, [PyStr (lit "This product is amazing!"); PyInt 2; PyInt 1]);
              (3%Z, [PyStr (220 :: lit "ber alles gut, danke"); PyInt 2; PyInt 2])] |}.

(** A table whose second row has a number where the text should be. *)
Definition number_as_text : DataFrame :=
  {| columns := columns comments;
     rows := [(0%Z, [PyStr (lit "This product is amazing!"); PyInt 2; PyInt 1]);
              (1%Z, [PyInt 404; PyInt 1; PyInt 1])] |}.

(** ** Rows under [clean_df] *)

(** What [clean_df] makes of a row when column ['text'] is at position [k]:
    the cleaned first cell written into cell [k]. *)
Definition cleaned_row (L : Lib) (self : CleanText.t) (k : nat) (row : Z * list pyval)
  : Z * list pyval :=
  match snd row with
  | PyStr s :: _ => (fst row, <[k := PyStr (CleanText.clean_text L self s)]> (snd row))
  | _ => row
  end.

(** The cell of row [i], column [j]. *)
Definition cell (df : DataFrame) (i j : nat) : option pyval :=
  match nth_error (rows df) i with
  | Some row => snd row !! j
  | None => None
  end.

(** Three string columns, none of them named ['text']. *)
Definition no_text_column : DataFrame :=
  {| columns := [lit "comment"; lit "a"; lit "b"];
     rows := [(0%Z, [PyStr (lit "Hello World"); PyInt 1; PyInt 2])] |}.

(** ** The tokenizer of the transformers library on one text *)

Module Transformers.

(** What the models read of an encoding. *)
Record BatchEncoding : Type := {
  input_ids : list Z;
  attention_mask : list Z
}.

(** A vocabulary: the word pieces of a text and the three special tokens. *)
Record Vocab : Type := {
  wordpiece : pystr -> list Z;
  cls_token_id : Z;
  sep_token_id : Z;
  pad_token_id : Z
}.

(** [truncation=True]: the word pieces that fit in [max_length] once the two
    special tokens are added. *)
Definition truncate (args : TokenizerArgs) (pieces : list Z) : list Z :=
  if truncation args then firstn (Z.to_nat (max_length args - 2)) pieces else pieces.

(** The ids of one text: [CLS], the word pieces, [SEP]. *)
Definition encode (V : Vocab) (text : pystr) (args : TokenizerArgs) : list Z :=
  cls_token_id V :: truncate args (wordpiece V text) ++ [sep_token_id V].

(** Padding on the right up to [n] ids; the mask is 1 on the ids of the
    text and 0 on the padding. *)
Definition pad_to (V : Vocab) (n : nat) (ids : list Z) : BatchEncoding :=
  {| input_ids := ids ++ repeat (pad_token_id V) (n - List.length ids);
     attention_mask := repeat 1%Z (List.length ids) ++ repeat 0%Z (n - List.length ids) |}.

(** The length of the longest sequence of a batch. *)
Definition longest (batch : list (list Z)) : nat :=
  fold_right Nat.max O (List.map (@List.length Z) batch).

(** [tokenizer(text, truncation=.., padding=.., max_length=..)] on a single
    text. [padding=True] pads to the longest sequence of the batch, and the
    batch is this one text. *)
Definition call (V : Vocab) (text : pystr) (args : TokenizerArgs) : BatchEncoding :=
  let ids := encode V text args in
  if padding args then pad_to V (longest [ids]) ids else pad_to V (List.length ids) ids.

End Transformers.

(** The tokenizer of [L] is one of the transformers library, read through
    [view]. *)
Definition transformers_tokenizer (L : Lib) (V : Transformers.Vocab)
    (view : Encoding L -> Transformers.BatchEncoding) : Prop :=
  forall text args, view (tokenizer L text args) = Transformers.call V text args.

(** The statement that the encoding [predict] gives the models always has
    the fixed length 128: longer input truncated, shorter input padded. *)
Definition fixed_length_claim (L : Lib)
    (view : Encoding L -> Transformers.BatchEncoding)
    (self : SentimentPredictor.t) (s : pystr) (p : process) : Prop :=
  PyStr.strip s <> [] ->
  fst (SentimentPredictor.get_language L self (PyStr s) p) = Ok (lit "en") ->
  exists text,
    SentimentPredictor.clean_text L self s false = Ok text
    /\ List.length
         (Transformers.input_ids
            (view (tokenizer L text {| return_tensors := lit "pt"; truncation := true;
                                       padding := true; max_length := 128 |})))
       = 128%nat.

(** One id per token of the text. *)
Definition toy_vocab : Transformers.Vocab :=
  {| Transformers.wordpiece :=
       fun text => List.map (fun tok => (1000 + Z.of_nat (List.length tok))%Z)
                            (PyStr.split text);
     Transformers.cls_token_id := 101;
     Transformers.sep_token_id := 102;
     Transformers.pad_token_id := 0 |}.

Definition transformers_lib : Lib :=
  {| str_lower := lower_ascii_only;
     PorterStemmer_stem := drop_final_s;
     langdetect := toy_detect;
     Encoding := Transformers.BatchEncoding;
     tokenizer := Transformers.call toy_vocab;
     model_product := fun enc => (List.length (Transformers.input_ids enc) mod 3)%nat;
     model_video := fun _ => 1%nat;
     stopwords_words_english := [] |}.

(** A comment of 200 one-letter words. *)
Definition long_comment : pystr :=
  List.concat (repeat (lit "a ") 200).

(** * Properties *)

(** ** Characters *)

Ltac char_bounds :=
  repeat match goal with
         | H : _ && _ = true |- _ => apply andb_true_iff in H; destruct H
         | H : _ || _ = true |- _ => apply orb_true_iff in H; destruct H
         | H : (_ <=? _) = true |- _ => apply N.leb_le in H
         | H : (_ <? _) = true |- _ => apply N.ltb_lt in H
         | H : (_ =? _) = true |- _ => apply N.eqb_eq in H
         | H : (_ <=? _) = false |- _ => apply N.leb_gt in H
         | H : (_ <? _) = false |- _ => apply N.ltb_ge in H
         | H : (_ =? _) = false |- _ => apply N.eqb_neq in H
         end.

Lemma isspace_SPACE : PyStr.isspace PyStr.SPACE = true.
Proof. reflexivity. Qed.

Lemma in_class_not_space c : Re.in_class c = true -> PyStr.isspace c = false.
Proof.
  intros H. apply not_true_is_false. intros Hs.
  unfold Re.in_class in H. unfold PyStr.isspace in Hs.
  char_bounds; lia.
Qed.

Lemma in_class_allowed c : Re.in_class c = true -> allowed c = true.
Proof. intros H. unfold allowed. rewrite H. reflexivity. Qed.

Lemma allowed_SPACE : allowed PyStr.SPACE = true.
Proof. reflexivity. Qed.

Lemma allowed_cases c :
  allowed c = true -> Re.in_class c = true \/ c = PyStr.SPACE.
Proof.
  unfold allowed. intros H. apply orb_true_iff in H.
  destruct H as [H | H]; [left; exact H | right; apply N.eqb_eq; exact H].
Qed.

Lemma allowed_no_space_in_class c :
  allowed c = true -> PyStr.isspace c = false -> Re.in_class c = true.
Proof.
  intros Ha Hs. destruct (allowed_cases c Ha) as [H | ->]; [exact H |].
  rewrite isspace_SPACE in Hs. discriminate.
Qed.

Lemma allowed_space_is_SPACE c :
  allowed c = true -> PyStr.isspace c = true -> c = PyStr.SPACE.
Proof.
  intros Ha Hs. destruct (allowed_cases c Ha) as [H | H]; [| exact H].
  apply in_class_not_space in H. congruence.
Qed.

Lemma allowed_is_ascii c : allowed c = true -> PyStr.is_ascii c = true.
Proof.
  intros H. unfold allowed, Re.in_class, PyStr.SPACE in H. unfold PyStr.is_ascii.
  apply N.ltb_lt. char_bounds; lia.
Qed.

Lemma allowed_ascii_lower c : allowed c = true -> PyStr.ascii_lower c = c.
Proof.
  intros H. unfold allowed, Re.in_class, PyStr.SPACE in H. unfold PyStr.ascii_lower.
  destruct ((65 <=? c) && (c <=? 90)) eqn:E; [| reflexivity].
  char_bounds; lia.
Qed.

(** ** [strip], [split], [join] and the two substitutions *)

Section Closure.
Variable P : N -> Prop.

Lemma lstrip_Forall s : Forall P s -> Forall P (PyStr.lstrip s).
Proof.
  induction 1 as [| c r Hc Hr IH]; simpl; [constructor |].
  destruct (PyStr.isspace c); [exact IH | constructor; assumption].
Qed.

Lemma rstrip_Forall s : Forall P s -> Forall P (PyStr.rstrip s).
Proof.
  induction 1 as [| c r Hc Hr IH]; simpl; [constructor |].
  destruct (PyStr.rstrip r) as [| c' r'].
  - destruct (PyStr.isspace c); repeat constructor; assumption.
  - constructor; assumption.
Qed.

Lemma strip_Forall s : Forall P s -> Forall P (PyStr.strip s).
Proof. intros H. unfold PyStr.strip. apply rstrip_Forall, lstrip_Forall, H. Qed.

Lemma sub_spaces_Forall s :
  P PyStr.SPACE -> Forall P s -> Forall P (Re.sub_spaces s).
Proof.
  intros Hsp. induction 1 as [| c r Hc Hr IH]; [constructor |].
  cbn [Re.sub_spaces]. destruct (PyStr.isspace c).
  - destruct r as [| c' r']; [repeat constructor; exact Hsp |].
    destruct (PyStr.isspace c'); [exact IH | constructor; [exact Hsp | exact IH]].
  - constructor; assumption.
Qed.

Let Q (c : N) : Prop := P c /\ PyStr.isspace c = false.

Lemma split_from_Forall s : forall cur,
  Forall Q cur -> Forall P s -> Forall (Forall Q) (PyStr.split_from cur s).
Proof.
  induction s as [| c r IH]; intros cur Hcur Hs.
  - destruct cur as [| c0 cur0]; [constructor |].
    cbn [PyStr.split_from]. constructor; [apply Forall_rev, Hcur | constructor].
  - inversion Hs as [| ? ? Hc Hr]; subst. cbn [PyStr.split_from].
    destruct (PyStr.isspace c) eqn:E.
    + destruct cur as [| c0 cur0]; [apply IH; [constructor | exact Hr] |].
      constructor; [apply Forall_rev, Hcur | apply IH; [constructor | exact Hr]].
    + apply IH; [| exact Hr]. constructor; [split; assumption | exact Hcur].
Qed.

Lemma split_Forall s :
  Forall P s ->
  Forall (Forall (fun c => P c /\ PyStr.isspace c = false)) (PyStr.split s).
Proof. intros H. apply (split_from_Forall s []); [constructor | exact H]. Qed.

Lemma join_Forall sep parts :
  Forall P sep -> Forall (Forall P) parts -> Forall P (PyStr.join sep parts).
Proof.
  intros Hsep. induction 1 as [| p ps Hp Hps IH]; [constructor |].
  cbn [PyStr.join]. destruct ps as [| q qs]; [exact Hp |].
  apply Forall_app. split; [exact Hp |].
  apply Forall_app. split; [exact Hsep | exact IH].
Qed.
End Closure.

(** ** The shape of a cleaned text *)

Lemma sub_not_in_class_allowed s :
  Forall (fun c => allowed c = true) (Re.sub_not_in_class s).
Proof.
  unfold Re.sub_not_in_class. apply List.Forall_forall. intros c Hc.
  apply in_map_iff in Hc. destruct Hc as [x [<- _]].
  destruct (Re.in_class x) eqn:E; [apply in_class_allowed, E | apply allowed_SPACE].
Qed.

Lemma sub_not_in_class_fixed s :
  Forall (fun c => allowed c = true) s -> Re.sub_not_in_class s = s.
Proof.
  unfold Re.sub_not_in_class.
  induction 1 as [| c r Hc Hr IH]; [reflexivity |]. cbn [List.map]. rewrite IH.
  destruct (allowed_cases c Hc) as [-> | ->]; reflexivity.
Qed.

Lemma sub_spaces_single_spaced s : single_spaced (Re.sub_spaces s).
Proof.
  induction s as [| c r IH]; [exact I |]. cbn [Re.sub_spaces].
  destruct (PyStr.isspace c) eqn:E.
  - destruct r as [| c' r']; [cbn; auto |].
    destruct (PyStr.isspace c') eqn:E'; [exact IH |].
    split; [| exact IH]. intros _. split; [reflexivity |].
    cbn [Re.sub_spaces]. rewrite E'. exact E'.
  - split; [| exact IH]. intros H. cbn in H. congruence.
Qed.

Lemma sub_spaces_fixed s : single_spaced s -> Re.sub_spaces s = s.
Proof.
  induction s as [| c r IH]; [reflexivity |]. intros [Hc Hr].
  cbn [Re.sub_spaces]. rewrite (IH Hr).
  destruct (PyStr.isspace c) eqn:E; [| reflexivity].
  destruct (Hc eq_refl) as [-> Hnext].
  destruct r as [| c' r']; [reflexivity |]. rewrite Hnext. reflexivity.
Qed.

Lemma single_spaced_lstrip s : single_spaced s -> single_spaced (PyStr.lstrip s).
Proof.
  induction s as [| c r IH]; [trivial |]. intros H. cbn [PyStr.lstrip].
  destruct (PyStr.isspace c); [apply IH, H | exact H].
Qed.

Lemma rstrip_head c r c' t :
  PyStr.rstrip (c :: r) = c' :: t -> c' = c.
Proof.
  cbn [PyStr.rstrip]. destruct (PyStr.rstrip r).
  - destruct (PyStr.isspace c); [discriminate | congruence].
  - congruence.
Qed.

Lemma single_spaced_rstrip s : single_spaced s -> single_spaced (PyStr.rstrip s).
Proof.
  induction s as [| c r IH]; [trivial |]. intros [Hc Hr].
  cbn [PyStr.rstrip]. specialize (IH Hr).
  destruct (PyStr.rstrip r) as [| c' t] eqn:E.
  - destruct (PyStr.isspace c) eqn:Ec; [exact I |].
    split; [intros H; congruence | exact I].
  - split; [| exact IH]. intros Hs. destruct (Hc Hs) as [-> Hnext].
    split; [reflexivity |].
    destruct r as [| c0 r0]; [discriminate |].
    rewrite (rstrip_head _ _ _ _ E). exact Hnext.
Qed.

Lemma lstrip_starts_tight s : starts_tight (PyStr.lstrip s).
Proof.
  induction s as [| c r IH]; [exact I |]. cbn [PyStr.lstrip].
  destruct (PyStr.isspace c) eqn:E; [exact IH | exact E].
Qed.

Lemma rstrip_starts_tight s : starts_tight s -> starts_tight (PyStr.rstrip s).
Proof.
  destruct s as [| c r]; [trivial |]. intros H.
  destruct (PyStr.rstrip (c :: r)) as [| c' t] eqn:E; [exact I |].
  rewrite (rstrip_head _ _ _ _ E). exact H.
Qed.

Lemma lstrip_fixed s : starts_tight s -> PyStr.lstrip s = s.
Proof.
  destruct s as [| c r]; [reflexivity |]. cbn. intros ->. reflexivity.
Qed.

Lemma rstrip_cons c r :
  PyStr.rstrip r <> [] -> PyStr.rstrip (c :: r) = c :: PyStr.rstrip r.
Proof.
  intros H. cbn [PyStr.rstrip]. destruct (PyStr.rstrip r); [contradiction | reflexivity].
Qed.

Lemma rstrip_rstrip s : PyStr.rstrip (PyStr.rstrip s) = PyStr.rstrip s.
Proof.
  induction s as [| c r IH]; [reflexivity |].
  destruct (PyStr.rstrip r) as [| c' t] eqn:E.
  - cbn [PyStr.rstrip]. rewrite E.
    destruct (PyStr.isspace c) eqn:Ec; [reflexivity |].
    cbn [PyStr.rstrip]. rewrite Ec. reflexivity.
  - rewrite (rstrip_cons c r); [| rewrite E; discriminate].
    rewrite E. rewrite rstrip_cons; rewrite IH; [reflexivity | discriminate].
Qed.

Lemma strip_strip s : PyStr.strip (PyStr.strip s) = PyStr.strip s.
Proof.
  unfold PyStr.strip.
  rewrite (lstrip_fixed (PyStr.rstrip (PyStr.lstrip s))).
  - apply rstrip_rstrip.
  - apply rstrip_starts_tight, lstrip_starts_tight.
Qed.

Lemma Forall_allowed_ascii s :
  Forall (fun c => allowed c = true) s -> forallb PyStr.is_ascii s = true.
Proof.
  intros H. apply forallb_forall. intros c Hc.
  rewrite List.Forall_forall in H. apply allowed_is_ascii, H, Hc.
Qed.

Lemma map_ascii_lower_fixed s :
  Forall (fun c => allowed c = true) s -> List.map PyStr.ascii_lower s = s.
Proof.
  induction 1 as [| c r Hc Hr IH]; [reflexivity |].
  cbn [List.map]. rewrite IH, (allowed_ascii_lower c Hc). reflexivity.
Qed.

Lemma scrub_allowed L text : Forall (fun c => allowed c = true) (scrub L text).
Proof.
  unfold scrub. apply strip_Forall, sub_spaces_Forall;
    [apply allowed_SPACE | apply sub_not_in_class_allowed].
Qed.

Lemma scrub_single_spaced L text : single_spaced (scrub L text).
Proof.
  unfold scrub, PyStr.strip.
  apply single_spaced_rstrip, single_spaced_lstrip, sub_spaces_single_spaced.
Qed.

Lemma scrub_scrub L text :
  lower_on_ascii L -> scrub L (scrub L text) = scrub L text.
Proof.
  intros HL. pose proof (scrub_allowed L text) as Ha.
  pose proof (scrub_single_spaced L text) as Hs.
  unfold scrub at 1.
  rewrite (HL _ (Forall_allowed_ascii _ Ha)), (map_ascii_lower_fixed _ Ha).
  rewrite (sub_not_in_class_fixed _ Ha), (sub_spaces_fixed _ Hs).
  unfold scrub. apply strip_strip.
Qed.

Lemma scrub_nil L : lower_on_ascii L -> scrub L [] = [].
Proof. intros HL. unfold scrub. rewrite (HL [] eq_refl). reflexivity. Qed.

Lemma clean_text_plain L text : CleanText.clean_text L plain text = scrub L text.
Proof. reflexivity. Qed.

Lemma predictor_clean_text_default L self text :
  SentimentPredictor.clean_text L self text false = Ok (scrub L text).
Proof. reflexivity. Qed.

(** ** The normaliser *)

Lemma clean_text_parts_allowed L self text :
  (CleanText.do_stemming self = true -> stem_keeps_alphabet L) ->
  Forall (Forall (fun c => allowed c = true))
    (if CleanText.do_stemming self
     then List.map (PorterStemmer_stem L)
            (List.filter (CleanText.not_in_stopwords self) (PyStr.split (scrub L text)))
     else List.filter (CleanText.not_in_stopwords self) (PyStr.split (scrub L text))).
Proof.
  intros Hstem.
  pose proof (split_Forall _ _ (scrub_allowed L text)) as Hparts.
  assert (Hkept : Forall (Forall (fun c => Re.in_class c = true))
                    (List.filter (CleanText.not_in_stopwords self)
                                 (PyStr.split (scrub L text)))).
  { apply List.Forall_forall. intros part Hin. apply filter_In in Hin.
    destruct Hin as [Hin _]. rewrite List.Forall_forall in Hparts.
    specialize (Hparts part Hin). apply List.Forall_forall. intros c Hc.
    rewrite List.Forall_forall in Hparts. destruct (Hparts c Hc) as [Ha Hs].
    apply allowed_no_space_in_class; assumption. }
  destruct (CleanText.do_stemming self).
  - apply List.Forall_forall. intros w Hw. apply in_map_iff in Hw.
    destruct Hw as [part [<- Hpart]]. apply (Hstem eq_refl).
    rewrite List.Forall_forall in Hkept. apply Hkept, Hpart.
  - eapply List.Forall_impl; [| exact Hkept]. intros part Hpart.
    eapply List.Forall_impl; [| exact Hpart]. intros c. apply in_class_allowed.
Qed.

Lemma clean_text_allowed L self text :
  (CleanText.do_stemming self = true -> stem_keeps_alphabet L) ->
  Forall (fun c => allowed c = true) (CleanText.clean_text L self text).
Proof.
  intros Hstem. unfold CleanText.clean_text. fold (scrub L text).
  destruct (CleanText.do_stemming self || bool_decide (0 < size (CleanText.stopwords self))%nat).
  - apply join_Forall; [repeat constructor | apply clean_text_parts_allowed, Hstem].
  - apply scrub_allowed.
Qed.

Lemma clean_text_nil L self :
  lower_on_ascii L -> CleanText.clean_text L self [] = [].
Proof.
  intros HL. unfold CleanText.clean_text. fold (scrub L []). rewrite (scrub_nil L HL).
  destruct (CleanText.do_stemming self); reflexivity || idtac.
  destruct (bool_decide (0 < size (CleanText.stopwords self))%nat); reflexivity.
Qed.

(** C3: whatever the input string, the text [clean_text] returns holds only
    characters of [a-z], [0-9], space, [?] and [!], for the dataset cleaner
    in every configuration (the stemmer, where it is used, giving words of
    that alphabet) and for the predictor's cleaner whenever it returns, which
    it does with stemming off; and the empty string is cleaned to the empty
    string. *)
Theorem clean_text_alphabet (L : Lib) (self : CleanText.t)
    (sp : SentimentPredictor.t) (text : pystr) :
  lower_on_ascii L ->
  (CleanText.do_stemming self = true -> stem_keeps_alphabet L) ->
  Forall (fun c => allowed c = true) (CleanText.clean_text L self text)
  /\ (exists out, SentimentPredictor.clean_text L sp text false = Ok out
                  /\ Forall (fun c => allowed c = true) out)
  /\ (forall out, SentimentPredictor.clean_text L sp text true = Ok out ->
                  Forall (fun c => allowed c = true) out)
  /\ CleanText.clean_text L self [] = []
  /\ SentimentPredictor.clean_text L sp [] false = Ok [].
Proof.
  intros HL Hstem. repeat split.
  - apply clean_text_allowed, Hstem.
  - exists (scrub L text). split; [reflexivity | apply scrub_allowed].
  - intros out. unfold SentimentPredictor.clean_text. fold (scrub L text).
    destruct (PyStr.split (scrub L text)); [| discriminate].
    intros [= <-]. constructor.
  - apply clean_text_nil, HL.
  - rewrite predictor_clean_text_default, (scrub_nil L HL). reflexivity.
Qed.

(** C4: with stemming off and no stopwords, cleaning a cleaned text gives
    the same text again. *)
Theorem clean_text_idempotent (L : Lib) (x : pystr) :
  lower_on_ascii L ->
  CleanText.clean_text L plain (CleanText.clean_text L plain x)
  = CleanText.clean_text L plain x.
Proof. intros HL. rewrite !clean_text_plain. apply scrub_scrub, HL. Qed.

(** C9: for every string, the predictor's [clean_text] with its default
    [do_stemming=False] returns what the dataset cleaner's [clean_text]
    returns with stemming off and an empty stopword set, and that string is
    what [predict] hands to the tokenizer: lower-casing, the character
    filter and the white-space collapse, no stemming, no stopword removal. *)
Theorem predictor_clean_text_refines (L : Lib) (self : SentimentPredictor.t)
    (text : pystr) (p : process) :
  SentimentPredictor.clean_text L self text false
  = Ok (CleanText.clean_text L plain text)
  /\ CleanText.clean_text L plain text
     = PyStr.strip (Re.sub_spaces (Re.sub_not_in_class (str_lower L text)))
  /\ In (CallTokenizer (CleanText.clean_text L plain text)
                       SentimentPredictor.tokenizer_args)
        (calls (snd (SentimentPredictor.classify L self text p))).
Proof.
  repeat split.
  unfold SentimentPredictor.classify, bind, log, lift, SentimentPredictor.label.
  rewrite predictor_clean_text_default, clean_text_plain. cbn.
  destruct (nth_error _ (model_product L _)); cbn.
  - destruct (nth_error _ (model_video L _)); cbn;
      rewrite !in_app_iff; cbn; tauto.
  - rewrite !in_app_iff; cbn; tauto.
Qed.

(** *** The small instance meets the two assumptions *)

Lemma toy_lower_on_ascii : lower_on_ascii toy_lib.
Proof. intros s _. reflexivity. Qed.

Lemma toy_stem_keeps_alphabet : stem_keeps_alphabet toy_lib.
Proof.
  intros w Hw. cbn. unfold drop_final_s.
  assert (Hall : Forall (fun c => allowed c = true) w).
  { eapply List.Forall_impl; [| exact Hw]. intros c. apply in_class_allowed. }
  destruct (rev w) as [| c r] eqn:E; [exact Hall |].
  assert (Hr : Forall (fun c => allowed c = true) (rev r)).
  { apply Forall_rev. apply Forall_rev in Hall. rewrite E in Hall.
    inversion Hall; assumption. }
  destruct (c =? 115); [exact Hr | exact Hall].
Qed.

Example clean_text_ex_plain :
  CleanText.clean_text toy_lib plain (lit "  Hello,   World!! 42 ")
  = lit "hello world!! 42".
Proof. vm_compute. reflexivity. Qed.

Example clean_text_ex_stemming :
  CleanText.clean_text toy_lib stemming (lit "The Cats, the DOGS !")
  = lit "cat dog !".
Proof. vm_compute. reflexivity. Qed.

Example predictor_clean_text_ex_stemming :
  SentimentPredictor.clean_text toy_lib predictor (lit "Cats") true = Raise AttributeError.
Proof. vm_compute. reflexivity. Qed.

Lemma clean_text_alphabet_witness :
  lower_on_ascii toy_lib
  /\ (CleanText.do_stemming stemming = true -> stem_keeps_alphabet toy_lib)
  /\ Forall (fun c => allowed c = true)
       (CleanText.clean_text toy_lib stemming (lit "The Cats, the DOGS !"))
  /\ (exists out,
        SentimentPredictor.clean_text toy_lib predictor (lit "The Cats, the DOGS !") false
        = Ok out
        /\ Forall (fun c => allowed c = true) out)
  /\ (forall out,
        SentimentPredictor.clean_text toy_lib predictor (lit "The Cats, the DOGS !") true
        = Ok out ->
        Forall (fun c => allowed c = true) out)
  /\ CleanText.clean_text toy_lib stemming [] = []
  /\ SentimentPredictor.clean_text toy_lib predictor [] false = Ok [].
Proof.
  split; [exact toy_lower_on_ascii |].
  split; [intros _; exact toy_stem_keeps_alphabet |].
  exact (clean_text_alphabet toy_lib stemming predictor (lit "The Cats, the DOGS !")
           toy_lower_on_ascii (fun _ => toy_stem_keeps_alphabet)).
Defined.

Lemma clean_text_idempotent_witness :
  lower_on_ascii toy_lib
  /\ CleanText.clean_text toy_lib plain
       (CleanText.clean_text toy_lib plain (lit "  Hello,   World!! 42 "))
     = CleanText.clean_text toy_lib plain (lit "  Hello,   World!! 42 ").
Proof.
  split; [exact toy_lower_on_ascii |].
  exact (clean_text_idempotent toy_lib (lit "  Hello,   World!! 42 ") toy_lower_on_ascii).
Defined.

(** ** The stopword sets *)

Lemma remove_each_difference (words : list pystr) : forall stopwords : gset pystr,
  Stopwords.remove_each words stopwords = stopwords ∖ list_to_set words.
Proof.
  induction words as [| word rest IH]; intros stopwords; cbn [Stopwords.remove_each].
  - set_solver.
  - rewrite IH. case_bool_decide; set_solver.
Qed.

Lemma init_nltk (L : Lib) :
  Stopwords.get_stopwords (Stopwords.__init__ L (lit "nltk"))
  = list_to_set (stopwords_words_english L) ∖ list_to_set Stopwords.reserve.
Proof.
  unfold Stopwords.__init__.
  rewrite bool_decide_eq_false_2 by (vm_compute; discriminate).
  rewrite bool_decide_eq_true_2 by reflexivity.
  cbn [Stopwords.get_stopwords Stopwords.stopwords]. apply remove_each_difference.
Qed.

(** C7: the set [Stopwords('nltk')] holds is the corpus without the reserved
    words, so none of [not], [no], [never], [but], [only], [just], [very],
    [really], [too], [don't], [wasn't], [didn't], [can't], [won't] is in it,
    whatever the corpus. *)
Theorem nltk_stopwords_without_reserve (L : Lib) :
  Stopwords.get_stopwords (Stopwords.__init__ L (lit "nltk"))
  = list_to_set (stopwords_words_english L) ∖ list_to_set Stopwords.reserve
  /\ Forall (fun word => word ∉ Stopwords.get_stopwords (Stopwords.__init__ L (lit "nltk")))
       (List.map lit
          ["not"; "no"; "never"; "but"; "only"; "just"; "very"; "really"; "too";
           "don't"; "wasn't"; "didn't"; "can't"; "won't"]%string).
Proof.
  split; [apply init_nltk |].
  apply List.Forall_forall. intros word Hword. rewrite init_nltk.
  change (In word Stopwords.reserve) in Hword.
  apply list_elem_of_In in Hword. set_solver.
Qed.

Example nltk_stopwords_ex :
  bool_decide (lit "the" ∈ Stopwords.get_stopwords (Stopwords.__init__ toy_lib (lit "nltk"))) = true
  /\ bool_decide (lit "not" ∈ Stopwords.get_stopwords (Stopwords.__init__ toy_lib (lit "nltk"))) = false
  /\ bool_decide (lit "don't" ∈ Stopwords.get_stopwords (Stopwords.__init__ toy_lib (lit "nltk"))) = false.
Proof. vm_compute. repeat split. Qed.

Example specified_stopwords_ex :
  bool_decide (lit "the" ∈ Stopwords.get_stopwords (Stopwords.__init__ toy_lib (lit "specified")))
  = true
  /\ size (Stopwords.get_stopwords (Stopwords.__init__ toy_lib (lit "specified"))) = 24%nat
  /\ Stopwords.get_stopwords (Stopwords.__init__ toy_lib (lit "other")) = ∅.
Proof. vm_compute. repeat split. Qed.

(** ** [predict] *)

Lemma detect_str (L : Lib) (s : pystr) (p : process) :
  detect L (PyStr s) p
  = (match langdetect L (seed_in p) s with
     | Some code => Ok code
     | None => Raise LangDetectException
     end,
     after_detect (PyStr s) p).
Proof.
  unfold detect, bind, log, random_seed, seed_in, after_detect, ret, raise. cbn.
  destruct (DetectorFactory_seed p); cbn;
    destruct (langdetect L _ s); reflexivity.
Qed.

Lemma detect_not_str (L : Lib) (v : pyval) (p : process) :
  (forall s, v <> PyStr s) ->
  detect L v p = (Raise TypeError, add_call (CallDetect v (DetectorFactory_seed p)) p).
Proof.
  intros Hv. destruct v; try reflexivity. contradiction (Hv s eq_refl).
Qed.

Lemma classify_eq (L : Lib) (self : SentimentPredictor.t) (s : pystr) (p : process) :
  SentimentPredictor.classify L self s p
  = let text := scrub L s in
    let inputs := tokenizer L text SentimentPredictor.tokenizer_args in
    let p3 := add_call (CallModel Product)
                (add_call (CallTokenizer text SentimentPredictor.tokenizer_args)
                   (add_call (CallCleanText (PyStr s)) p)) in
    match nth_error (SentimentPredictor.labels self) (model_product L inputs) with
    | None => (Raise IndexError, p3)
    | Some sentiment_product =>
        let p4 := add_call (CallModel Video) p3 in
        match nth_error (SentimentPredictor.labels self) (model_video L inputs) with
        | None => (Raise IndexError, p4)
        | Some sentiment_video =>
            (Ok (Some {| SentimentPredictor.sentiment_for_product := sentiment_product;
                         SentimentPredictor.sentiment_for_video := sentiment_video |}),
             p4)
        end
    end.
Proof.
  unfold SentimentPredictor.classify, bind, log, lift, SentimentPredictor.label, ret, raise.
  rewrite predictor_clean_text_default. cbn.
  destruct (nth_error _ (model_product L _)); [| reflexivity].
  destruct (nth_error _ (model_video L _)); reflexivity.
Qed.

Lemma predict_str (L : Lib) (self : SentimentPredictor.t) (s : pystr) (p : process) :
  SentimentPredictor.predict L self (PyStr s) p
  = match PyStr.strip s with
    | [] => (Ok None, p)
    | _ :: _ =>
        match langdetect L (seed_in p) s with
        | None => (Ok None, after_detect (PyStr s) p)
        | Some language =>
            if bool_decide (language ≠ lit "en")
            then (Ok None, after_detect (PyStr s) p)
            else SentimentPredictor.classify L self s (after_detect (PyStr s) p)
        end
    end.
Proof.
  unfold SentimentPredictor.predict. destruct (PyStr.strip s); [reflexivity |].
  unfold bind, try_except, SentimentPredictor.get_language. rewrite detect_str.
  destruct (langdetect L (seed_in p) s) as [language |]; [| reflexivity].
  unfold ret. destruct (bool_decide (language ≠ lit "en")); reflexivity.
Qed.

(** What [classify] can end with. *)
Lemma classify_outcome (L : Lib) (self : SentimentPredictor.t) (s : pystr) (p : process) :
  (exists d, fst (SentimentPredictor.classify L self s p) = Ok (Some d))
  \/ fst (SentimentPredictor.classify L self s p) = Raise IndexError.
Proof.
  rewrite classify_eq. cbv zeta.
  destruct (nth_error _ (model_product L _)); [| right; reflexivity].
  destruct (nth_error _ (model_video L _)); [left; eexists; reflexivity | right; reflexivity].
Qed.

Lemma classify_tokenizer_calls (L : Lib) (self : SentimentPredictor.t) (s : pystr)
    (p : process) :
  tokenizer_calls (calls (snd (SentimentPredictor.classify L self s p)))
  = tokenizer_calls (calls p) ++ [(scrub L s, SentimentPredictor.tokenizer_args)].
Proof.
  rewrite classify_eq. cbv zeta. unfold tokenizer_calls.
  destruct (nth_error _ (model_product L _)); [destruct (nth_error _ (model_video L _)) |];
    cbn; rewrite !flat_map_app; cbn; rewrite ?app_nil_r; reflexivity.
Qed.

Lemma after_detect_tokenizer_calls (text : pyval) (p : process) :
  tokenizer_calls (calls (after_detect text p)) = tokenizer_calls (calls p).
Proof.
  unfold after_detect, tokenizer_calls. destruct (DetectorFactory_seed p); cbn;
    rewrite flat_map_app; cbn; apply app_nil_r.
Qed.

(** C2: for a string, [predict] returns [None] exactly when the string is
    empty after [strip], or the detector names a language other than ['en'],
    or the detector raises [LangDetectException]; and that exception never
    reaches the caller of [predict]. *)
Theorem predict_absent_iff (L : Lib) (self : SentimentPredictor.t) (s : pystr)
    (p : process) :
  (fst (SentimentPredictor.predict L self (PyStr s) p) = Ok None
   <-> PyStr.strip s = []
       \/ (exists language,
             fst (SentimentPredictor.get_language L self (PyStr s) p) = Ok language
             /\ language <> lit "en")
       \/ fst (SentimentPredictor.get_language L self (PyStr s) p)
          = Raise LangDetectException)
  /\ fst (SentimentPredictor.predict L self (PyStr s) p) <> Raise LangDetectException.
Proof.
  rewrite predict_str. unfold SentimentPredictor.get_language. rewrite detect_str.
  cbn [fst]. destruct (PyStr.strip s) as [| c r] eqn:Es.
  { split; [| discriminate]. split; [left; reflexivity | reflexivity]. }
  destruct (langdetect L (seed_in p) s) as [language |].
  2:{ split; [| discriminate]. split; [right; right; reflexivity | reflexivity]. }
  case_bool_decide as Hen.
  { split; [| discriminate]. split; [| reflexivity].
    intros _. right. left. exists language. split; [reflexivity | exact Hen]. }
  assert (language = lit "en") as -> by (destruct (decide (language = lit "en")); tauto).
  destruct (classify_outcome L self s (after_detect (PyStr s) p)) as [[d Hd] | Hd];
    rewrite Hd.
  - split; [| discriminate]. split; [discriminate |].
    intros [H | [[l [[= <-] Hl]] | H]]; [discriminate | contradiction | discriminate].
  - split; [| discriminate]. split; [discriminate |].
    intros [H | [[l [[= <-] Hl]] | H]]; [discriminate | contradiction | discriminate].
Qed.

(** C5: [predict] raises [TypeError] exactly when its argument is not a
    string, and then it has done nothing else: no call of the detector, of
    [clean_text], of the tokenizer or of a model, and the process is as it
    was. *)
Theorem predict_type_error_iff (L : Lib) (self : SentimentPredictor.t)
    (comment : pyval) (p : process) :
  (fst (SentimentPredictor.predict L self comment p) = Raise TypeError
   <-> forall s, comment <> PyStr s)
  /\ ((forall s, comment <> PyStr s) ->
      SentimentPredictor.predict L self comment p = (Raise TypeError, p)
      /\ calls (snd (SentimentPredictor.predict L self comment p)) = calls p).
Proof.
  destruct comment as [| b | z | s];
    try (split; [split; [intros _ s; discriminate | reflexivity]
                | intros _; split; reflexivity]).
  split.
  - split; [| intros H; contradiction (H s eq_refl)].
    rewrite predict_str. destruct (PyStr.strip s); [discriminate |].
    destruct (langdetect L (seed_in p) s) as [language |]; [| discriminate].
    case_bool_decide; [discriminate |].
    destruct (classify_outcome L self s (after_detect (PyStr s) p)) as [[d Hd] | Hd];
      rewrite Hd; discriminate.
  - intros H. contradiction (H s eq_refl).
Qed.

Example predict_42 :
  SentimentPredictor.predict toy_lib predictor (PyInt 42) (fresh no_frame)
  = (Raise TypeError, fresh no_frame).
Proof. reflexivity. Qed.

Example predict_empty :
  fst (SentimentPredictor.predict toy_lib predictor (PyStr (lit "   ")) (fresh no_frame))
  = Ok None.
Proof. reflexivity. Qed.

Example predict_english :
  fst (SentimentPredictor.predict toy_lib predictor
         (PyStr (lit "This product is amazing!")) (fresh no_frame))
  = Ok (Some {| SentimentPredictor.sentiment_for_product := lit "negative";
                SentimentPredictor.sentiment_for_video := lit "neutral" |}).
Proof. vm_compute. reflexivity. Qed.

Example predict_undetectable :
  fst (SentimentPredictor.predict toy_lib predictor (PyStr (lit "12345 !!")) (fresh no_frame))
  = Ok None.
Proof. vm_compute. reflexivity. Qed.

(** The tokenizer call of [predict]: for a string that is not blank and
    that the detector calls ['en'], the tokenizer is called once, on the
    cleaned comment, with [max_length=128], [truncation=True] and
    [padding=True]. *)
Lemma predict_tokenizer_call (L : Lib) (self : SentimentPredictor.t) (s : pystr)
    (p : process) :
  PyStr.strip s <> [] ->
  fst (SentimentPredictor.get_language L self (PyStr s) p) = Ok (lit "en") ->
  exists text,
    SentimentPredictor.clean_text L self s false = Ok text
    /\ tokenizer_calls (calls (snd (SentimentPredictor.predict L self (PyStr s) p)))
       = tokenizer_calls (calls p)
         ++ [(text, {| return_tensors := lit "pt"; truncation := true;
                       padding := true; max_length := 128 |})].
Proof.
  intros Hs Hen. exists (scrub L s). split; [reflexivity |].
  rewrite predict_str. unfold SentimentPredictor.get_language in Hen.
  rewrite detect_str in Hen. cbn [fst] in Hen.
  destruct (PyStr.strip s); [contradiction |].
  destruct (langdetect L (seed_in p) s) as [language |]; [| discriminate].
  injection Hen as ->. rewrite bool_decide_eq_false_2 by (intros H; apply H; reflexivity).
  rewrite classify_tokenizer_calls, after_detect_tokenizer_calls. reflexivity.
Qed.

(** On the other paths of [predict] the tokenizer is not called. *)
Lemma predict_no_tokenizer_call (L : Lib) (self : SentimentPredictor.t)
    (comment : pyval) (p : process) :
  (forall s, comment = PyStr s -> PyStr.strip s <> [] ->
             fst (SentimentPredictor.get_language L self comment p) <> Ok (lit "en")) ->
  tokenizer_calls (calls (snd (SentimentPredictor.predict L self comment p)))
  = tokenizer_calls (calls p).
Proof.
  intros H. destruct comment as [| b | z | s]; try reflexivity.
  specialize (H s eq_refl). rewrite predict_str.
  unfold SentimentPredictor.get_language in H. rewrite detect_str in H. cbn [fst] in H.
  destruct (PyStr.strip s); [reflexivity |]. specialize (H ltac:(discriminate)).
  destruct (langdetect L (seed_in p) s) as [language |];
    [| apply after_detect_tokenizer_calls].
  case_bool_decide as Hen; [apply after_detect_tokenizer_calls |].
  exfalso. apply H. f_equal. destruct (decide (language = lit "en")); tauto.
Qed.

Lemma predict_tokenizer_call_witness :
  PyStr.strip (lit " Great video, thanks! ") <> []
  /\ fst (SentimentPredictor.get_language toy_lib predictor
            (PyStr (lit " Great video, thanks! ")) (fresh no_frame)) = Ok (lit "en")
  /\ exists text,
       SentimentPredictor.clean_text toy_lib predictor (lit " Great video, thanks! ") false
       = Ok text
       /\ tokenizer_calls
            (calls (snd (SentimentPredictor.predict toy_lib predictor
                           (PyStr (lit " Great video, thanks! ")) (fresh no_frame))))
          = tokenizer_calls (calls (fresh no_frame))
            ++ [(text, {| return_tensors := lit "pt"; truncation := true;
                          padding := true; max_length := 128 |})].
Proof.
  assert (H1 : PyStr.strip (lit " Great video, thanks! ") <> [])
    by (vm_compute; discriminate).
  assert (H2 : fst (SentimentPredictor.get_language toy_lib predictor
                      (PyStr (lit " Great video, thanks! ")) (fresh no_frame))
               = Ok (lit "en")) by (vm_compute; reflexivity).
  split; [exact H1 |]. split; [exact H2 |].
  exact (predict_tokenizer_call toy_lib predictor (lit " Great video, thanks! ")
           (fresh no_frame) H1 H2).
Defined.

(** ** The detector's seed *)

(** In the dataset path the seed is 0 when the rows are read, and the
    language found for a text does not depend on the rest of the process. *)
Lemma remove_non_english_language_fixed (L : Lib) (self1 self2 : RemoveNonEnglish.t)
    (text : pyval) (p1 p2 : process) :
  DetectorFactory_seed p1 = Some 0%Z ->
  DetectorFactory_seed p2 = Some 0%Z ->
  fst (RemoveNonEnglish.get_language L self1 text p1)
  = fst (RemoveNonEnglish.get_language L self2 text p2).
Proof.
  intros H1 H2. unfold RemoveNonEnglish.get_language.
  destruct text as [| b | z | s]; try reflexivity.
  rewrite !detect_str. unfold seed_in. rewrite H1, H2. reflexivity.
Qed.

(** Neither [SentimentPredictor()] nor [predict] assigns the seed. *)
Lemma predictor_init_keeps_seed (p : process) :
  DetectorFactory_seed (snd (SentimentPredictor.__init__ p)) = DetectorFactory_seed p.
Proof. reflexivity. Qed.

Lemma after_detect_seed (text : pyval) (p : process) :
  DetectorFactory_seed (after_detect text p) = DetectorFactory_seed p.
Proof. unfold after_detect. destruct (DetectorFactory_seed p) eqn:E; cbn; congruence. Qed.

Lemma predict_keeps_seed (L : Lib) (self : SentimentPredictor.t) (comment : pyval)
    (p : process) :
  DetectorFactory_seed (snd (SentimentPredictor.predict L self comment p))
  = DetectorFactory_seed p.
Proof.
  destruct comment as [| b | z | s]; try reflexivity.
  rewrite predict_str. destruct (PyStr.strip s); [reflexivity |].
  destruct (langdetect L (seed_in p) s) as [language |]; [| apply after_detect_seed].
  case_bool_decide; [apply after_detect_seed |].
  rewrite classify_eq. cbv zeta.
  destruct (nth_error _ (model_product L _)); [destruct (nth_error _ (model_video L _)) |];
    cbn; apply after_detect_seed.
Qed.

(** With no seed assigned, the language [predict] sees for a comment is the
    one the detector finds from the entropy drawn at that call. *)
Lemma predictor_language_from_entropy (L : Lib) (self : SentimentPredictor.t)
    (s : pystr) (p : process) :
  DetectorFactory_seed p = None ->
  SentimentPredictor.get_language L self (PyStr s) p
  = (match langdetect L (entropy p (drawn p)) s with
     | Some code => Ok code
     | None => Raise LangDetectException
     end,
     set_drawn (S (drawn p)) (add_call (CallDetect (PyStr s) None) p)).
Proof.
  intros H. unfold SentimentPredictor.get_language. rewrite detect_str.
  unfold seed_in, after_detect. rewrite H. reflexivity.
Qed.

(** C6, the prediction path: in a process where only [SentimentPredictor]
    is used, [DetectorFactory.seed] is never assigned, and with a detector
    whose answer for a short text depends on its random seed two calls of
    [predict] on the same comment end differently: both detector calls are
    made with the seed unset, the first finds English and returns labels,
    the second finds another language and returns [None]. *)
Theorem predict_same_comment_two_outcomes :
  two_predictions toy_lib (PyStr (lit "nice video")) (fresh no_frame)
  = (Ok (Some {| SentimentPredictor.sentiment_for_product := lit "neutral";
                 SentimentPredictor.sentiment_for_video := lit "neutral" |}),
     Ok None,
     [CallDetect (PyStr (lit "nice video")) None;
      CallCleanText (PyStr (lit "nice video"));
      CallTokenizer (lit "nice video") SentimentPredictor.tokenizer_args;
      CallModel Product;
      CallModel Video;
      CallDetect (PyStr (lit "nice video")) None]).
Proof. vm_compute. reflexivity. Qed.

(** ** The dataset passes *)

Example remove_non_english_comments :
  let '(r, p') := RemoveNonEnglish.__init__ toy_lib (fresh comments) in
  List.map fst (rows (frame p')) = [0%Z; 7%Z]
  /\ stdout p' = [NonLanguageEntries 1; OtherLanguageEntries 1; SizeReduces 2 4 2]
  /\ DetectorFactory_seed p' = Some 0%Z.
Proof. vm_compute. repeat split. Qed.

Example clean_df_comments :
  let '(r, p') := CleanText.clean_df toy_lib plain (fresh comments) in
  r = Ok tt
  /\ List.map (fun row => hd PyNone (snd row)) (rows (frame p'))
     = [PyStr (lit "this product is amazing!"); PyStr (lit "12345 !!");
        PyStr (lit "ber alles gut danke"); PyStr (lit "the video was boring")].
Proof. vm_compute. repeat split. Qed.

(** *** Lists of labelled rows *)

Lemma NoDup_map_inj_in {A B} (f : A -> B) (l : list A) (a b : A) :
  List.NoDup (List.map f l) -> In a l -> In b l -> f a = f b -> a = b.
Proof.
  induction l as [| x l IH]; [intros _ [] |].
  cbn [List.map]. intros Hnd Ha Hb Hf. inversion Hnd as [| ? ? Hx Hl]; subst.
  destruct Ha as [-> | Ha], Hb as [-> | Hb].
  - reflexivity.
  - exfalso. apply Hx. rewrite Hf. apply in_map, Hb.
  - exfalso. apply Hx. rewrite <- Hf. apply in_map, Ha.
  - apply IH; assumption.
Qed.

Lemma label_of_filtered (q : Z * list pyval -> bool) (tuples : list (Z * list pyval))
    (r : Z * list pyval) :
  List.NoDup (List.map fst tuples) -> In r tuples ->
  existsb (Z.eqb (fst r)) (List.map fst (List.filter q tuples)) = q r.
Proof.
  intros Hnd Hr. destruct (q r) eqn:Eq.
  - apply existsb_exists. exists (fst r). split; [| apply Z.eqb_refl].
    apply in_map, filter_In. split; assumption.
  - apply not_true_is_false. intros H. apply existsb_exists in H.
    destruct H as [l [Hl Heq]]. apply Z.eqb_eq in Heq. subst l.
    apply in_map_iff in Hl. destruct Hl as [r' [Hfst Hr']].
    apply filter_In in Hr'. destruct Hr' as [Hr' Hq].
    rewrite (NoDup_map_inj_in fst tuples r' r Hnd Hr' Hr Hfst) in Hq. congruence.
Qed.

Lemma filter_filter {A} (f g : A -> bool) (l : list A) :
  List.filter g (List.filter f l) = List.filter (fun x => f x && g x) l.
Proof.
  induction l as [| x l IH]; [reflexivity |]. cbn [List.filter].
  destruct (f x); cbn [List.filter andb]; [destruct (g x) |]; rewrite IH; reflexivity.
Qed.

(** *** The three classes of rows *)

Lemma text_first_row_outcome (L : Lib) (row : Z * list pyval) :
  text_first_of_three row = true ->
  exists s a b, snd row = [PyStr s; a; b] /\ row_outcome L row = Some (classify0 L s).
Proof.
  unfold text_first_of_three, row_outcome. destruct row as [index cells]. cbn [snd].
  destruct cells as [| [| | | s] [| a [| b [| c cells]]]]; try discriminate.
  intros _. exists s, a, b. split; reflexivity.
Qed.

Lemma english_iff_neither (L : Lib) (row : Z * list pyval) :
  text_first_of_three row = true ->
  is_english L row = negb (is_undetectable L row) && negb (is_other L row).
Proof.
  intros H. destruct (text_first_row_outcome L row H) as [s [a [b [_ Ho]]]].
  unfold is_english, is_undetectable, is_other. rewrite Ho.
  destruct (classify0 L s); reflexivity.
Qed.

Lemma undetectable_not_other (L : Lib) (row : Z * list pyval) :
  is_other L row = true -> is_undetectable L row = false.
Proof.
  unfold is_other, is_undetectable.
  destruct (row_outcome L row) as [[| code |] |]; congruence.
Qed.

Lemma three_classes (L : Lib) (tuples : list (Z * list pyval)) :
  Forall (fun row => text_first_of_three row = true) tuples ->
  (List.length (List.filter (is_english L) tuples)
   + (List.length (List.filter (is_other L) tuples)
      + List.length (List.filter (is_undetectable L) tuples)))%nat
  = List.length tuples.
Proof.
  induction 1 as [| row rest Hrow Hrest IH]; [reflexivity |].
  destruct (text_first_row_outcome L row Hrow) as [s [a [b [_ Ho]]]].
  cbn [List.filter]. unfold is_english, is_other, is_undetectable in *. rewrite Ho.
  destruct (classify0 L s); cbn [List.length]; lia.
Qed.

(** *** [collect_non_english_content] *)

Lemma collect_row_seeded (L : Lib) (self : RemoveNonEnglish.t) (index : Z)
    (s : pystr) (p : process) :
  DetectorFactory_seed p = Some 0%Z ->
  RemoveNonEnglish.collect_row L self index (PyStr s) p
  = (Ok (match classify0 L s with
         | English => self
         | OtherLanguage code =>
             RemoveNonEnglish.add_other_language self index (PyStr s) code
         | Undetectable => RemoveNonEnglish.add_exception self index (PyStr s)
         end),
     add_call (CallDetect (PyStr s) (Some 0%Z)) p).
Proof.
  intros Hseed.
  unfold RemoveNonEnglish.collect_row, try_except, bind, RemoveNonEnglish.get_language.
  rewrite detect_str. unfold seed_in, after_detect, classify0. rewrite Hseed.
  destruct (langdetect L 0%Z s) as [language |]; [| reflexivity].
  unfold ret. destruct (bool_decide (language ≠ lit "en")); reflexivity.
Qed.

Lemma collect_rows_seeded (L : Lib) (tuples : list (Z * list pyval)) :
  forall (self : RemoveNonEnglish.t) (p : process),
    DetectorFactory_seed p = Some 0%Z ->
    Forall (fun row => text_first_of_three row = true) tuples ->
    exists p',
      RemoveNonEnglish.collect_rows L self tuples p = (Ok (record_rows L self tuples), p')
      /\ frame p' = frame p /\ stdout p' = stdout p
      /\ DetectorFactory_seed p' = Some 0%Z
      /\ calls p' = calls p ++ detect_calls tuples.
Proof.
  induction tuples as [| row rest IH]; intros self p Hseed Hshape.
  - exists p. cbn. rewrite app_nil_r. repeat split; assumption || reflexivity.
  - inversion Hshape as [| ? ? Hrow Hrest]; subst.
    destruct (text_first_row_outcome L row Hrow) as [s [a [b [Hcells _]]]].
    destruct row as [index cells]. cbn [snd] in Hcells. subst cells.
    cbn [RemoveNonEnglish.collect_rows]. unfold bind at 1.
    rewrite (collect_row_seeded L self index s p Hseed).
    destruct (IH (record_row L self (index, [PyStr s; a; b]))
                 (add_call (CallDetect (PyStr s) (Some 0%Z)) p) Hseed Hrest)
      as [p' [Hrun [Hframe [Hout [Hseed' Hcalls]]]]].
    exists p'. repeat split; try assumption.
    cbn in Hcalls |- *. rewrite Hcalls, <- app_assoc. reflexivity.
Qed.

Lemma record_rows_entries (L : Lib) (tuples : list (Z * list pyval)) :
  forall self : RemoveNonEnglish.t,
    List.map fst (RemoveNonEnglish.exception_entries (record_rows L self tuples))
    = List.map fst (RemoveNonEnglish.exception_entries self)
      ++ List.map fst (List.filter (is_undetectable L) tuples)
    /\ List.map (fun entry => fst (fst entry))
         (RemoveNonEnglish.other_language_entries (record_rows L self tuples))
       = List.map (fun entry => fst (fst entry)) (RemoveNonEnglish.other_language_entries self)
         ++ List.map fst (List.filter (is_other L) tuples)
    /\ RemoveNonEnglish.original_size (record_rows L self tuples)
       = RemoveNonEnglish.original_size self.
Proof.
  induction tuples as [| row rest IH]; intros self.
  - cbn. rewrite !app_nil_r. repeat split.
  - unfold record_rows. cbn [fold_left]. fold (record_rows L (record_row L self row) rest).
    destruct (IH (record_row L self row)) as [Hexc [Hoth Hsize]].
    rewrite Hexc, Hoth, Hsize. cbn [List.filter].
    unfold record_row, is_undetectable, is_other, row_outcome.
    destruct (snd row) as [| [| | | s] cells]; try (repeat split; reflexivity).
    destruct (classify0 L s); cbn; rewrite ?map_app, <- ?app_assoc; repeat split.
Qed.

(** *** [remove] *)

Lemma drop_known (labels : list Z) (p : process) :
  incl labels (index (frame p)) ->
  drop labels p
  = (Ok tt,
     set_frame {| columns := columns (frame p);
                  rows := List.filter (kept labels) (rows (frame p)) |} p).
Proof.
  intros Hincl. unfold drop.
  assert (H : forallb (fun l => existsb (Z.eqb l) (index (frame p))) labels = true).
  { apply forallb_forall. intros l Hl. apply existsb_exists.
    exists l. split; [apply Hincl, Hl | apply Z.eqb_refl]. }
  rewrite H. reflexivity.
Qed.

Lemma filter_not_undetectable_not_other (L : Lib) (tuples : list (Z * list pyval)) :
  Forall (fun row => text_first_of_three row = true) tuples ->
  List.filter (fun row => negb (is_undetectable L row) && negb (is_other L row)) tuples
  = List.filter (is_english L) tuples.
Proof.
  intros Hshape. apply filter_ext_in. intros row Hrow.
  rewrite List.Forall_forall in Hshape. symmetry.
  apply english_iff_neither, Hshape, Hrow.
Qed.

Lemma remove_english_left (L : Lib) (self : RemoveNonEnglish.t) (p : process) :
  let tuples := rows (frame p) in
  List.NoDup (List.map fst tuples) ->
  Forall (fun row => text_first_of_three row = true) tuples ->
  List.map fst (RemoveNonEnglish.exception_entries self)
  = List.map fst (List.filter (is_undetectable L) tuples) ->
  List.map (fun entry => fst (fst entry)) (RemoveNonEnglish.other_language_entries self)
  = List.map fst (List.filter (is_other L) tuples) ->
  RemoveNonEnglish.remove self p
  = (Ok tt,
     let df' := {| columns := columns (frame p);
                   rows := List.filter (is_english L) tuples |} in
     add_line (SizeReduces (Z.of_nat (len df'))
                 (Z.of_nat (RemoveNonEnglish.original_size self))
                 (Z.of_nat (RemoveNonEnglish.original_size self) - Z.of_nat (len df')))
       (set_frame df' p)).
Proof.
  intros tuples Hnd Hshape Hexc Hoth.
  assert (H1 : List.filter (kept (List.map fst (List.filter (is_undetectable L) tuples)))
                 tuples
               = List.filter (fun row => negb (is_undetectable L row)) tuples).
  { apply filter_ext_in. intros row Hrow. unfold kept.
    rewrite (label_of_filtered _ tuples row Hnd Hrow). reflexivity. }
  assert (H2 : List.filter (kept (List.map fst (List.filter (is_other L) tuples)))
                 (List.filter (fun row => negb (is_undetectable L row)) tuples)
               = List.filter (is_english L) tuples).
  { rewrite <- (filter_not_undetectable_not_other L tuples Hshape), <- filter_filter.
    apply filter_ext_in. intros row Hrow. apply filter_In in Hrow.
    destruct Hrow as [Hrow _]. unfold kept.
    rewrite (label_of_filtered _ tuples row Hnd Hrow). reflexivity. }
  unfold RemoveNonEnglish.remove, bind. rewrite Hexc, Hoth.
  rewrite drop_known.
  2:{ intros l Hl. apply in_map_iff in Hl. destruct Hl as [row [<- Hrow]].
      apply filter_In in Hrow. apply in_map, Hrow. }
  fold tuples. rewrite H1. rewrite drop_known.
  2:{ intros l Hl. apply in_map_iff in Hl. destruct Hl as [row [<- Hrow]].
      apply filter_In in Hrow. destruct Hrow as [Hrow Hother].
      cbn. apply in_map, filter_In. split; [exact Hrow |].
      rewrite (undetectable_not_other L row Hother). reflexivity. }
  cbn. rewrite H2. reflexivity.
Qed.

(** *** [RemoveNonEnglish(df)] on a table of texts *)

Lemma remove_non_english_run (L : Lib) (p : process) :
  let tuples := rows (frame p) in
  List.NoDup (List.map fst tuples) ->
  Forall (fun row => text_first_of_three row = true) tuples ->
  exists self p',
    RemoveNonEnglish.__init__ L p = (Ok self, p')
    /\ frame p' = {| columns := columns (frame p);
                     rows := List.filter (is_english L) tuples |}
    /\ List.length (RemoveNonEnglish.other_language_entries self)
       = List.length (List.filter (is_other L) tuples)
    /\ List.length (RemoveNonEnglish.exception_entries self)
       = List.length (List.filter (is_undetectable L) tuples)
    /\ stdout p'
       = stdout p
         ++ [NonLanguageEntries (List.length (List.filter (is_undetectable L) tuples));
             OtherLanguageEntries (List.length (List.filter (is_other L) tuples));
             SizeReduces (Z.of_nat (List.length (List.filter (is_english L) tuples)))
               (Z.of_nat (List.length tuples))
               (Z.of_nat (List.length tuples)
                - Z.of_nat (List.length (List.filter (is_english L) tuples)))]
    /\ DetectorFactory_seed p' = Some 0%Z
    /\ calls p' = calls p ++ detect_calls tuples.
Proof.
  intros tuples Hnd Hshape.
  set (self0 := {| RemoveNonEnglish.exception_entries := [];
                   RemoveNonEnglish.other_language_entries := [];
                   RemoveNonEnglish.original_size := len (frame p) |}).
  destruct (collect_rows_seeded L tuples self0 (set_seed (Some 0%Z) p) eq_refl Hshape)
    as [p1 [Hrun [Hframe [Hout [Hseed Hcalls]]]]].
  destruct (record_rows_entries L tuples self0) as [Hexc [Hoth Hsize]].
  cbn [List.map app RemoveNonEnglish.exception_entries
       RemoveNonEnglish.other_language_entries self0] in Hexc, Hoth.
  set (self1 := record_rows L self0 tuples) in *.
  set (p2 := add_line (OtherLanguageEntries
                         (List.length (RemoveNonEnglish.other_language_entries self1)))
               (add_line (NonLanguageEntries
                            (List.length (RemoveNonEnglish.exception_entries self1))) p1)).
  assert (Hframe2 : frame p2 = frame p) by exact Hframe.
  assert (Hrem := remove_english_left L self1 p2).
  cbv zeta in Hrem. rewrite Hframe2 in Hrem. fold tuples in Hrem.
  specialize (Hrem Hnd Hshape Hexc Hoth).
  assert (Hlen_exc : List.length (RemoveNonEnglish.exception_entries self1)
                     = List.length (List.filter (is_undetectable L) tuples)).
  { rewrite <- (length_map fst (RemoveNonEnglish.exception_entries self1)), Hexc.
    apply length_map. }
  assert (Hlen_oth : List.length (RemoveNonEnglish.other_language_entries self1)
                     = List.length (List.filter (is_other L) tuples)).
  { rewrite <- (length_map (fun entry => fst (fst entry))
                  (RemoveNonEnglish.other_language_entries self1)), Hoth.
    apply length_map. }
  eexists self1, _. split.
  { unfold RemoveNonEnglish.__init__, RemoveNonEnglish.collect_non_english_content,
      bind, get_frame, print, ret.
    cbn [frame set_seed]. fold self0. fold tuples. rewrite Hrun.
    fold self1. fold p2. rewrite Hrem. reflexivity. }
  cbn. rewrite Hout, Hsize, Hlen_exc, Hlen_oth. cbn.
  repeat split; try assumption; try reflexivity.
  rewrite <- !app_assoc. reflexivity.
Qed.

(** C1, counterexample: on the table of the data model, an identifier and
    one text column, with one English row, [RemoveNonEnglish] raises
    [ValueError] at the first row instead of keeping that row. *)
Lemma filterEnglish_text_only_raises :
  fst (RemoveNonEnglish.__init__ toy_lib (fresh text_only)) = Raise ValueError
  /\ ~ filterEnglish_claim toy_lib (fresh text_only).
Proof.
  split; [reflexivity |]. intros H.
  destruct H as [self [p' [Hrun _]]].
  - cbn. repeat constructor. intros [].
  - apply (f_equal fst) in Hrun. cbn in Hrun. discriminate.
Qed.

(** C1: for a dataset whose rows each have exactly three data cells, the
    first a string, and which has unique index labels, [RemoveNonEnglish]
    ends normally; with [N] rows of which [K] are classified as another
    language or as undetectable, the dataset is left with the [N - K] rows
    classified English, and the lines printed give the number of
    undetectable rows, the number of rows of other languages and [K] as the
    number removed. *)
Theorem filterEnglish_on_text_tables (L : Lib) (p : process) :
  Forall (fun row => text_first_of_three row = true) (rows (frame p)) ->
  filterEnglish_claim L p.
Proof.
  intros Hshape. unfold filterEnglish_claim. cbv zeta. intros Hnd.
  destruct (remove_non_english_run L p Hnd Hshape)
    as [self [p' [Hrun [Hframe [Hoth [Hexc [Hout _]]]]]]].
  pose proof (three_classes L (rows (frame p)) Hshape) as Hcount.
  exists self, p'. split; [exact Hrun |]. split; [exact Hframe |].
  split; [rewrite Hframe; unfold len; cbn [rows]; lia |].
  split; [exact Hoth |]. split; [exact Hexc |].
  rewrite Hout. unfold len. repeat f_equal; lia.
Qed.

Lemma filterEnglish_on_text_tables_witness :
  Forall (fun row => text_first_of_three row = true) (rows (frame (fresh comments)))
  /\ filterEnglish_claim toy_lib (fresh comments).
Proof.
  assert (H : Forall (fun row => text_first_of_three row = true)
                (rows (frame (fresh comments)))) by (repeat constructor).
  split; [exact H |].
  exact (filterEnglish_on_text_tables toy_lib (fresh comments) H).
Defined.

(** Without unique labels the count is not [N - K]: dropping a label drops
    every row that carries it. *)
Example remove_non_english_shared_label :
  let df := {| columns := columns comments;
               rows := [(3%Z, [PyStr (lit "This product is amazing!"); PyInt 2; PyInt 1]);
                        (3%Z, [PyStr (lit "12345 !!"); PyInt 1; PyInt 1])] |} in
  rows (frame (snd (RemoveNonEnglish.__init__ toy_lib (fresh df)))) = [].
Proof. reflexivity. Qed.

(** *** The column shape *)

Lemma collect_rows_ok (L : Lib) (tuples : list (Z * list pyval)) :
  forall (self self' : RemoveNonEnglish.t) (p p' : process),
    RemoveNonEnglish.collect_rows L self tuples p = (Ok self', p') ->
    Forall (fun row => List.length (snd row) = 3%nat) tuples.
Proof.
  induction tuples as [| [index cells] rest IH]; intros self self' p p' Hrun;
    [constructor |].
  destruct cells as [| text [| a [| b [| c cells]]]]; try discriminate Hrun.
  cbn [RemoveNonEnglish.collect_rows] in Hrun. unfold bind in Hrun.
  destruct (RemoveNonEnglish.collect_row L self index text p) as [[self1 | e] p1];
    [| discriminate].
  constructor; [reflexivity | eapply IH, Hrun].
Qed.

Lemma remove_non_english_ok_widths (L : Lib) (p : process) (r : RemoveNonEnglish.t) :
  fst (RemoveNonEnglish.__init__ L p) = Ok r ->
  Forall (fun w => w = 3%nat) (widths (frame p)).
Proof.
  unfold RemoveNonEnglish.__init__, RemoveNonEnglish.collect_non_english_content,
    bind, get_frame. cbn [frame set_seed].
  destruct (RemoveNonEnglish.collect_rows L _ (rows (frame p)) _) as [[self1 | e] p1] eqn:E;
    [| discriminate].
  intros _. apply collect_rows_ok in E. unfold widths. apply Forall_map. exact E.
Qed.

Lemma setitem_widths (name : pystr) (label : Z) (value : pyval) (p : process) :
  widths (frame (snd (setitem name label value p))) = widths (frame p).
Proof.
  unfold setitem. destruct (position name (columns (frame p))) as [k |]; [| reflexivity].
  cbn. unfold widths. cbn [rows]. rewrite map_map. apply map_ext. intros row.
  destruct (Z.eqb (fst row) label); [| reflexivity]. cbn [snd]. apply length_insert.
Qed.

Lemma clean_text_cell_frame (L : Lib) (self : CleanText.t) (text : pyval) (p : process) :
  frame (snd (CleanText.clean_text_cell L self text p)) = frame p.
Proof. destruct text; reflexivity. Qed.

Lemma clean_row_widths (L : Lib) (self : CleanText.t) (i : nat) (p : process) :
  widths (frame (snd (CleanText.clean_row L self i p))) = widths (frame p).
Proof.
  unfold CleanText.clean_row, bind, get_frame.
  destruct (nth_error (rows (frame p)) i) as [[index cells] |]; [| reflexivity].
  destruct cells as [| text [| a [| b [| c cells]]]]; try reflexivity.
  pose proof (clean_text_cell_frame L self text p) as Hf.
  destruct (CleanText.clean_text_cell L self text p) as [[cleaned | e] p1]; cbn [snd] in *.
  - rewrite setitem_widths, Hf. reflexivity.
  - rewrite Hf. reflexivity.
Qed.

Lemma clean_row_ok (L : Lib) (self : CleanText.t) (i : nat) (p : process)
    (row : Z * list pyval) :
  fst (CleanText.clean_row L self i p) = Ok tt ->
  nth_error (rows (frame p)) i = Some row ->
  List.length (snd row) = 3%nat.
Proof.
  unfold CleanText.clean_row, bind, get_frame. intros Hrun Hrow. rewrite Hrow in Hrun.
  destruct row as [index cells].
  destruct cells as [| text [| a [| b [| c cells]]]]; try discriminate Hrun.
  reflexivity.
Qed.

Lemma clean_rows_ok (L : Lib) (self : CleanText.t) (positions : list nat) :
  forall p : process,
    fst (CleanText.clean_rows L self positions p) = Ok tt ->
    forall i w, In i positions -> nth_error (widths (frame p)) i = Some w -> w = 3%nat.
Proof.
  induction positions as [| j rest IH]; intros p Hrun i w Hi Hw; [destruct Hi |].
  cbn [CleanText.clean_rows] in Hrun. unfold bind in Hrun.
  pose proof (clean_row_widths L self j p) as Hwidths.
  pose proof (clean_row_ok L self j p) as Hj.
  destruct (CleanText.clean_row L self j p) as [[[] | e] p1]; [| discriminate].
  cbn [fst snd] in *. destruct Hi as [-> | Hi].
  - unfold widths in Hw. rewrite nth_error_map in Hw.
    destruct (nth_error (rows (frame p)) i) as [row |]; [| discriminate].
    injection Hw as <-. apply Hj; reflexivity.
  - apply (IH p1 Hrun i w Hi). rewrite Hwidths. exact Hw.
Qed.

Lemma clean_df_ok_widths (L : Lib) (self : CleanText.t) (p : process) :
  fst (CleanText.clean_df L self p) = Ok tt ->
  Forall (fun w => w = 3%nat) (widths (frame p)).
Proof.
  unfold CleanText.clean_df, bind, get_frame. intros Hrun.
  apply List.Forall_forall. intros w Hw.
  apply In_nth_error in Hw. destruct Hw as [i Hi].
  apply (clean_rows_ok L self _ p Hrun i w); [| exact Hi].
  apply in_seq. split; [lia |].
  assert (i < List.length (widths (frame p)))%nat
    by (apply nth_error_Some; rewrite Hi; discriminate).
  unfold widths in H. rewrite length_map in H. unfold len. lia.
Qed.

Lemma clean_df_bad_first_row (L : Lib) (self : CleanText.t) (p : process)
    (row : Z * list pyval) (rest : list (Z * list pyval)) :
  rows (frame p) = row :: rest ->
  List.length (snd row) <> 3%nat ->
  CleanText.clean_df L self p = (Raise ValueError, p).
Proof.
  intros Hrows Hwidth. unfold CleanText.clean_df, bind, get_frame, len.
  rewrite Hrows. cbn [List.length seq CleanText.clean_rows].
  unfold bind, CleanText.clean_row, bind, get_frame. rewrite Hrows. cbn [nth_error].
  destruct row as [index cells]. cbn [snd] in Hwidth.
  destruct cells as [| text [| a [| b [| c cells]]]]; try reflexivity.
  contradiction Hwidth; reflexivity.
Qed.

Lemma remove_non_english_bad_first_row (L : Lib) (p : process)
    (row : Z * list pyval) (rest : list (Z * list pyval)) :
  rows (frame p) = row :: rest ->
  List.length (snd row) <> 3%nat ->
  RemoveNonEnglish.__init__ L p = (Raise ValueError, set_seed (Some 0%Z) p).
Proof.
  intros Hrows Hwidth.
  unfold RemoveNonEnglish.__init__, RemoveNonEnglish.collect_non_english_content,
    bind, get_frame. cbn [frame set_seed]. rewrite Hrows.
  destruct row as [index cells]. cbn [snd] in Hwidth.
  destruct cells as [| text [| a [| b [| c cells]]]]; try reflexivity.
  contradiction Hwidth; reflexivity.
Qed.

(** C10, counterexample: on an empty table of two columns both passes end
    normally, so a table of another column shape does not make them fail. *)
Lemma column_shape_claim_fails_on_empty :
  CleanText.clean_df toy_lib plain (fresh empty_two_columns)
  = (Ok tt, fresh empty_two_columns)
  /\ (exists r, fst (RemoveNonEnglish.__init__ toy_lib (fresh empty_two_columns)) = Ok r)
  /\ ~ column_shape_claim toy_lib plain (fresh empty_two_columns).
Proof.
  split; [reflexivity |]. split; [eexists; reflexivity |].
  intros [_ [_ H]].
  destruct H as [[e [p' [Hrun _]]] _].
  - constructor.
  - cbn. discriminate.
  - cbn in Hrun. discriminate.
Qed.

(** Both passes also end normally on a table of three columns whose text
    is not the first: they read the first data column, whatever its name. *)
Lemma passes_read_first_column :
  fst (CleanText.clean_df toy_lib plain (fresh title_first)) = Ok tt
  /\ (exists r, fst (RemoveNonEnglish.__init__ toy_lib (fresh title_first)) = Ok r)
  /\ position (lit "text") (columns title_first) = Some 1%nat
  /\ rows (frame (snd (RemoveNonEnglish.__init__ toy_lib (fresh title_first))))
     = rows title_first.
Proof. vm_compute. repeat split. eexists; reflexivity. Qed.

Lemma passes_on_no_rows (L : Lib) (self : CleanText.t) (p : process) :
  rows (frame p) = [] ->
  CleanText.clean_df L self p = (Ok tt, p)
  /\ exists r p',
       RemoveNonEnglish.__init__ L p = (Ok r, p')
       /\ frame p' = frame p /\ calls p' = calls p.
Proof.
  intros Hrows. destruct p as [seed ent dr [cols rws] out cs].
  cbn in Hrows. subst rws. split; [reflexivity |].
  cbv. eexists _, _. split; [reflexivity |]. split; reflexivity.
Qed.

Lemma passes_on_rows (L : Lib) (self : CleanText.t) (p : process) :
  rows (frame p) <> [] ->
  (fst (CleanText.clean_df L self p) = Ok tt ->
   Forall (fun w => w = 3%nat) (widths (frame p)))
  /\ ((exists r, fst (RemoveNonEnglish.__init__ L p) = Ok r) ->
      Forall (fun w => w = 3%nat) (widths (frame p)))
  /\ (rectangular (frame p) -> List.length (columns (frame p)) <> 3%nat ->
      CleanText.clean_df L self p = (Raise ValueError, p)
      /\ RemoveNonEnglish.__init__ L p = (Raise ValueError, set_seed (Some 0%Z) p)
      /\ fails_untouched (CleanText.clean_df L self) p
      /\ fails_untouched (RemoveNonEnglish.__init__ L) p).
Proof.
  intros Hrows. split; [apply clean_df_ok_widths |].
  split; [intros [r Hr]; apply (remove_non_english_ok_widths L p r Hr) |].
  intros Hrect Hcols.
  destruct (rows (frame p)) as [| row rest] eqn:E; [contradiction |].
  assert (Hwidth : List.length (snd row) <> 3%nat).
  { unfold rectangular in Hrect. rewrite E in Hrect.
    inversion Hrect as [| ? ? Hrow _]; subst. rewrite Hrow. exact Hcols. }
  pose proof (clean_df_bad_first_row L self p row rest E Hwidth) as Hclean.
  pose proof (remove_non_english_bad_first_row L p row rest E Hwidth) as Hremove.
  split; [exact Hclean |]. split; [exact Hremove |]. split.
  - exists ValueError, p. repeat split. exact Hclean.
  - exists ValueError, (set_seed (Some 0%Z) p). repeat split. exact Hremove.
Qed.

(** C10: both passes unpack every row as [(index, text, _, _)]. On a
    dataset that has a row, a pass that ends normally has found exactly
    three data cells in every row; and when the table is rectangular with a
    number of columns other than three, both passes raise [ValueError] at
    the first row, before any call of [clean_text] or of the detector, with
    the dataset as it was and nothing printed. On a dataset with no rows
    both passes end normally whatever the columns, with the dataset as it
    was and no call made. *)
Theorem column_shape_on_rows (L : Lib) (self : CleanText.t) (p : process) :
  (rows (frame p) = [] ->
   CleanText.clean_df L self p = (Ok tt, p)
   /\ exists r p',
        RemoveNonEnglish.__init__ L p = (Ok r, p')
        /\ frame p' = frame p /\ calls p' = calls p)
  /\ (rows (frame p) <> [] ->
      (fst (CleanText.clean_df L self p) = Ok tt ->
       Forall (fun w => w = 3%nat) (widths (frame p)))
      /\ ((exists r, fst (RemoveNonEnglish.__init__ L p) = Ok r) ->
          Forall (fun w => w = 3%nat) (widths (frame p)))
      /\ (rectangular (frame p) -> List.length (columns (frame p)) <> 3%nat ->
          CleanText.clean_df L self p = (Raise ValueError, p)
          /\ RemoveNonEnglish.__init__ L p = (Raise ValueError, set_seed (Some 0%Z) p)
          /\ fails_untouched (CleanText.clean_df L self) p
          /\ fails_untouched (RemoveNonEnglish.__init__ L) p)).
Proof.
  split; [apply passes_on_no_rows | apply passes_on_rows].
Qed.

Lemma column_shape_on_rows_witness :
  rows (frame (fresh two_columns)) <> []
  /\ rectangular (frame (fresh two_columns))
  /\ List.length (columns (frame (fresh two_columns))) = 2%nat
  /\ rows (frame (fresh empty_two_columns)) = []
  /\ (CleanText.clean_df toy_lib plain (fresh two_columns)
      = (Raise ValueError, fresh two_columns)
      /\ RemoveNonEnglish.__init__ toy_lib (fresh two_columns)
         = (Raise ValueError, set_seed (Some 0%Z) (fresh two_columns))
      /\ fails_untouched (CleanText.clean_df toy_lib plain) (fresh two_columns)
      /\ fails_untouched (RemoveNonEnglish.__init__ toy_lib) (fresh two_columns))
  /\ (CleanText.clean_df toy_lib plain (fresh empty_two_columns)
      = (Ok tt, fresh empty_two_columns)
      /\ exists r p',
           RemoveNonEnglish.__init__ toy_lib (fresh empty_two_columns) = (Ok r, p')
           /\ frame p' = frame (fresh empty_two_columns)
           /\ calls p' = calls (fresh empty_two_columns)).
Proof.
  assert (H : rows (frame (fresh two_columns)) <> []) by (cbn; discriminate).
  assert (Hrect : rectangular (frame (fresh two_columns))) by (repeat constructor).
  split; [exact H |]. split; [exact Hrect |]. split; [reflexivity |].
  split; [reflexivity |]. split.
  - apply (proj2 (column_shape_on_rows toy_lib plain (fresh two_columns)) H);
      [exact Hrect | cbn; discriminate].
  - exact (proj1 (column_shape_on_rows toy_lib plain (fresh empty_two_columns)) eq_refl).
Defined.

(** ** Tokens: [split] and [join] on cleaned texts *)

Lemma word_no_space (t : pystr) :
  word t -> Forall (fun c => PyStr.isspace c = false) t.
Proof.
  intros [_ H]. eapply List.Forall_impl; [| exact H]. intros c. apply in_class_not_space.
Qed.

Lemma split_from_run (t : pystr) : forall (cur s : pystr),
  Forall (fun c => PyStr.isspace c = false) t ->
  PyStr.split_from cur (t ++ s) = PyStr.split_from (rev t ++ cur) s.
Proof.
  induction t as [| c t IH]; intros cur s Ht; [reflexivity |].
  inversion Ht as [| ? ? Hc Ht']; subst. cbn [app PyStr.split_from]. rewrite Hc.
  rewrite (IH (c :: cur) s Ht'). cbn [rev]. rewrite <- app_assoc. reflexivity.
Qed.

Lemma split_from_word_end (t : pystr) :
  word t -> PyStr.split_from [] t = [t].
Proof.
  intros Ht. pose proof (word_no_space t Ht) as Hns. destruct Ht as [Hne _].
  rewrite <- (app_nil_r t) at 1. rewrite (split_from_run t [] [] Hns), app_nil_r.
  cbn [PyStr.split_from]. destruct (rev t) as [| c r] eqn:E.
  - apply (f_equal (@rev N)) in E. rewrite rev_involutive in E. contradiction.
  - rewrite <- E, rev_involutive. reflexivity.
Qed.

Lemma split_from_word_space (t s : pystr) :
  word t ->
  PyStr.split_from [] (t ++ PyStr.SPACE :: s) = t :: PyStr.split_from [] s.
Proof.
  intros Ht. pose proof (word_no_space t Ht) as Hns. destruct Ht as [Hne _].
  rewrite (split_from_run t [] _ Hns), app_nil_r.
  cbn [PyStr.split_from]. rewrite isspace_SPACE. destruct (rev t) as [| c r] eqn:E.
  - apply (f_equal (@rev N)) in E. rewrite rev_involutive in E. contradiction.
  - rewrite <- E, rev_involutive. reflexivity.
Qed.

Lemma split_join (toks : list pystr) :
  Forall word toks -> PyStr.split (PyStr.join [PyStr.SPACE] toks) = toks.
Proof.
  unfold PyStr.split. induction 1 as [| t ts Ht Hts IH]; [reflexivity |].
  destruct ts as [| t2 ts'].
  - apply split_from_word_end, Ht.
  - change (PyStr.join [PyStr.SPACE] (t :: t2 :: ts'))
      with (t ++ PyStr.SPACE :: PyStr.join [PyStr.SPACE] (t2 :: ts')).
    rewrite (split_from_word_space t _ Ht), IH. reflexivity.
Qed.

Lemma join_nil_inv (toks : list pystr) :
  Forall word toks -> PyStr.join [PyStr.SPACE] toks = [] -> toks = [].
Proof.
  intros H E. destruct H as [| t ts [Hne _] Hts]; [reflexivity |].
  cbn [PyStr.join] in E. destruct ts; [contradiction |].
  destruct t; [contradiction | discriminate].
Qed.

Lemma join_cons_char (c : N) (t : pystr) (ts : list pystr) :
  PyStr.join [PyStr.SPACE] ((c :: t) :: ts) = c :: PyStr.join [PyStr.SPACE] (t :: ts).
Proof. cbn [PyStr.join]. destruct ts; reflexivity. Qed.

Lemma ends_tight_tail (c : N) (r : pystr) :
  r <> [] -> ends_tight (c :: r) -> ends_tight r.
Proof.
  unfold ends_tight. cbn [PyStr.rstrip]. intros Hne H.
  destruct (PyStr.rstrip r) as [| c' r'].
  - destruct (PyStr.isspace c); [discriminate |]. injection H as <-. contradiction.
  - injection H as ->. reflexivity.
Qed.

(** A text with single spaces and none at either end is its tokens joined
    by single spaces. *)
Lemma tight_text_words (n : nat) : forall s : pystr,
  (List.length s <= n)%nat ->
  Forall (fun c => allowed c = true) s ->
  single_spaced s -> starts_tight s -> ends_tight s ->
  exists toks, s = PyStr.join [PyStr.SPACE] toks /\ Forall word toks.
Proof.
  induction n as [| n IH]; intros s Hlen Hall Hsingle Hstart Hend.
  { destruct s; [| cbn in Hlen; lia]. exists []. split; [reflexivity | constructor]. }
  destruct s as [| c r]; [exists []; split; [reflexivity | constructor] |].
  cbn in Hstart, Hlen. inversion Hall as [| ? ? Hc Hr]; subst.
  pose proof (allowed_no_space_in_class c Hc Hstart) as Hclass.
  destruct Hsingle as [_ Hsingle].
  destruct r as [| c' r'].
  { exists [[c]]. split; [reflexivity |]. repeat constructor; [discriminate | exact Hclass]. }
  pose proof (ends_tight_tail c (c' :: r') ltac:(discriminate) Hend) as Hend'.
  destruct (PyStr.isspace c') eqn:Ec'.
  - destruct Hsingle as [Hc' Hsingle']. destruct (Hc' Ec') as [-> Hnext].
    destruct r' as [| c'' r''].
    { unfold ends_tight in Hend'. cbn in Hend'. discriminate. }
    pose proof (ends_tight_tail _ (c'' :: r'') ltac:(discriminate) Hend') as Hend''.
    inversion Hr as [| ? ? _ Hr']; subst.
    destruct (IH (c'' :: r'') ltac:(cbn in *; lia) Hr' Hsingle' Hnext Hend'')
      as [toks [Heq Hwords]].
    destruct toks as [| t ts]; [discriminate |].
    exists ([c] :: t :: ts). split.
    + change (PyStr.join [PyStr.SPACE] ([c] :: t :: ts))
        with (c :: PyStr.SPACE :: PyStr.join [PyStr.SPACE] (t :: ts)).
      rewrite <- Heq. reflexivity.
    + constructor; [| exact Hwords]. split; [discriminate | repeat constructor; exact Hclass].
  - destruct (IH (c' :: r') ltac:(cbn in *; lia) Hr Hsingle Ec' Hend')
      as [toks [Heq Hwords]].
    destruct toks as [| t ts]; [discriminate |].
    exists ((c :: t) :: ts). split.
    + rewrite join_cons_char, <- Heq. reflexivity.
    + inversion Hwords as [| ? ? [_ Ht] Hts]; subst.
      constructor; [| exact Hts]. split; [discriminate | constructor; assumption].
Qed.

Lemma scrub_starts_tight (L : Lib) (text : pystr) : starts_tight (scrub L text).
Proof. unfold scrub, PyStr.strip. apply rstrip_starts_tight, lstrip_starts_tight. Qed.

Lemma scrub_ends_tight (L : Lib) (text : pystr) : ends_tight (scrub L text).
Proof. unfold ends_tight, scrub, PyStr.strip. apply rstrip_rstrip. Qed.

Lemma scrub_words (L : Lib) (text : pystr) :
  exists toks, scrub L text = PyStr.join [PyStr.SPACE] toks /\ Forall word toks.
Proof.
  apply (tight_text_words (List.length (scrub L text))); [lia | | | |].
  - apply scrub_allowed.
  - apply scrub_single_spaced.
  - apply scrub_starts_tight.
  - apply scrub_ends_tight.
Qed.

Lemma split_scrub_words (L : Lib) (text : pystr) :
  Forall word (PyStr.split (scrub L text)).
Proof.
  destruct (scrub_words L text) as [toks [-> Hwords]]. rewrite split_join; assumption.
Qed.

Lemma join_split_scrub (L : Lib) (text : pystr) :
  PyStr.join [PyStr.SPACE] (PyStr.split (scrub L text)) = scrub L text.
Proof.
  destruct (scrub_words L text) as [toks [-> Hwords]]. rewrite split_join; trivial.
Qed.

Lemma rstrip_no_space (t : pystr) :
  Forall (fun c => PyStr.isspace c = false) t -> PyStr.rstrip t = t.
Proof.
  induction 1 as [| c r Hc Hr IH]; [reflexivity |].
  destruct r as [| c' r'].
  - cbn. rewrite Hc. reflexivity.
  - rewrite rstrip_cons; rewrite IH; [reflexivity | discriminate].
Qed.

Lemma rstrip_app (a b : pystr) :
  PyStr.rstrip b = b -> b <> [] -> PyStr.rstrip (a ++ b) = a ++ b.
Proof.
  intros Hb Hne. induction a as [| c a IH]; [exact Hb |].
  cbn [app]. rewrite rstrip_cons; rewrite IH; [reflexivity |].
  destruct a; [exact Hne | discriminate].
Qed.

Lemma single_spaced_run (t s : pystr) :
  Forall (fun c => PyStr.isspace c = false) t ->
  single_spaced s -> single_spaced (t ++ s).
Proof.
  induction 1 as [| c r Hc Hr IH]; intros Hs; [exact Hs |].
  cbn [app single_spaced]. split; [intros H; congruence | apply IH, Hs].
Qed.

Lemma join_words_allowed (toks : list pystr) :
  Forall word toks -> Forall (fun c => allowed c = true) (PyStr.join [PyStr.SPACE] toks).
Proof.
  intros H. apply join_Forall; [repeat constructor |].
  eapply List.Forall_impl; [| exact H]. intros t [_ Ht].
  eapply List.Forall_impl; [| exact Ht]. intros c. apply in_class_allowed.
Qed.

Lemma join_words_starts_tight (toks : list pystr) :
  Forall word toks -> starts_tight (PyStr.join [PyStr.SPACE] toks).
Proof.
  intros H. destruct H as [| t ts Ht Hts]; [exact I |].
  pose proof (word_no_space t Ht) as Hns. destruct Ht as [Hne _].
  destruct t as [| c t]; [contradiction |]. rewrite join_cons_char.
  inversion Hns; assumption.
Qed.

Lemma join_words_single_spaced (toks : list pystr) :
  Forall word toks -> single_spaced (PyStr.join [PyStr.SPACE] toks).
Proof.
  induction 1 as [| t ts Ht Hts IH]; [exact I |].
  pose proof (word_no_space t Ht) as Hns.
  destruct ts as [| t2 ts'].
  - cbn [PyStr.join]. rewrite <- (app_nil_r t). apply single_spaced_run; [exact Hns | exact I].
  - change (PyStr.join [PyStr.SPACE] (t :: t2 :: ts'))
      with (t ++ PyStr.SPACE :: PyStr.join [PyStr.SPACE] (t2 :: ts')).
    apply single_spaced_run; [exact Hns |].
    split; [| exact IH]. intros _. split; [reflexivity |].
    pose proof (join_words_starts_tight (t2 :: ts') Hts) as Hst.
    destruct (PyStr.join [PyStr.SPACE] (t2 :: ts')); [exact I | exact Hst].
Qed.

Lemma join_words_ends_tight (toks : list pystr) :
  Forall word toks -> ends_tight (PyStr.join [PyStr.SPACE] toks).
Proof.
  unfold ends_tight. induction 1 as [| t ts Ht Hts IH]; [reflexivity |].
  pose proof (word_no_space t Ht) as Hns.
  destruct ts as [| t2 ts'].
  - cbn [PyStr.join]. apply rstrip_no_space, Hns.
  - change (PyStr.join [PyStr.SPACE] (t :: t2 :: ts'))
      with (t ++ PyStr.SPACE :: PyStr.join [PyStr.SPACE] (t2 :: ts')).
    assert (Hne : PyStr.join [PyStr.SPACE] (t2 :: ts') <> []).
    { intros E. apply (join_nil_inv _ Hts) in E. discriminate. }
    apply rstrip_app; [| discriminate].
    rewrite rstrip_cons; rewrite IH; [reflexivity | exact Hne].
Qed.

Lemma strip_join_words (toks : list pystr) :
  Forall word toks ->
  PyStr.strip (PyStr.join [PyStr.SPACE] toks) = PyStr.join [PyStr.SPACE] toks.
Proof.
  intros H. unfold PyStr.strip.
  rewrite (lstrip_fixed _ (join_words_starts_tight toks H)).
  apply join_words_ends_tight, H.
Qed.

Lemma scrub_join_words (L : Lib) (toks : list pystr) :
  lower_on_ascii L -> Forall word toks ->
  scrub L (PyStr.join [PyStr.SPACE] toks) = PyStr.join [PyStr.SPACE] toks.
Proof.
  intros HL H. pose proof (join_words_allowed toks H) as Ha. unfold scrub.
  rewrite (HL _ (Forall_allowed_ascii _ Ha)), (map_ascii_lower_fixed _ Ha).
  rewrite (sub_not_in_class_fixed _ Ha).
  rewrite (sub_spaces_fixed _ (join_words_single_spaced toks H)).
  apply strip_join_words, H.
Qed.

Lemma filter_words (f : pystr -> bool) (toks : list pystr) :
  Forall word toks -> Forall word (List.filter f toks).
Proof.
  intros H. apply List.Forall_forall. intros t Ht. apply filter_In in Ht.
  rewrite List.Forall_forall in H. apply H, Ht.
Qed.

(** With stemming off, the cleaned text is the tokens that are no stopwords,
    joined by single spaces, whether or not there are stopwords. *)
Lemma clean_text_unstemmed (L : Lib) (S : gset pystr) (text : pystr) :
  CleanText.clean_text L (unstemmed S) text
  = PyStr.join [PyStr.SPACE]
      (List.filter (CleanText.not_in_stopwords (unstemmed S)) (PyStr.split (scrub L text))).
Proof.
  unfold CleanText.clean_text. fold (scrub L text).
  cbn [CleanText.do_stemming CleanText.stopwords unstemmed orb].
  case_bool_decide as Hsize; [reflexivity |].
  assert (S = ∅) as -> by (apply leibniz_equiv, size_empty_inv; lia).
  rewrite forallb_filter_id by
    (apply forallb_forall; intros t _; unfold CleanText.not_in_stopwords;
     apply bool_decide_eq_true_2; cbn; set_solver).
  symmetry. apply join_split_scrub.
Qed.

Lemma split_clean_text_unstemmed (L : Lib) (S : gset pystr) (text : pystr) :
  PyStr.split (CleanText.clean_text L (unstemmed S) text)
  = List.filter (CleanText.not_in_stopwords (unstemmed S)) (PyStr.split (scrub L text)).
Proof.
  rewrite clean_text_unstemmed. apply split_join, filter_words, split_scrub_words.
Qed.

(** ** More on [clean_text] *)

(** X1: with stemming off, whatever the stopwords, the cleaned text has no
    white space at either end and its tokens are non-empty strings over
    [a-z0-9?!] separated by exactly one space: joining its [split] by single
    spaces gives it back. *)
Theorem clean_text_unstemmed_shape (L : Lib) (S : gset pystr) (text : pystr) :
  let out := CleanText.clean_text L (unstemmed S) text in
  PyStr.strip out = out
  /\ PyStr.join [PyStr.SPACE] (PyStr.split out) = out
  /\ Forall word (PyStr.split out).
Proof.
  cbv zeta. rewrite split_clean_text_unstemmed, clean_text_unstemmed.
  pose proof (filter_words (CleanText.not_in_stopwords (unstemmed S)) _
                (split_scrub_words L text)) as Hwords.
  split; [apply strip_join_words, Hwords |]. split; [reflexivity | exact Hwords].
Qed.

(** X2: with stemming off, the tokens of the cleaned text are the tokens of
    the text cleaned without stopwords, in order, less those that are
    stopwords; so no stopword is a token of the result. *)
Theorem clean_text_unstemmed_tokens (L : Lib) (S : gset pystr) (text : pystr) :
  PyStr.split (CleanText.clean_text L (unstemmed S) text)
  = List.filter (fun t => bool_decide (t ∉ S))
      (PyStr.split (CleanText.clean_text L plain text))
  /\ Forall (fun t => t ∉ S) (PyStr.split (CleanText.clean_text L (unstemmed S) text)).
Proof.
  rewrite split_clean_text_unstemmed, clean_text_plain. split; [reflexivity |].
  apply List.Forall_forall. intros t Ht. apply filter_In in Ht. destruct Ht as [_ Ht].
  unfold CleanText.not_in_stopwords in Ht. apply bool_decide_eq_true_1 in Ht. exact Ht.
Qed.

Lemma clean_text_unstemmed_twice (L : Lib) (S : gset pystr) (x : pystr) :
  lower_on_ascii L ->
  CleanText.clean_text L (unstemmed S) (CleanText.clean_text L (unstemmed S) x)
  = CleanText.clean_text L (unstemmed S) x.
Proof.
  intros HL. rewrite (clean_text_unstemmed L S (CleanText.clean_text _ _ x)).
  rewrite (clean_text_unstemmed L S x).
  pose proof (filter_words (CleanText.not_in_stopwords (unstemmed S)) _
                (split_scrub_words L x)) as Hwords.
  rewrite (scrub_join_words L _ HL Hwords), (split_join _ Hwords).
  rewrite forallb_filter_id; [reflexivity | apply forallb_filter].
Qed.

(** X3: with stemming off, cleaning is idempotent for every stopword set. *)
Theorem clean_text_unstemmed_idempotent (L : Lib) (S : gset pystr) (x : pystr) :
  lower_on_ascii L ->
  CleanText.clean_text L (unstemmed S) (CleanText.clean_text L (unstemmed S) x)
  = CleanText.clean_text L (unstemmed S) x.
Proof.
  intros HL. rewrite (clean_text_unstemmed L S (CleanText.clean_text _ _ x)).
  rewrite (clean_text_unstemmed L S x).
  pose proof (filter_words (CleanText.not_in_stopwords (unstemmed S)) _
                (split_scrub_words L x)) as Hwords.
  rewrite (scrub_join_words L _ HL Hwords), (split_join _ Hwords).
  rewrite forallb_filter_id; [reflexivity | apply forallb_filter].
Qed.

Lemma clean_text_unstemmed_idempotent_witness :
  lower_on_ascii toy_lib
  /\ CleanText.clean_text toy_lib (unstemmed {[ lit "the" ]})
       (CleanText.clean_text toy_lib (unstemmed {[ lit "the" ]}) (lit "The cat, the DOG"))
     = CleanText.clean_text toy_lib (unstemmed {[ lit "the" ]}) (lit "The cat, the DOG").
Proof.
  split; [exact toy_lower_on_ascii |].
  exact (clean_text_unstemmed_idempotent toy_lib {[ lit "the" ]} (lit "The cat, the DOG")
           toy_lower_on_ascii).
Defined.

(** X4: only the stopwords that are non-empty strings over [a-z0-9?!] count:
    two stopword sets with the same such words give the same cleaned text,
    with or without stemming. A stopword with any other character, such as
    an apostrophe, never matches a token. *)
Theorem clean_text_stopwords_on_words (L : Lib) (do_stemming : bool)
    (S1 S2 : gset pystr) (text : pystr) :
  (forall t, word t -> (t ∈ S1 <-> t ∈ S2)) ->
  CleanText.clean_text L {| CleanText.do_stemming := do_stemming;
                            CleanText.stopwords := S1 |} text
  = CleanText.clean_text L {| CleanText.do_stemming := do_stemming;
                              CleanText.stopwords := S2 |} text.
Proof.
  intros Hsame.
  assert (Hfilter : forall d1 d2,
             List.filter (CleanText.not_in_stopwords
                            {| CleanText.do_stemming := d1; CleanText.stopwords := S1 |})
               (PyStr.split (scrub L text))
             = List.filter (CleanText.not_in_stopwords
                              {| CleanText.do_stemming := d2; CleanText.stopwords := S2 |})
                 (PyStr.split (scrub L text))).
  { intros d1 d2. apply filter_ext_in. intros t Ht.
    pose proof (split_scrub_words L text) as Hwords.
    rewrite List.Forall_forall in Hwords. specialize (Hsame t (Hwords t Ht)).
    unfold CleanText.not_in_stopwords. cbn [CleanText.stopwords].
    apply bool_decide_ext. tauto. }
  destruct do_stemming.
  - unfold CleanText.clean_text. fold (scrub L text).
    cbn [CleanText.do_stemming orb]. rewrite (Hfilter true true). reflexivity.
  - change {| CleanText.do_stemming := false; CleanText.stopwords := S1 |}
      with (unstemmed S1).
    change {| CleanText.do_stemming := false; CleanText.stopwords := S2 |}
      with (unstemmed S2).
    rewrite !clean_text_unstemmed. f_equal. apply (Hfilter false false).
Qed.

Lemma apostrophe_no_word (t : pystr) : word t -> t <> lit "don't".
Proof.
  intros [_ Ht] ->. vm_compute in Ht.
  repeat match goal with
         | H : Forall _ (_ :: _) |- _ => inversion H; clear H; subst
         end.
  discriminate.
Qed.

Lemma clean_text_stopwords_on_words_witness :
  (forall t, word t -> (t ∈ ({[ lit "the" ]} : gset pystr)
                         <-> t ∈ ({[ lit "the"; lit "don't" ]} : gset pystr)))
  /\ CleanText.clean_text toy_lib
       {| CleanText.do_stemming := true; CleanText.stopwords := {[ lit "the" ]} |}
       (lit "Don't stop the Cats")
     = CleanText.clean_text toy_lib
         {| CleanText.do_stemming := true;
            CleanText.stopwords := {[ lit "the"; lit "don't" ]} |}
         (lit "Don't stop the Cats").
Proof.
  assert (H : forall t, word t -> (t ∈ ({[ lit "the" ]} : gset pystr)
                                    <-> t ∈ ({[ lit "the"; lit "don't" ]} : gset pystr))).
  { intros t Ht. pose proof (apostrophe_no_word t Ht). set_solver. }
  split; [exact H |].
  exact (clean_text_stopwords_on_words toy_lib true {[ lit "the" ]}
           {[ lit "the"; lit "don't" ]} (lit "Don't stop the Cats") H).
Defined.

Example clean_text_apostrophe :
  CleanText.clean_text toy_lib (unstemmed {[ lit "don't" ]}) (lit "Don't stop")
  = lit "don t stop".
Proof. vm_compute. reflexivity. Qed.

(** X5: the predictor's [clean_text] called with [do_stemming=True] raises
    [AttributeError] exactly when the cleaned text is not empty, and returns
    the empty string otherwise: the class has no stemmer. *)
Theorem predictor_clean_text_stemming_raises (L : Lib) (self : SentimentPredictor.t)
    (text : pystr) :
  SentimentPredictor.clean_text L self text true
  = match SentimentPredictor.clean_text L self text false with
    | Ok [] => Ok []
    | _ => Raise AttributeError
    end.
Proof.
  rewrite predictor_clean_text_default. unfold SentimentPredictor.clean_text.
  fold (scrub L text). destruct (scrub_words L text) as [toks [-> Hwords]].
  rewrite (split_join _ Hwords). destruct toks as [| t ts]; [reflexivity |].
  destruct (PyStr.join [PyStr.SPACE] (t :: ts)) eqn:E; [| reflexivity].
  apply (join_nil_inv _ Hwords) in E. discriminate.
Qed.

(** *** Stopwords and the reserved words *)

Lemma reserve_not_in_stopwords (L : Lib) (stopwords_type t : pystr) :
  t ∈ Stopwords.reserve ->
  t ∉ Stopwords.get_stopwords (Stopwords.__init__ L stopwords_type).
Proof.
  intros Ht. destruct (decide (stopwords_type = lit "nltk")) as [-> | Hnltk].
  { rewrite init_nltk. set_solver. }
  unfold Stopwords.__init__. case_bool_decide as Hspec.
  - cbn [Stopwords.get_stopwords Stopwords.stopwords]. intros Hin.
    apply elem_of_list_to_set in Hin.
    assert (Hdisjoint : forallb (fun w => negb (bool_decide (w ∈ Stopwords.specified)))
                          Stopwords.reserve = true) by (vm_compute; reflexivity).
    rewrite forallb_forall in Hdisjoint. apply list_elem_of_In in Ht.
    specialize (Hdisjoint t Ht). apply negb_true_iff, bool_decide_eq_false_1 in Hdisjoint.
    contradiction.
  - rewrite bool_decide_eq_false_2 by exact Hnltk. cbn. set_solver.
Qed.

(** X6: whatever [stopwords_type] the stopword set is built from, and
    whatever the corpus, cleaning with that set and stemming off keeps every
    occurrence of a reserved word that is a token of the text: the reserved
    tokens of the result are those of the text cleaned without stopwords, in
    order. *)
Theorem reserved_words_survive (L : Lib) (stopwords_type text : pystr) :
  let S := Stopwords.get_stopwords (Stopwords.__init__ L stopwords_type) in
  List.filter (fun t => bool_decide (t ∈ Stopwords.reserve))
    (PyStr.split (CleanText.clean_text L (unstemmed S) text))
  = List.filter (fun t => bool_decide (t ∈ Stopwords.reserve))
      (PyStr.split (CleanText.clean_text L plain text)).
Proof.
  cbv zeta. rewrite split_clean_text_unstemmed, clean_text_plain, filter_filter.
  apply filter_ext. intros t. unfold CleanText.not_in_stopwords.
  cbn [CleanText.stopwords unstemmed].
  destruct (bool_decide (t ∈ Stopwords.reserve)) eqn:Hres; [| apply andb_false_r].
  apply bool_decide_eq_true_1 in Hres.
  rewrite bool_decide_eq_true_2; [reflexivity |].
  apply reserve_not_in_stopwords, Hres.
Qed.

Example reserved_words_survive_ex :
  CleanText.clean_text toy_lib
    (unstemmed (Stopwords.get_stopwords (Stopwords.__init__ toy_lib (lit "nltk"))))
    (lit "I do NOT like the video, not me")
  = lit "do not like video not".
Proof. vm_compute. reflexivity. Qed.

(** ** More on [predict] *)

Lemma after_detect_rest (text : pyval) (p : process) :
  frame (after_detect text p) = frame p
  /\ stdout (after_detect text p) = stdout p
  /\ calls (after_detect text p) = calls p ++ [CallDetect text (DetectorFactory_seed p)].
Proof. unfold after_detect. destruct (DetectorFactory_seed p); repeat split. Qed.

Lemma classify_rest (L : Lib) (self : SentimentPredictor.t) (s : pystr) (p : process) :
  let r := SentimentPredictor.classify L self s p in
  frame (snd r) = frame p
  /\ stdout (snd r) = stdout p
  /\ DetectorFactory_seed (snd r) = DetectorFactory_seed p
  /\ ((exists d, fst r = Ok (Some d)) \/ fst r = Raise IndexError)
  /\ (calls (snd r)
      = calls p ++ [CallCleanText (PyStr s);
                    CallTokenizer (scrub L s) SentimentPredictor.tokenizer_args;
                    CallModel Product; CallModel Video]
      \/ (fst r = Raise IndexError
          /\ calls (snd r)
             = calls p ++ [CallCleanText (PyStr s);
                           CallTokenizer (scrub L s) SentimentPredictor.tokenizer_args;
                           CallModel Product])).
Proof.
  cbv zeta. rewrite classify_eq. cbv zeta.
  destruct (nth_error _ (model_product L _)); [destruct (nth_error _ (model_video L _)) |];
    cbn; rewrite <- ?app_assoc; cbn; repeat split; eauto.
Qed.

(** X7: [predict] leaves the dataset, the printed lines and the detector's
    seed as they are, and the calls it makes are always the first [n] of one
    fixed sequence: the detector on the raw comment, [clean_text], the
    tokenizer on the cleaned comment, the product model, the video model.
    No call is made for an argument that is no string or is blank, at most
    the detector call when [None] is returned, and all five when labels are
    returned. *)
Theorem predict_call_protocol (L : Lib) (self : SentimentPredictor.t)
    (comment : pyval) (p : process) :
  let r := SentimentPredictor.predict L self comment p in
  frame (snd r) = frame p
  /\ stdout (snd r) = stdout p
  /\ DetectorFactory_seed (snd r) = DetectorFactory_seed p
  /\ exists n,
       calls (snd r)
       = calls p ++ firstn n (match comment with
                              | PyStr s => predict_calls L s p
                              | _ => []
                              end)
       /\ (n = 0 \/ n = 1 \/ n = 4 \/ n = 5)%nat
       /\ ((forall s, comment <> PyStr s) -> n = 0%nat)
       /\ (forall s, comment = PyStr s -> PyStr.strip s = [] -> n = 0%nat)
       /\ (fst r = Ok None -> (n <= 1)%nat)
       /\ ((exists d, fst r = Ok (Some d)) -> n = 5%nat).
Proof.
  cbv zeta. destruct comment as [| b | z | s];
    try (cbn; repeat split; exists 0%nat; rewrite app_nil_r;
         repeat split; auto; try discriminate; intros [d Hd]; discriminate).
  rewrite predict_str. destruct (PyStr.strip s) as [| c r] eqn:Es.
  { cbn. repeat split. exists 0%nat. rewrite app_nil_r.
    repeat split; auto; try lia. intros [d Hd]; discriminate. }
  destruct (after_detect_rest (PyStr s) p) as [Hf [Ho Hc]].
  pose proof (after_detect_seed (PyStr s) p) as Hseed.
  assert (Hnone : forall q, q = after_detect (PyStr s) p ->
            frame q = frame p /\ stdout q = stdout p
            /\ DetectorFactory_seed q = DetectorFactory_seed p
            /\ exists n,
                 calls q = calls p ++ firstn n (predict_calls L s p)
                 /\ (n = 0 \/ n = 1 \/ n = 4 \/ n = 5)%nat
                 /\ ((forall s0, PyStr s <> PyStr s0) -> n = 0%nat)
                 /\ (forall s0, PyStr s = PyStr s0 -> PyStr.strip s0 = [] -> n = 0%nat)
                 /\ (@Ok (option SentimentPredictor.sentiments) None = Ok None -> (n <= 1)%nat)
                 /\ ((exists d, @Ok (option SentimentPredictor.sentiments) None = Ok (Some d))
                     -> n = 1%nat)).
  { intros q ->. repeat split; try assumption. exists 1%nat. rewrite Hc.
    repeat split; auto; try lia.
    - intros H. contradiction (H s eq_refl).
    - intros s0 [= <-] H. congruence. }
  destruct (langdetect L (seed_in p) s) as [language |].
  2:{ cbn [fst snd]. destruct (Hnone _ eq_refl) as [H1 [H2 [H3 [n [H4 [H5 [H6 [H7 [H8 H9]]]]]]]]].
      repeat split; try assumption. exists n. repeat split; try assumption.
      intros [d Hd]; discriminate. }
  case_bool_decide as Hen.
  { cbn [fst snd]. destruct (Hnone _ eq_refl) as [H1 [H2 [H3 [n [H4 [H5 [H6 [H7 [H8 H9]]]]]]]]].
    repeat split; try assumption. exists n. repeat split; try assumption.
    intros [d Hd]; discriminate. }
  destruct (classify_rest L self s (after_detect (PyStr s) p))
    as [Hf' [Ho' [Hs' [Hres Hcalls]]]].
  rewrite Hf', Ho', Hs', Hf, Ho, Hseed. repeat split.
  destruct Hcalls as [Hcalls | [Hraise Hcalls]]; rewrite Hcalls, Hc, <- app_assoc.
  - exists 5%nat. repeat split; auto; try lia.
    + intros H. contradiction (H s eq_refl).
    + intros s0 [= <-] H. congruence.
    + destruct Hres as [[d Hd] | Hd]; rewrite Hd; discriminate.
  - exists 4%nat. repeat split; auto; try lia.
    + intros H. contradiction (H s eq_refl).
    + intros s0 [= <-] H. congruence.
    + rewrite Hraise. discriminate.
    + rewrite Hraise. intros [d Hd]. discriminate.
Qed.

Lemma predict_on_english (L : Lib) (self : SentimentPredictor.t) (s : pystr) (p : process) :
  PyStr.strip s <> [] ->
  fst (SentimentPredictor.get_language L self (PyStr s) p) = Ok (lit "en") ->
  SentimentPredictor.predict L self (PyStr s) p
  = SentimentPredictor.classify L self s (after_detect (PyStr s) p).
Proof.
  intros Hs Hen. rewrite predict_str.
  unfold SentimentPredictor.get_language in Hen. rewrite detect_str in Hen.
  cbn [fst] in Hen. destruct (PyStr.strip s); [contradiction |].
  destruct (langdetect L (seed_in p) s) as [language |]; [| discriminate].
  injection Hen as ->. rewrite bool_decide_eq_false_2; [reflexivity |].
  intros H. apply H. reflexivity.
Qed.

(** X8: when both models answer with an index below the number of labels,
    [predict] on a string never raises, and for a string that is not blank
    and that the detector calls ['en'] it returns the labels at the two
    indexes the models give for the tokenized cleaned comment. *)
Theorem predict_labels_by_index (L : Lib) (self : SentimentPredictor.t)
    (s : pystr) (p : process) :
  (forall enc, (model_product L enc < List.length (SentimentPredictor.labels self))%nat
               /\ (model_video L enc < List.length (SentimentPredictor.labels self))%nat) ->
  (forall e, fst (SentimentPredictor.predict L self (PyStr s) p) <> Raise e)
  /\ (PyStr.strip s <> [] ->
      fst (SentimentPredictor.get_language L self (PyStr s) p) = Ok (lit "en") ->
      exists product video,
        nth_error (SentimentPredictor.labels self) (model_product L (inputs_of L s))
        = Some product
        /\ nth_error (SentimentPredictor.labels self) (model_video L (inputs_of L s))
           = Some video
        /\ fst (SentimentPredictor.predict L self (PyStr s) p)
           = Ok (Some {| SentimentPredictor.sentiment_for_product := product;
                         SentimentPredictor.sentiment_for_video := video |})).
Proof.
  intros Hmodels.
  assert (Hclassify : forall q,
            exists product video,
              nth_error (SentimentPredictor.labels self) (model_product L (inputs_of L s))
              = Some product
              /\ nth_error (SentimentPredictor.labels self) (model_video L (inputs_of L s))
                 = Some video
              /\ fst (SentimentPredictor.classify L self s q)
                 = Ok (Some {| SentimentPredictor.sentiment_for_product := product;
                               SentimentPredictor.sentiment_for_video := video |})).
  { intros q. rewrite classify_eq. cbv zeta. fold (inputs_of L s).
    destruct (Hmodels (inputs_of L s)) as [Hp Hv].
    apply nth_error_Some in Hp, Hv.
    destruct (nth_error _ (model_product L _)) as [product |]; [| contradiction].
    destruct (nth_error _ (model_video L _)) as [video |]; [| contradiction].
    exists product, video. repeat split. }
  split.
  - intros e. rewrite predict_str. destruct (PyStr.strip s); [discriminate |].
    destruct (langdetect L (seed_in p) s) as [language |]; [| discriminate].
    case_bool_decide; [discriminate |].
    destruct (Hclassify (after_detect (PyStr s) p)) as [product [video [_ [_ Hr]]]].
    rewrite Hr. discriminate.
  - intros Hs Hen. rewrite (predict_on_english L self s p Hs Hen). apply Hclassify.
Qed.

Lemma predict_labels_by_index_witness :
  (forall enc, (model_product toy_lib enc < List.length (SentimentPredictor.labels predictor))%nat
               /\ (model_video toy_lib enc
                   < List.length (SentimentPredictor.labels predictor))%nat)
  /\ (forall e, fst (SentimentPredictor.predict toy_lib predictor
                       (PyStr (lit "This product is amazing!")) (fresh no_frame))
                <> Raise e)
  /\ (PyStr.strip (lit "This product is amazing!") <> [] ->
      fst (SentimentPredictor.get_language toy_lib predictor
             (PyStr (lit "This product is amazing!")) (fresh no_frame)) = Ok (lit "en") ->
      exists product video,
        nth_error (SentimentPredictor.labels predictor)
          (model_product toy_lib (inputs_of toy_lib (lit "This product is amazing!")))
        = Some product
        /\ nth_error (SentimentPredictor.labels predictor)
             (model_video toy_lib (inputs_of toy_lib (lit "This product is amazing!")))
           = Some video
        /\ fst (SentimentPredictor.predict toy_lib predictor
                  (PyStr (lit "This product is amazing!")) (fresh no_frame))
           = Ok (Some {| SentimentPredictor.sentiment_for_product := product;
                         SentimentPredictor.sentiment_for_video := video |})).
Proof.
  assert (H : forall enc,
             (model_product toy_lib enc < List.length (SentimentPredictor.labels predictor))%nat
             /\ (model_video toy_lib enc
                 < List.length (SentimentPredictor.labels predictor))%nat).
  { intros enc. split; [| cbn; lia].
    change (@List.length N enc mod 3 < 3)%nat. apply Nat.mod_upper_bound. discriminate. }
  split; [exact H |].
  exact (predict_labels_by_index toy_lib predictor (lit "This product is amazing!")
           (fresh no_frame) H).
Defined.

(** X9: for a string that is not blank and that the detector calls ['en'],
    an index of the product model at or beyond the number of labels makes
    [predict] raise [IndexError] after the product model and before the
    video model is called; with the product index in range, such an index of
    the video model makes it raise [IndexError] after both models ran. *)
Theorem predict_index_error (L : Lib) (self : SentimentPredictor.t)
    (s : pystr) (p : process) :
  PyStr.strip s <> [] ->
  fst (SentimentPredictor.get_language L self (PyStr s) p) = Ok (lit "en") ->
  let r := SentimentPredictor.predict L self (PyStr s) p in
  ((List.length (SentimentPredictor.labels self) <= model_product L (inputs_of L s))%nat ->
   fst r = Raise IndexError
   /\ calls (snd r) = calls p ++ firstn 4 (predict_calls L s p))
  /\ ((model_product L (inputs_of L s) < List.length (SentimentPredictor.labels self))%nat ->
      (List.length (SentimentPredictor.labels self) <= model_video L (inputs_of L s))%nat ->
      fst r = Raise IndexError
      /\ calls (snd r) = calls p ++ predict_calls L s p).
Proof.
  intros Hs Hen. cbv zeta. rewrite (predict_on_english L self s p Hs Hen), classify_eq.
  cbv zeta. fold (inputs_of L s).
  destruct (after_detect_rest (PyStr s) p) as [_ [_ Hc]].
  split.
  - intros Hp. apply nth_error_None in Hp. rewrite Hp. cbn. rewrite Hc, <- !app_assoc.
    split; reflexivity.
  - intros Hp Hv. apply nth_error_Some in Hp. apply nth_error_None in Hv.
    destruct (nth_error _ (model_product L _)); [| contradiction].
    rewrite Hv. cbn. rewrite Hc, <- !app_assoc. split; reflexivity.
Qed.

Lemma predict_index_error_witness :
  PyStr.strip (lit "This product is amazing!") <> []
  /\ fst (SentimentPredictor.get_language four_class_lib predictor
            (PyStr (lit "This product is amazing!")) (fresh no_frame)) = Ok (lit "en")
  /\ (List.length (SentimentPredictor.labels predictor)
      <= model_product four_class_lib
           (inputs_of four_class_lib (lit "This product is amazing!")))%nat
  /\ let r := SentimentPredictor.predict four_class_lib predictor
                (PyStr (lit "This product is amazing!")) (fresh no_frame) in
     ((List.length (SentimentPredictor.labels predictor)
       <= model_product four_class_lib
            (inputs_of four_class_lib (lit "This product is amazing!")))%nat ->
      fst r = Raise IndexError
      /\ calls (snd r)
         = calls (fresh no_frame)
           ++ firstn 4 (predict_calls four_class_lib (lit "This product is amazing!")
                          (fresh no_frame)))
     /\ ((model_product four_class_lib
            (inputs_of four_class_lib (lit "This product is amazing!"))
          < List.length (SentimentPredictor.labels predictor))%nat ->
         (List.length (SentimentPredictor.labels predictor)
          <= model_video four_class_lib
               (inputs_of four_class_lib (lit "This product is amazing!")))%nat ->
         fst r = Raise IndexError
         /\ calls (snd r)
            = calls (fresh no_frame)
              ++ predict_calls four_class_lib (lit "This product is amazing!")
                   (fresh no_frame)).
Proof.
  assert (H1 : PyStr.strip (lit "This product is amazing!") <> [])
    by (vm_compute; discriminate).
  assert (H2 : fst (SentimentPredictor.get_language four_class_lib predictor
                      (PyStr (lit "This product is amazing!")) (fresh no_frame))
               = Ok (lit "en")) by (vm_compute; reflexivity).
  split; [exact H1 |]. split; [exact H2 |]. split; [cbn; lia |].
  exact (predict_index_error four_class_lib predictor (lit "This product is amazing!")
           (fresh no_frame) H1 H2).
Defined.

(** X10: once the detector has called two comments ['en'], the labels
    depend on the cleaned comment only: two comments that are not blank and
    clean to the same text get the same result, in whatever process. *)
Theorem predict_same_cleaned_text (L : Lib) (self : SentimentPredictor.t)
    (s1 s2 : pystr) (p1 p2 : process) :
  PyStr.strip s1 <> [] -> PyStr.strip s2 <> [] ->
  fst (SentimentPredictor.get_language L self (PyStr s1) p1) = Ok (lit "en") ->
  fst (SentimentPredictor.get_language L self (PyStr s2) p2) = Ok (lit "en") ->
  SentimentPredictor.clean_text L self s1 false
  = SentimentPredictor.clean_text L self s2 false ->
  fst (SentimentPredictor.predict L self (PyStr s1) p1)
  = fst (SentimentPredictor.predict L self (PyStr s2) p2).
Proof.
  intros Hs1 Hs2 He1 He2 Hclean. rewrite !predictor_clean_text_default in Hclean.
  injection Hclean as Hclean.
  rewrite (predict_on_english L self s1 p1 Hs1 He1), (predict_on_english L self s2 p2 Hs2 He2).
  rewrite !classify_eq. cbv zeta. rewrite Hclean.
  destruct (nth_error _ (model_product L _)); [| reflexivity].
  destruct (nth_error _ (model_video L _)); reflexivity.
Qed.

Lemma predict_same_cleaned_text_witness :
  PyStr.strip (lit "Great video, thanks!") <> []
  /\ PyStr.strip (lit "  GREAT   video... thanks! ") <> []
  /\ SentimentPredictor.clean_text toy_lib predictor (lit "Great video, thanks!") false
     = SentimentPredictor.clean_text toy_lib predictor (lit "  GREAT   video... thanks! ") false
  /\ fst (SentimentPredictor.predict toy_lib predictor
            (PyStr (lit "Great video, thanks!")) (fresh no_frame))
     = fst (SentimentPredictor.predict toy_lib predictor
              (PyStr (lit "  GREAT   video... thanks! ")) (fresh comments)).
Proof.
  assert (H1 : PyStr.strip (lit "Great video, thanks!") <> [])
    by (vm_compute; discriminate).
  assert (H2 : PyStr.strip (lit "  GREAT   video... thanks! ") <> [])
    by (vm_compute; discriminate).
  assert (H3 : SentimentPredictor.clean_text toy_lib predictor
                 (lit "Great video, thanks!") false
               = SentimentPredictor.clean_text toy_lib predictor
                   (lit "  GREAT   video... thanks! ") false)
    by (vm_compute; reflexivity).
  split; [exact H1 |]. split; [exact H2 |]. split; [exact H3 |].
  exact (predict_same_cleaned_text toy_lib predictor (lit "Great video, thanks!")
           (lit "  GREAT   video... thanks! ") (fresh no_frame) (fresh comments)
           H1 H2 ltac:(vm_compute; reflexivity) ltac:(vm_compute; reflexivity) H3).
Defined.

(** ** More on [RemoveNonEnglish] *)

Lemma detect_rest (L : Lib) (text : pyval) (p : process) :
  frame (snd (detect L text p)) = frame p
  /\ stdout (snd (detect L text p)) = stdout p
  /\ DetectorFactory_seed (snd (detect L text p)) = DetectorFactory_seed p.
Proof.
  destruct text as [| b | z | s]; try (repeat split; reflexivity).
  rewrite detect_str. cbn [snd].
  destruct (after_detect_rest (PyStr s) p) as [Hf [Ho _]].
  repeat split; [exact Hf | exact Ho | apply after_detect_seed].
Qed.

Lemma collect_row_rest (L : Lib) (self : RemoveNonEnglish.t) (index : Z) (text : pyval)
    (p : process) :
  let r := RemoveNonEnglish.collect_row L self index text p in
  frame (snd r) = frame p
  /\ stdout (snd r) = stdout p
  /\ DetectorFactory_seed (snd r) = DetectorFactory_seed p.
Proof.
  cbv zeta. unfold RemoveNonEnglish.collect_row, try_except, bind,
    RemoveNonEnglish.get_language.
  pose proof (detect_rest L text p) as H.
  destruct (detect L text p) as [[language | e] p1]; cbn [snd] in H.
  - unfold ret. destruct (bool_decide (language ≠ lit "en")); exact H.
  - destruct (bool_decide (e = LangDetectException)); exact H.
Qed.

Lemma collect_rows_rest (L : Lib) (tuples : list (Z * list pyval)) :
  forall (self : RemoveNonEnglish.t) (p : process),
    let r := RemoveNonEnglish.collect_rows L self tuples p in
    frame (snd r) = frame p
    /\ stdout (snd r) = stdout p
    /\ DetectorFactory_seed (snd r) = DetectorFactory_seed p.
Proof.
  induction tuples as [| [index cells] rest IH]; intros self p; cbv zeta;
    [repeat split |].
  destruct cells as [| text [| a [| b [| c cells]]]]; try (repeat split; reflexivity).
  cbn [RemoveNonEnglish.collect_rows]. unfold bind.
  pose proof (collect_row_rest L self index text p) as H. cbv zeta in H.
  destruct (RemoveNonEnglish.collect_row L self index text p) as [[self1 | e] p1];
    cbn [snd] in H; [| exact H].
  destruct H as [Hf [Ho Hs]]. specialize (IH self1 p1). cbv zeta in IH.
  rewrite <- Hf, <- Ho, <- Hs. exact IH.
Qed.

Lemma drop_rest (labels : list Z) (p : process) :
  let r := drop labels p in
  DetectorFactory_seed (snd r) = DetectorFactory_seed p
  /\ stdout (snd r) = stdout p
  /\ columns (frame (snd r)) = columns (frame p)
  /\ exists keep, rows (frame (snd r)) = List.filter keep (rows (frame p)).
Proof.
  cbv zeta. unfold drop.
  destruct (forallb _ labels); cbn; repeat split.
  - exists (kept labels). reflexivity.
  - exists (fun _ => true). symmetry. apply filter_true.
Qed.

Lemma remove_rest (self : RemoveNonEnglish.t) (p : process) :
  let r := RemoveNonEnglish.remove self p in
  DetectorFactory_seed (snd r) = DetectorFactory_seed p
  /\ columns (frame (snd r)) = columns (frame p)
  /\ exists keep, rows (frame (snd r)) = List.filter keep (rows (frame p)).
Proof.
  cbv zeta. unfold RemoveNonEnglish.remove, bind.
  pose proof (drop_rest (List.map fst (RemoveNonEnglish.exception_entries self)) p) as H1.
  cbv zeta in H1.
  destruct (drop (List.map fst (RemoveNonEnglish.exception_entries self)) p)
    as [[[] | e] p1]; cbn [snd] in H1; destruct H1 as [Hs1 [_ [Hc1 [k1 Hr1]]]];
    [| repeat split; eauto].
  pose proof (drop_rest (List.map (fun entry => fst (fst entry))
                           (RemoveNonEnglish.other_language_entries self)) p1) as H2.
  cbv zeta in H2.
  destruct (drop _ p1) as [[[] | e] p2]; cbn [snd] in H2;
    destruct H2 as [Hs2 [_ [Hc2 [k2 Hr2]]]]; cbn.
  - split; [congruence |]. split; [congruence |].
    exists (fun row => k1 row && k2 row). rewrite Hr2, Hr1. apply filter_filter.
  - split; [congruence |]. split; [congruence |].
    exists (fun row => k1 row && k2 row). rewrite Hr2, Hr1. apply filter_filter.
Qed.

Lemma remove_non_english_rest (L : Lib) (p : process) :
  let r := RemoveNonEnglish.__init__ L p in
  DetectorFactory_seed (snd r) = Some 0%Z
  /\ columns (frame (snd r)) = columns (frame p)
  /\ exists keep, rows (frame (snd r)) = List.filter keep (rows (frame p)).
Proof.
  cbv zeta. unfold RemoveNonEnglish.__init__, RemoveNonEnglish.collect_non_english_content,
    bind, get_frame, print. cbn [frame set_seed].
  match goal with
  | |- context [RemoveNonEnglish.collect_rows L ?s ?t ?q] =>
      pose proof (collect_rows_rest L t s q) as H; cbv zeta in H;
      destruct (RemoveNonEnglish.collect_rows L s t q) as [[self1 | e] p1]
  end; cbn [snd] in H; destruct H as [Hf [_ Hs]]; cbn in Hf, Hs.
  - unfold ret. cbv beta iota.
    match goal with
    | |- context [RemoveNonEnglish.remove self1 ?q] =>
        pose proof (remove_rest self1 q) as H; cbv zeta in H;
        destruct (RemoveNonEnglish.remove self1 q) as [[[] | e] p2]
    end; cbn [snd] in H; cbn in H; destruct H as [Hs2 [Hc2 [keep Hr2]]];
      cbn [snd ret]; rewrite Hs2, Hc2, Hr2, Hf; repeat split; eauto.
  - cbn [snd]. rewrite Hf. repeat split; [exact Hs |].
    exists (fun _ => true). symmetry. apply filter_true.
Qed.

(** X11: however it ends, on whatever table, [RemoveNonEnglish(df)] leaves
    [DetectorFactory.seed] at 0, never changes the columns or the content
    of a row, and never adds or reorders rows: the rows left are a filter of
    the rows given. *)
Theorem remove_non_english_only_filters (L : Lib) (p : process) :
  let p' := snd (RemoveNonEnglish.__init__ L p) in
  DetectorFactory_seed p' = Some 0%Z
  /\ columns (frame p') = columns (frame p)
  /\ exists keep, rows (frame p') = List.filter keep (rows (frame p)).
Proof. cbv zeta. pose proof (remove_non_english_rest L p) as H. exact H. Qed.

Lemma predict_seeded (L : Lib) (self : SentimentPredictor.t) (comment : pyval)
    (p1 p2 : process) :
  DetectorFactory_seed p1 <> None ->
  DetectorFactory_seed p1 = DetectorFactory_seed p2 ->
  fst (SentimentPredictor.predict L self comment p1)
  = fst (SentimentPredictor.predict L self comment p2).
Proof.
  intros Hset Hsame. destruct comment as [| b | z | s]; try reflexivity.
  rewrite !predict_str. destruct (PyStr.strip s); [reflexivity |].
  assert (seed_in p1 = seed_in p2) as <-.
  { unfold seed_in. rewrite <- Hsame. destruct (DetectorFactory_seed p1); congruence. }
  destruct (langdetect L (seed_in p1) s) as [language |]; [| reflexivity].
  case_bool_decide; [reflexivity |]. rewrite !classify_eq. cbv zeta.
  destruct (nth_error _ (model_product L _)); [| reflexivity].
  destruct (nth_error _ (model_video L _)); reflexivity.
Qed.

(** X12: in a process where [RemoveNonEnglish] was constructed, on whatever
    table and however that ended, [predict] is repeatable: a second call on
    the same comment gives the result of the first, and so does a call in
    any other process that went through [RemoveNonEnglish]. *)
Theorem predict_repeatable_after_remove_non_english (L : Lib)
    (self : SentimentPredictor.t) (comment : pyval) (p q : process) :
  let p0 := snd (RemoveNonEnglish.__init__ L p) in
  let q0 := snd (RemoveNonEnglish.__init__ L q) in
  let first := SentimentPredictor.predict L self comment p0 in
  fst (SentimentPredictor.predict L self comment (snd first)) = fst first
  /\ fst (SentimentPredictor.predict L self comment q0) = fst first.
Proof.
  cbv zeta.
  destruct (remove_non_english_rest L p) as [Hp _].
  destruct (remove_non_english_rest L q) as [Hq _].
  split; apply predict_seeded.
  - rewrite predict_keeps_seed, Hp. discriminate.
  - rewrite predict_keeps_seed. reflexivity.
  - rewrite Hq. discriminate.
  - rewrite Hp, Hq. reflexivity.
Qed.

Example predict_twice_after_remove_non_english :
  let p0 := snd (RemoveNonEnglish.__init__ toy_lib (fresh comments)) in
  let first := SentimentPredictor.predict toy_lib predictor (PyStr (lit "nice video")) p0 in
  fst first
  = Ok (Some {| SentimentPredictor.sentiment_for_product := lit "neutral";
                SentimentPredictor.sentiment_for_video := lit "neutral" |})
  /\ fst (SentimentPredictor.predict toy_lib predictor (PyStr (lit "nice video")) (snd first))
     = fst first.
Proof. vm_compute. repeat split. Qed.

Lemma record_row_content (L : Lib) (self : RemoveNonEnglish.t) (row : Z * list pyval) :
  RemoveNonEnglish.exception_entries (record_row L self row)
  = RemoveNonEnglish.exception_entries self
    ++ (if is_undetectable L row then [(fst row, row_text row)] else [])
  /\ RemoveNonEnglish.other_language_entries (record_row L self row)
     = RemoveNonEnglish.other_language_entries self
       ++ (if is_other L row then [(fst row, row_text row, row_language L row)] else []).
Proof.
  unfold record_row, is_undetectable, is_other, row_outcome, row_text, row_language,
    classify0.
  destruct (snd row) as [| [| | | s] cells]; try (rewrite !app_nil_r; split; reflexivity).
  destruct (langdetect L 0%Z s) as [code |].
  - destruct (bool_decide (code ≠ lit "en")); cbn; rewrite ?app_nil_r; split; reflexivity.
  - cbn. rewrite ?app_nil_r. split; reflexivity.
Qed.

Lemma record_rows_content (L : Lib) (tuples : list (Z * list pyval)) :
  forall self : RemoveNonEnglish.t,
    RemoveNonEnglish.exception_entries (record_rows L self tuples)
    = RemoveNonEnglish.exception_entries self
      ++ List.map (fun row => (fst row, row_text row))
           (List.filter (is_undetectable L) tuples)
    /\ RemoveNonEnglish.other_language_entries (record_rows L self tuples)
       = RemoveNonEnglish.other_language_entries self
         ++ List.map (fun row => (fst row, row_text row, row_language L row))
              (List.filter (is_other L) tuples).
Proof.
  induction tuples as [| row rest IH]; intros self.
  - cbn. rewrite !app_nil_r. split; reflexivity.
  - unfold record_rows. cbn [fold_left]. fold (record_rows L (record_row L self row) rest).
    destruct (IH (record_row L self row)) as [Hexc Hoth]. rewrite Hexc, Hoth.
    destruct (record_row_content L self row) as [Hexc1 Hoth1]. rewrite Hexc1, Hoth1.
    cbn [List.filter].
    destruct (is_undetectable L row), (is_other L row); cbn [List.map];
      rewrite <- ?app_assoc, ?app_nil_r; split; reflexivity.
Qed.

(** X13: with the seed at 0 and every row of three cells, the first a
    string, [collect_non_english_content] ends normally after one detector
    call per row, in row order, on the raw text; it appends to the two lists
    of the object, in row order, the index and text of each undetectable row
    and the index, text and language code of each row of another language,
    keeps what the lists held, leaves the dataset as it is and prints the
    two list lengths. *)
Theorem collect_non_english_content_entries (L : Lib) (self : RemoveNonEnglish.t)
    (p : process) :
  DetectorFactory_seed p = Some 0%Z ->
  Forall (fun row => text_first_of_three row = true) (rows (frame p)) ->
  exists self' p',
    RemoveNonEnglish.collect_non_english_content L self p = (Ok self', p')
    /\ RemoveNonEnglish.exception_entries self'
       = RemoveNonEnglish.exception_entries self
         ++ List.map (fun row => (fst row, row_text row))
              (List.filter (is_undetectable L) (rows (frame p)))
    /\ RemoveNonEnglish.other_language_entries self'
       = RemoveNonEnglish.other_language_entries self
         ++ List.map (fun row => (fst row, row_text row, row_language L row))
              (List.filter (is_other L) (rows (frame p)))
    /\ RemoveNonEnglish.original_size self' = RemoveNonEnglish.original_size self
    /\ frame p' = frame p
    /\ calls p'
       = calls p ++ List.map (fun row => CallDetect (row_text row) (Some 0%Z)) (rows (frame p))
    /\ stdout p'
       = stdout p
         ++ [NonLanguageEntries (List.length (RemoveNonEnglish.exception_entries self'));
             OtherLanguageEntries
               (List.length (RemoveNonEnglish.other_language_entries self'))].
Proof.
  intros Hseed Hshape.
  destruct (collect_rows_seeded L (rows (frame p)) self p Hseed Hshape)
    as [p1 [Hrun [Hframe [Hout [_ Hcalls]]]]].
  destruct (record_rows_content L (rows (frame p)) self) as [Hexc Hoth].
  destruct (record_rows_entries L (rows (frame p)) self) as [_ [_ Hsize]].
  eexists _, _. split.
  { unfold RemoveNonEnglish.collect_non_english_content, bind, get_frame, print, ret.
    rewrite Hrun. reflexivity. }
  cbn. rewrite Hout, <- app_assoc. repeat split; assumption.
Qed.

Lemma collect_non_english_content_entries_witness :
  DetectorFactory_seed (set_seed (Some 0%Z) (fresh comments)) = Some 0%Z
  /\ Forall (fun row => text_first_of_three row = true)
       (rows (frame (set_seed (Some 0%Z) (fresh comments))))
  /\ exists self' p',
       RemoveNonEnglish.collect_non_english_content toy_lib (no_entries 4)
         (set_seed (Some 0%Z) (fresh comments)) = (Ok self', p')
       /\ RemoveNonEnglish.exception_entries self'
          = RemoveNonEnglish.exception_entries (no_entries 4)
            ++ List.map (fun row => (fst row, row_text row))
                 (List.filter (is_undetectable toy_lib)
                    (rows (frame (set_seed (Some 0%Z) (fresh comments)))))
       /\ RemoveNonEnglish.other_language_entries self'
          = RemoveNonEnglish.other_language_entries (no_entries 4)
            ++ List.map (fun row => (fst row, row_text row, row_language toy_lib row))
                 (List.filter (is_other toy_lib)
                    (rows (frame (set_seed (Some 0%Z) (fresh comments)))))
       /\ RemoveNonEnglish.original_size self'
          = RemoveNonEnglish.original_size (no_entries 4)
       /\ frame p' = frame (set_seed (Some 0%Z) (fresh comments))
       /\ calls p'
          = calls (set_seed (Some 0%Z) (fresh comments))
            ++ List.map (fun row => CallDetect (row_text row) (Some 0%Z))
                 (rows (frame (set_seed (Some 0%Z) (fresh comments))))
       /\ stdout p'
          = stdout (set_seed (Some 0%Z) (fresh comments))
            ++ [NonLanguageEntries (List.length (RemoveNonEnglish.exception_entries self'));
                OtherLanguageEntries
                  (List.length (RemoveNonEnglish.other_language_entries self'))].
Proof.
  assert (H : Forall (fun row => text_first_of_three row = true)
                (rows (frame (set_seed (Some 0%Z) (fresh comments)))))
    by (repeat constructor).
  split; [reflexivity |]. split; [exact H |].
  exact (collect_non_english_content_entries toy_lib (no_entries 4)
           (set_seed (Some 0%Z) (fresh comments)) eq_refl H).
Defined.

Example collect_non_english_content_comments :
  let r := RemoveNonEnglish.collect_non_english_content toy_lib (no_entries 4)
             (set_seed (Some 0%Z) (fresh comments)) in
  match fst r with
  | Ok self' =>
      RemoveNonEnglish.exception_entries self' = [(1%Z, PyStr (lit "12345 !!"))]
      /\ RemoveNonEnglish.other_language_entries self'
         = [(5%Z, PyStr (220 :: lit "ber alles gut, danke"), lit "fr")]
  | Raise _ => False
  end.
Proof. vm_compute. split; reflexivity. Qed.

(** *** A second run *)

Lemma NoDup_map_filter {A B} (f : A -> B) (q : A -> bool) (l : list A) :
  List.NoDup (List.map f l) -> List.NoDup (List.map f (List.filter q l)).
Proof.
  induction l as [| x l IH]; [trivial |]. cbn [List.map List.filter].
  intros H. inversion H as [| ? ? Hx Hl]; subst.
  destruct (q x); [| apply IH, Hl]. cbn [List.map]. constructor; [| apply IH, Hl].
  intros Hin. apply Hx. apply in_map_iff in Hin. destruct Hin as [y [Hy Hin]].
  apply filter_In in Hin. rewrite <- Hy. apply in_map, Hin.
Qed.

Lemma filter_none {A} (f : A -> bool) (l : list A) :
  (forall x, In x l -> f x = false) -> List.filter f l = [].
Proof.
  induction l as [| x l IH]; [reflexivity |]. intros H. cbn [List.filter].
  rewrite (H x (or_introl eq_refl)). apply IH. intros y Hy. apply H. right. exact Hy.
Qed.

Lemma english_rows_only (L : Lib) (tuples : list (Z * list pyval)) :
  List.filter (is_english L) (List.filter (is_english L) tuples)
  = List.filter (is_english L) tuples
  /\ List.filter (is_other L) (List.filter (is_english L) tuples) = []
  /\ List.filter (is_undetectable L) (List.filter (is_english L) tuples) = [].
Proof.
  split; [| split].
  - apply forallb_filter_id, forallb_filter.
  - apply filter_none. intros row Hrow. apply filter_In in Hrow. destruct Hrow as [_ H].
    unfold is_english, is_other in *. destruct (row_outcome L row) as [[| |] |]; congruence.
  - apply filter_none. intros row Hrow. apply filter_In in Hrow. destruct Hrow as [_ H].
    unfold is_english, is_undetectable in *.
    destruct (row_outcome L row) as [[| |] |]; congruence.
Qed.

(** X14: on a table of texts with unique index labels, running
    [RemoveNonEnglish] again on the table it left removes nothing: the
    second run ends normally with both lists empty, the dataset unchanged
    and 0 printed as the number removed. *)
Theorem remove_non_english_second_run (L : Lib) (p : process) :
  List.NoDup (index (frame p)) ->
  Forall (fun row => text_first_of_three row = true) (rows (frame p)) ->
  let p1 := snd (RemoveNonEnglish.__init__ L p) in
  exists self2 p2,
    RemoveNonEnglish.__init__ L p1 = (Ok self2, p2)
    /\ frame p2 = frame p1
    /\ RemoveNonEnglish.exception_entries self2 = []
    /\ RemoveNonEnglish.other_language_entries self2 = []
    /\ stdout p2
       = stdout p1 ++ [NonLanguageEntries 0; OtherLanguageEntries 0;
                       SizeReduces (Z.of_nat (len (frame p1))) (Z.of_nat (len (frame p1))) 0].
Proof.
  intros Hnd Hshape. cbv zeta.
  destruct (remove_non_english_run L p Hnd Hshape) as [self1 [p1 [Hrun [Hframe _]]]].
  rewrite Hrun. cbn [snd].
  destruct (english_rows_only L (rows (frame p))) as [Heng [Hoth Hund]].
  assert (Hnd1 : List.NoDup (List.map fst (rows (frame p1)))).
  { rewrite Hframe. cbn [rows]. apply NoDup_map_filter, Hnd. }
  assert (Hshape1 : Forall (fun row => text_first_of_three row = true) (rows (frame p1))).
  { rewrite Hframe. cbn [rows]. apply List.Forall_forall. intros row Hrow.
    apply filter_In in Hrow. rewrite List.Forall_forall in Hshape. apply Hshape, Hrow. }
  destruct (remove_non_english_run L p1 Hnd1 Hshape1)
    as [self2 [p2 [Hrun2 [Hframe2 [Hlo [Hle [Hout _]]]]]]].
  rewrite Hframe in Hframe2, Hlo, Hle, Hout. cbn [rows columns] in Hframe2, Hlo, Hle, Hout.
  rewrite Heng in Hframe2, Hout. rewrite Hoth in Hlo, Hout. rewrite Hund in Hle, Hout.
  exists self2, p2. split; [exact Hrun2 |]. split; [rewrite Hframe; exact Hframe2 |].
  split; [apply length_zero_iff_nil, Hle |]. split; [apply length_zero_iff_nil, Hlo |].
  rewrite Hout, Hframe. unfold len. cbn [rows List.length]. rewrite Z.sub_diag. reflexivity.
Qed.

Lemma remove_non_english_second_run_witness :
  List.NoDup (index (frame (fresh comments)))
  /\ Forall (fun row => text_first_of_three row = true) (rows (frame (fresh comments)))
  /\ let p1 := snd (RemoveNonEnglish.__init__ toy_lib (fresh comments)) in
     exists self2 p2,
       RemoveNonEnglish.__init__ toy_lib p1 = (Ok self2, p2)
       /\ frame p2 = frame p1
       /\ RemoveNonEnglish.exception_entries self2 = []
       /\ RemoveNonEnglish.other_language_entries self2 = []
       /\ stdout p2
          = stdout p1 ++ [NonLanguageEntries 0; OtherLanguageEntries 0;
                          SizeReduces (Z.of_nat (len (frame p1)))
                            (Z.of_nat (len (frame p1))) 0].
Proof.
  assert (H1 : List.NoDup (index (frame (fresh comments)))).
  { cbn. repeat constructor; cbn; intuition discriminate. }
  assert (H2 : Forall (fun row => text_first_of_three row = true)
                 (rows (frame (fresh comments)))) by (repeat constructor).
  split; [exact H1 |]. split; [exact H2 |].
  exact (remove_non_english_second_run toy_lib (fresh comments) H1 H2).
Defined.

(** *** Failures of [RemoveNonEnglish] *)

Lemma drop_unknown (labels : list Z) (p : process) (l : Z) :
  In l labels -> ~ In l (index (frame p)) ->
  drop labels p = (Raise KeyError, p).
Proof.
  intros Hl Hnot. unfold drop.
  destruct (forallb (fun l0 => existsb (Z.eqb l0) (index (frame p))) labels) eqn:E;
    [| reflexivity].
  rewrite forallb_forall in E. specialize (E l Hl). apply existsb_exists in E.
  destruct E as [l' [Hin Heq]]. apply Z.eqb_eq in Heq. subst l'. contradiction.
Qed.

(** X15: when an undetectable row and a row of another language carry the
    same index label, in a table of texts, [RemoveNonEnglish] raises
    [KeyError] in its second [drop]: by then the first [drop] has removed
    every row that shares a label with an undetectable row, the rows of
    other languages are still there, and the size line is not printed. *)
Theorem remove_non_english_shared_label_key_error (L : Lib) (p : process)
    (undetectable other : Z * list pyval) :
  Forall (fun row => text_first_of_three row = true) (rows (frame p)) ->
  In undetectable (rows (frame p)) -> is_undetectable L undetectable = true ->
  In other (rows (frame p)) -> is_other L other = true ->
  fst undetectable = fst other ->
  let r := RemoveNonEnglish.__init__ L p in
  fst r = Raise KeyError
  /\ rows (frame (snd r))
     = List.filter
         (kept (List.map fst (List.filter (is_undetectable L) (rows (frame p)))))
         (rows (frame p))
  /\ stdout (snd r)
     = stdout p
       ++ [NonLanguageEntries
             (List.length (List.filter (is_undetectable L) (rows (frame p))));
           OtherLanguageEntries (List.length (List.filter (is_other L) (rows (frame p))))].
Proof.
  intros Hshape Hu Hund Ho Hoth Hlabel. cbv zeta.
  set (self0 := {| RemoveNonEnglish.exception_entries := [];
                   RemoveNonEnglish.other_language_entries := [];
                   RemoveNonEnglish.original_size := len (frame p) |}).
  destruct (collect_rows_seeded L (rows (frame p)) self0 (set_seed (Some 0%Z) p)
              eq_refl Hshape) as [p1 [Hrun [Hframe [Hout _]]]].
  destruct (record_rows_entries L (rows (frame p)) self0) as [Hexc [Hothl _]].
  cbn [List.map app RemoveNonEnglish.exception_entries
       RemoveNonEnglish.other_language_entries self0] in Hexc, Hothl.
  set (self1 := record_rows L self0 (rows (frame p))) in *.
  assert (Hlen_exc : List.length (RemoveNonEnglish.exception_entries self1)
                     = List.length (List.filter (is_undetectable L) (rows (frame p)))).
  { rewrite <- (length_map fst (RemoveNonEnglish.exception_entries self1)), Hexc.
    apply length_map. }
  assert (Hlen_oth : List.length (RemoveNonEnglish.other_language_entries self1)
                     = List.length (List.filter (is_other L) (rows (frame p)))).
  { rewrite <- (length_map (fun entry => fst (fst entry))
                  (RemoveNonEnglish.other_language_entries self1)), Hothl.
    apply length_map. }
  unfold RemoveNonEnglish.__init__, RemoveNonEnglish.collect_non_english_content,
    bind, get_frame, print, ret.
  cbn [frame set_seed]. fold self0. rewrite Hrun. fold self1.
  unfold RemoveNonEnglish.remove, bind. rewrite Hexc, Hothl.
  rewrite drop_known.
  2:{ cbn [frame add_line]. rewrite Hframe. cbn [frame set_seed].
      intros l Hl. apply in_map_iff in Hl. destruct Hl as [row [<- Hrow]].
      apply filter_In in Hrow. apply in_map, Hrow. }
  cbn [frame add_line set_frame columns rows]. rewrite Hframe. cbn [frame set_seed].
  rewrite (drop_unknown _ _ (fst other)).
  - cbn. rewrite Hout, Hlen_exc, Hlen_oth, <- app_assoc. repeat split.
  - apply in_map, filter_In. split; assumption.
  - cbn. intros Hin. apply in_map_iff in Hin. destruct Hin as [row [Hfst Hrow]].
    apply filter_In in Hrow. destruct Hrow as [_ Hkept]. unfold kept in Hkept.
    apply negb_true_iff in Hkept.
    assert (Htrue : existsb (Z.eqb (fst row))
                      (List.map fst (List.filter (is_undetectable L) (rows (frame p))))
                    = true).
    { apply existsb_exists. exists (fst undetectable). split.
      - apply in_map, filter_In. split; assumption.
      - apply Z.eqb_eq. congruence. }
    congruence.
Qed.

Lemma remove_non_english_shared_label_key_error_witness :
  let undetectable := (3%Z, [PyStr (lit "12345 !!"); PyInt 1; PyInt 1]) in
  let other := (3%Z, [PyStr (220 :: lit "ber alles gut, danke"); PyInt 2; PyInt 2]) in
  let r := RemoveNonEnglish.__init__ toy_lib (fresh shared_label) in
  is_undetectable toy_lib undetectable = true
  /\ is_other toy_lib other = true
  /\ fst r = Raise KeyError
  /\ rows (frame (snd r))
     = List.filter
         (kept (List.map fst (List.filter (is_undetectable toy_lib)
                                (rows (frame (fresh shared_label))))))
         (rows (frame (fresh shared_label)))
  /\ stdout (snd r)
     = stdout (fresh shared_label)
       ++ [NonLanguageEntries
             (List.length (List.filter (is_undetectable toy_lib)
                             (rows (frame (fresh shared_label)))));
           OtherLanguageEntries
             (List.length (List.filter (is_other toy_lib)
                             (rows (frame (fresh shared_label)))))].
Proof.
  cbv zeta. split; [vm_compute; reflexivity |]. split; [vm_compute; reflexivity |].
  exact (remove_non_english_shared_label_key_error toy_lib (fresh shared_label)
           (3%Z, [PyStr (lit "12345 !!"); PyInt 1; PyInt 1])
           (3%Z, [PyStr (220 :: lit "ber alles gut, danke"); PyInt 2; PyInt 2])
           ltac:(repeat constructor)
           ltac:(cbn; tauto) ltac:(vm_compute; reflexivity)
           ltac:(cbn; tauto) ltac:(vm_compute; reflexivity) eq_refl).
Defined.

Example remove_non_english_shared_label_rows :
  List.map fst (rows (frame (snd (RemoveNonEnglish.__init__ toy_lib (fresh shared_label)))))
  = [4%Z].
Proof. vm_compute. reflexivity. Qed.

Lemma collect_rows_type_error (L : Lib) (tuples : list (Z * list pyval)) :
  forall (self : RemoveNonEnglish.t) (p : process),
    DetectorFactory_seed p = Some 0%Z ->
    Forall (fun row => List.length (snd row) = 3%nat) tuples ->
    Exists (fun row => forall s, row_text row <> PyStr s) tuples ->
    fst (RemoveNonEnglish.collect_rows L self tuples p) = Raise TypeError.
Proof.
  induction tuples as [| [index cells] rest IH]; intros self p Hseed Hwidth Hbad;
    [inversion Hbad |].
  inversion Hwidth as [| ? ? Hrow Hrest]; subst. cbn [snd] in Hrow.
  destruct cells as [| text [| a [| b [| c cells]]]]; try discriminate Hrow.
  cbn [RemoveNonEnglish.collect_rows]. unfold bind.
  destruct text as [| v | z | s].
  1-3: unfold RemoveNonEnglish.collect_row, try_except, bind,
         RemoveNonEnglish.get_language;
       rewrite detect_not_str by (intros s; discriminate); reflexivity.
  rewrite (collect_row_seeded L self index s p Hseed).
  apply IH; [exact Hseed | exact Hrest |].
  inversion Hbad as [? ? Hhead | ? ? Htail]; subst; [| exact Htail].
  contradiction (Hhead s eq_refl).
Qed.

(** X16: in a table whose rows all have three data cells, a row whose first
    cell is no string makes [RemoveNonEnglish] raise [TypeError], which the
    [except LangDetectException] clause does not catch: no row is removed
    and nothing is printed. *)
Theorem remove_non_english_text_not_str (L : Lib) (p : process) :
  Forall (fun row => List.length (snd row) = 3%nat) (rows (frame p)) ->
  Exists (fun row => forall s, row_text row <> PyStr s) (rows (frame p)) ->
  let r := RemoveNonEnglish.__init__ L p in
  fst r = Raise TypeError /\ frame (snd r) = frame p /\ stdout (snd r) = stdout p.
Proof.
  intros Hwidth Hbad. cbv zeta.
  unfold RemoveNonEnglish.__init__, RemoveNonEnglish.collect_non_english_content,
    bind, get_frame. cbn [frame set_seed].
  match goal with
  | |- context [RemoveNonEnglish.collect_rows L ?s ?t ?q] =>
      pose proof (collect_rows_type_error L t s q eq_refl Hwidth Hbad) as Herr;
      pose proof (collect_rows_rest L t s q) as Hrest; cbv zeta in Hrest;
      destruct (RemoveNonEnglish.collect_rows L s t q) as [[self1 | e] p1]
  end; cbn [fst snd] in *; [discriminate |].
  destruct Hrest as [Hf [Ho _]]. injection Herr as ->. repeat split; assumption.
Qed.

Lemma remove_non_english_text_not_str_witness :
  Forall (fun row => List.length (snd row) = 3%nat) (rows (frame (fresh number_as_text)))
  /\ Exists (fun row => forall s, row_text row <> PyStr s)
       (rows (frame (fresh number_as_text)))
  /\ let r := RemoveNonEnglish.__init__ toy_lib (fresh number_as_text) in
     fst r = Raise TypeError
     /\ frame (snd r) = frame (fresh number_as_text)
     /\ stdout (snd r) = stdout (fresh number_as_text).
Proof.
  assert (H1 : Forall (fun row => List.length (snd row) = 3%nat)
                 (rows (frame (fresh number_as_text)))) by (repeat constructor).
  assert (H2 : Exists (fun row => forall s, row_text row <> PyStr s)
                 (rows (frame (fresh number_as_text)))).
  { apply Exists_cons_tl, Exists_cons_hd. intros s. discriminate. }
  split; [exact H1 |]. split; [exact H2 |].
  exact (remove_non_english_text_not_str toy_lib (fresh number_as_text) H1 H2).
Defined.

(** *** The pass does not depend on the process *)

Lemma detect_fst_seeded (L : Lib) (text : pyval) (p q : process) (z : Z) :
  DetectorFactory_seed p = Some z -> DetectorFactory_seed q = Some z ->
  fst (detect L text p) = fst (detect L text q).
Proof.
  intros Hp Hq. destruct text as [| b | v | s]; try reflexivity.
  rewrite !detect_str. unfold seed_in. rewrite Hp, Hq. reflexivity.
Qed.

Lemma collect_row_fst_seeded (L : Lib) (self : RemoveNonEnglish.t) (index : Z)
    (text : pyval) (p q : process) (z : Z) :
  DetectorFactory_seed p = Some z -> DetectorFactory_seed q = Some z ->
  fst (RemoveNonEnglish.collect_row L self index text p)
  = fst (RemoveNonEnglish.collect_row L self index text q).
Proof.
  intros Hp Hq. pose proof (detect_fst_seeded L text p q z Hp Hq) as H.
  unfold RemoveNonEnglish.collect_row, try_except, bind, RemoveNonEnglish.get_language.
  destruct (detect L text p) as [[lp | ep] p1], (detect L text q) as [[lq | eq] q1];
    cbn [fst] in H; try discriminate H.
  - injection H as ->. unfold ret. destruct (bool_decide (lq ≠ lit "en")); reflexivity.
  - injection H as ->. destruct (bool_decide (eq = LangDetectException)); reflexivity.
Qed.

Lemma collect_rows_fst_seeded (L : Lib) (tuples : list (Z * list pyval)) :
  forall (self : RemoveNonEnglish.t) (p q : process) (z : Z),
    DetectorFactory_seed p = Some z -> DetectorFactory_seed q = Some z ->
    fst (RemoveNonEnglish.collect_rows L self tuples p)
    = fst (RemoveNonEnglish.collect_rows L self tuples q).
Proof.
  induction tuples as [| [index cells] rest IH]; intros self p q z Hp Hq; [reflexivity |].
  destruct cells as [| text [| a [| b [| c cells]]]]; try reflexivity.
  cbn [RemoveNonEnglish.collect_rows]. unfold bind.
  pose proof (collect_row_fst_seeded L self index text p q z Hp Hq) as H.
  pose proof (collect_row_rest L self index text p) as Hrp.
  pose proof (collect_row_rest L self index text q) as Hrq. cbv zeta in Hrp, Hrq.
  destruct (RemoveNonEnglish.collect_row L self index text p) as [[sp | ep] p1],
           (RemoveNonEnglish.collect_row L self index text q) as [[sq | eq] q1];
    cbn [fst snd] in *; try discriminate H.
  - injection H as ->. destruct Hrp as [_ [_ Hsp]], Hrq as [_ [_ Hsq]].
    apply (IH sq p1 q1 z); congruence.
  - exact H.
Qed.

Lemma drop_frame_only (labels : list Z) (p q : process) :
  frame p = frame q ->
  fst (drop labels p) = fst (drop labels q)
  /\ frame (snd (drop labels p)) = frame (snd (drop labels q)).
Proof.
  intros H. unfold drop. rewrite H.
  destruct (forallb _ labels); cbn; split; (reflexivity || exact H).
Qed.

Lemma remove_frame_only (self : RemoveNonEnglish.t) (p q : process) :
  frame p = frame q ->
  fst (RemoveNonEnglish.remove self p) = fst (RemoveNonEnglish.remove self q)
  /\ frame (snd (RemoveNonEnglish.remove self p))
     = frame (snd (RemoveNonEnglish.remove self q)).
Proof.
  intros H. unfold RemoveNonEnglish.remove, bind.
  destruct (drop_frame_only (List.map fst (RemoveNonEnglish.exception_entries self)) p q H)
    as [H1 H1'].
  destruct (drop _ p) as [[[] | e1] p1], (drop _ q) as [[[] | e1'] q1];
    cbn [fst snd] in H1, H1'; try discriminate H1; [| split; assumption].
  destruct (drop_frame_only
              (List.map (fun entry => fst (fst entry))
                 (RemoveNonEnglish.other_language_entries self)) p1 q1 H1') as [H2 H2'].
  destruct (drop _ p1) as [[[] | e2] p2], (drop _ q1) as [[[] | e2'] q2];
    cbn [fst snd] in H2, H2'; try discriminate H2; cbn; [| split; assumption].
  rewrite H2'. split; reflexivity.
Qed.

(** X22: what [RemoveNonEnglish(df)] returns or raises and the dataset it
    leaves depend on the table only: two processes that hold the same table
    get the same outcome and the same dataset, whatever their entropy,
    whatever [DetectorFactory.seed] was before and whatever they printed or
    called before. *)
Theorem remove_non_english_process_independent (L : Lib) (p q : process) :
  frame p = frame q ->
  fst (RemoveNonEnglish.__init__ L p) = fst (RemoveNonEnglish.__init__ L q)
  /\ frame (snd (RemoveNonEnglish.__init__ L p))
     = frame (snd (RemoveNonEnglish.__init__ L q)).
Proof.
  intros H.
  unfold RemoveNonEnglish.__init__, RemoveNonEnglish.collect_non_english_content,
    bind, get_frame, print. cbn [frame set_seed]. rewrite H.
  set (self0 := {| RemoveNonEnglish.exception_entries := [];
                   RemoveNonEnglish.other_language_entries := [];
                   RemoveNonEnglish.original_size := len (frame q) |}).
  pose proof (collect_rows_fst_seeded L (rows (frame q)) self0
                (set_seed (Some 0%Z) p) (set_seed (Some 0%Z) q) 0%Z eq_refl eq_refl) as Hfst.
  pose proof (collect_rows_rest L (rows (frame q)) self0 (set_seed (Some 0%Z) p)) as Hp.
  pose proof (collect_rows_rest L (rows (frame q)) self0 (set_seed (Some 0%Z) q)) as Hq.
  cbv zeta in Hp, Hq.
  destruct (RemoveNonEnglish.collect_rows L self0 (rows (frame q)) (set_seed (Some 0%Z) p))
    as [[sp | ep] p1],
    (RemoveNonEnglish.collect_rows L self0 (rows (frame q)) (set_seed (Some 0%Z) q))
    as [[sq | eq] q1]; cbn [fst snd] in *; try discriminate Hfst.
  - injection Hfst as ->. destruct Hp as [Hfp _], Hq as [Hfq _]. cbn in Hfp, Hfq.
    unfold ret. cbv beta iota.
    match goal with
    | |- context [RemoveNonEnglish.remove sq ?a] =>
        match goal with
        | |- context [RemoveNonEnglish.remove sq ?b] =>
            lazymatch a with
            | b => fail
            | _ => destruct (remove_frame_only sq a b) as [Hr Hr']
            end
        end
    end.
    { cbn. congruence. }
    match type of Hr with
    | fst ?x = fst ?y => destruct x as [[[] | e1] p2], y as [[[] | e2] q2]
    end; cbn [fst snd] in Hr, Hr' |- *; try discriminate Hr; split; congruence.
  - destruct Hp as [Hfp _], Hq as [Hfq _]. cbn in Hfp, Hfq. split; congruence.
Qed.

Lemma remove_non_english_process_independent_witness :
  frame (fresh comments)
  = frame (add_line ModelsLoaded (set_seed (Some 7%Z) (set_drawn 5 (fresh comments))))
  /\ fst (RemoveNonEnglish.__init__ toy_lib (fresh comments))
     = fst (RemoveNonEnglish.__init__ toy_lib
              (add_line ModelsLoaded (set_seed (Some 7%Z) (set_drawn 5 (fresh comments)))))
  /\ frame (snd (RemoveNonEnglish.__init__ toy_lib (fresh comments)))
     = frame (snd (RemoveNonEnglish.__init__ toy_lib
                     (add_line ModelsLoaded
                        (set_seed (Some 7%Z) (set_drawn 5 (fresh comments)))))).
Proof.
  split; [reflexivity |].
  exact (remove_non_english_process_independent toy_lib (fresh comments)
           (add_line ModelsLoaded (set_seed (Some 7%Z) (set_drawn 5 (fresh comments))))
           eq_refl).
Defined.

(** ** More on [clean_df] *)

Lemma setitem_rest (name : pystr) (label : Z) (value : pyval) (p : process) :
  let p' := snd (setitem name label value p) in
  index (frame p') = index (frame p)
  /\ columns (frame p') = columns (frame p)
  /\ stdout p' = stdout p
  /\ DetectorFactory_seed p' = DetectorFactory_seed p
  /\ (forall i j, position name (columns (frame p)) <> Some j ->
                  cell (frame p') i j = cell (frame p) i j).
Proof.
  cbv zeta. unfold setitem.
  destruct (position name (columns (frame p))) as [k |] eqn:Ek; [| repeat split].
  cbn. repeat split.
  - unfold index. cbn [rows]. rewrite map_map. apply map_ext. intros row.
    destruct (Z.eqb (fst row) label); reflexivity.
  - intros i j Hj. unfold cell. cbn [rows]. rewrite nth_error_map.
    destruct (nth_error (rows (frame p)) i) as [row |]; [| reflexivity]. cbn.
    destruct (Z.eqb (fst row) label); [| reflexivity]. cbn [snd].
    apply list_lookup_insert_ne. congruence.
Qed.

Lemma clean_text_cell_rest (L : Lib) (self : CleanText.t) (text : pyval) (p : process) :
  let p' := snd (CleanText.clean_text_cell L self text p) in
  frame p' = frame p /\ stdout p' = stdout p
  /\ DetectorFactory_seed p' = DetectorFactory_seed p.
Proof. destruct text; repeat split. Qed.

Lemma clean_row_rest (L : Lib) (self : CleanText.t) (i : nat) (p : process) :
  let p' := snd (CleanText.clean_row L self i p) in
  index (frame p') = index (frame p)
  /\ columns (frame p') = columns (frame p)
  /\ stdout p' = stdout p
  /\ DetectorFactory_seed p' = DetectorFactory_seed p
  /\ (forall i j, position (lit "text") (columns (frame p)) <> Some j ->
                  cell (frame p') i j = cell (frame p) i j).
Proof.
  cbv zeta. unfold CleanText.clean_row, bind, get_frame.
  destruct (nth_error (rows (frame p)) i) as [[label cells] |]; [| repeat split].
  destruct cells as [| text [| a [| b [| c cells]]]]; try (repeat split; reflexivity).
  pose proof (clean_text_cell_rest L self text p) as H. cbv zeta in H.
  destruct (CleanText.clean_text_cell L self text p) as [[cleaned | e] p1];
    cbn [snd] in H; destruct H as [Hf [Ho Hs]].
  - pose proof (setitem_rest (lit "text") label cleaned p1) as H. cbv zeta in H.
    rewrite Hf, Ho, Hs in H. exact H.
  - cbn [snd]. rewrite Hf, Ho, Hs. repeat split.
Qed.

Lemma clean_rows_rest (L : Lib) (self : CleanText.t) (positions : list nat) :
  forall p : process,
    let p' := snd (CleanText.clean_rows L self positions p) in
    index (frame p') = index (frame p)
    /\ columns (frame p') = columns (frame p)
    /\ stdout p' = stdout p
    /\ DetectorFactory_seed p' = DetectorFactory_seed p
    /\ (forall i j, position (lit "text") (columns (frame p)) <> Some j ->
                    cell (frame p') i j = cell (frame p) i j).
Proof.
  induction positions as [| k rest IH]; intros p; cbv zeta; [repeat split |].
  cbn [CleanText.clean_rows]. unfold bind.
  pose proof (clean_row_rest L self k p) as H. cbv zeta in H.
  destruct (CleanText.clean_row L self k p) as [[[] | e] p1]; cbn [snd] in H; [| exact H].
  destruct H as [Hi [Hc [Ho [Hs Hcell]]]].
  specialize (IH p1). cbv zeta in IH. destruct IH as [Hi' [Hc' [Ho' [Hs' Hcell']]]].
  repeat split; try congruence.
  intros i j Hj. rewrite Hcell'; [apply Hcell, Hj | rewrite Hc; exact Hj].
Qed.

(** X17: however it ends, [clean_df] keeps the index labels, their order,
    the columns and the number of cells of every row, prints nothing and
    leaves the detector's seed alone; the only cells it can change are those
    of the column named ['text']. *)
Theorem clean_df_only_text_column (L : Lib) (self : CleanText.t) (p : process) :
  let p' := snd (CleanText.clean_df L self p) in
  index (frame p') = index (frame p)
  /\ columns (frame p') = columns (frame p)
  /\ widths (frame p') = widths (frame p)
  /\ stdout p' = stdout p
  /\ DetectorFactory_seed p' = DetectorFactory_seed p
  /\ (forall i j, position (lit "text") (columns (frame p)) <> Some j ->
                  cell (frame p') i j = cell (frame p) i j).
Proof.
  cbv zeta. unfold CleanText.clean_df, bind, get_frame.
  destruct (clean_rows_rest L self (seq 0 (len (frame p))) p) as [Hi [Hc [Ho [Hs Hcell]]]].
  repeat split; try assumption.
  clear Hi Hc Ho Hs Hcell. generalize (seq 0 (len (frame p))). intros positions.
  revert p. induction positions as [| k rest IH]; intros p; [reflexivity |].
  cbn [CleanText.clean_rows]. unfold bind.
  pose proof (clean_row_widths L self k p) as H.
  destruct (CleanText.clean_row L self k p) as [[[] | e] p1]; cbn [snd] in H; [| exact H].
  rewrite IH. exact H.
Qed.

(** *** The loop of [clean_df] on a table of texts *)

Lemma update_other_rows (label : Z) (k : nat) (value : pyval)
    (tuples : list (Z * list pyval)) :
  ~ In label (List.map fst tuples) ->
  List.map (fun row => if Z.eqb (fst row) label
                       then (fst row, <[k := value]> (snd row)) else row) tuples
  = tuples.
Proof.
  induction tuples as [| row rest IH]; [reflexivity |]. cbn [List.map]. intros H.
  rewrite IH by (intros Hin; apply H; right; exact Hin).
  destruct (Z.eqb (fst row) label) eqn:E; [| reflexivity].
  apply Z.eqb_eq in E. exfalso. apply H. left. exact E.
Qed.

Lemma cleaned_row_label (L : Lib) (self : CleanText.t) (k : nat) (row : Z * list pyval) :
  fst (cleaned_row L self k row) = fst row.
Proof. unfold cleaned_row. destruct (snd row) as [| [| | | s] cells]; reflexivity. Qed.

Lemma clean_rows_run (L : Lib) (self : CleanText.t) (k : nat)
    (todo : list (Z * list pyval)) :
  forall (done tail : list (Z * list pyval)) (p : process),
    rows (frame p) = done ++ todo ++ tail ->
    position (lit "text") (columns (frame p)) = Some k ->
    List.NoDup (List.map fst (done ++ todo ++ tail)) ->
    Forall (fun row => text_first_of_three row = true) todo ->
    exists p',
      CleanText.clean_rows L self (seq (List.length done) (List.length todo)) p = (Ok tt, p')
      /\ frame p' = {| columns := columns (frame p);
                       rows := done ++ List.map (cleaned_row L self k) todo ++ tail |}
      /\ stdout p' = stdout p
      /\ DetectorFactory_seed p' = DetectorFactory_seed p
      /\ calls p' = calls p ++ List.map (fun row => CallCleanText (row_text row)) todo.
Proof.
  induction todo as [| row rest IH]; intros done tail p Hrows Hpos Hnd Hshape.
  { exists p. cbn in Hrows |- *. rewrite app_nil_r, <- Hrows. destruct (frame p).
    repeat split. }
  inversion Hshape as [| ? ? Hrow Hrest]; subst.
  destruct (text_first_row_outcome L row Hrow) as [s [a [b [Hcells _]]]].
  destruct row as [label cells]. cbn [snd] in Hcells. subst cells.
  cbn [List.length seq CleanText.clean_rows]. unfold bind at 1.
  assert (Hnth : nth_error (rows (frame p)) (List.length done)
                 = Some (label, [PyStr s; a; b])).
  { rewrite Hrows, nth_error_app2, Nat.sub_diag by lia. reflexivity. }
  assert (Hfresh : ~ In label (List.map fst (done ++ rest ++ tail))).
  { rewrite !map_app in Hnd |- *. cbn [List.map fst] in Hnd.
    apply NoDup_remove_2 in Hnd. exact Hnd. }
  rewrite map_app, in_app_iff in Hfresh.
  assert (Hstep : CleanText.clean_row L self (List.length done) p
                  = (Ok tt,
                     set_frame
                       {| columns := columns (frame p);
                          rows := (done ++ [cleaned_row L self k (label, [PyStr s; a; b])])
                                  ++ rest ++ tail |}
                       (add_call (CallCleanText (PyStr s)) p))).
  { unfold CleanText.clean_row, bind, get_frame. rewrite Hnth.
    unfold CleanText.clean_text_cell, bind, log, ret, setitem.
    cbn [frame add_call]. rewrite Hpos. cbn [frame add_call]. rewrite Hrows.
    do 3 f_equal. rewrite map_app. cbn [List.map app fst snd].
    rewrite Z.eqb_refl.
    rewrite (update_other_rows label k _ done) by tauto.
    rewrite (update_other_rows label k _ (rest ++ tail)) by tauto.
    rewrite <- app_assoc. reflexivity. }
  rewrite Hstep.
  set (done' := done ++ [cleaned_row L self k (label, [PyStr s; a; b])]).
  assert (Hlen : S (List.length done) = List.length done').
  { unfold done'. rewrite length_app. cbn. lia. }
  rewrite Hlen.
  destruct (IH done' tail
              (set_frame {| columns := columns (frame p); rows := done' ++ rest ++ tail |}
                 (add_call (CallCleanText (PyStr s)) p)))
    as [p' [Hrun [Hframe [Hout [Hseed Hcalls]]]]].
  - reflexivity.
  - exact Hpos.
  - unfold done'. rewrite !map_app in Hnd |- *. cbn [List.map app] in Hnd |- *.
    rewrite cleaned_row_label, <- !app_assoc. cbn [app]. rewrite ?map_app. exact Hnd.
  - exact Hrest.
  - exists p'. split; [exact Hrun |]. split.
    + rewrite Hframe. cbn [frame set_frame columns]. unfold done'.
      rewrite <- app_assoc. reflexivity.
    + repeat split; try assumption.
      rewrite Hcalls. cbn. rewrite <- app_assoc. reflexivity.
Qed.

Lemma clean_df_run (L : Lib) (self : CleanText.t) (k : nat) (p : process) :
  position (lit "text") (columns (frame p)) = Some k ->
  List.NoDup (index (frame p)) ->
  Forall (fun row => text_first_of_three row = true) (rows (frame p)) ->
  exists p',
    CleanText.clean_df L self p = (Ok tt, p')
    /\ frame p' = {| columns := columns (frame p);
                     rows := List.map (cleaned_row L self k) (rows (frame p)) |}
    /\ stdout p' = stdout p
    /\ DetectorFactory_seed p' = DetectorFactory_seed p
    /\ calls p'
       = calls p ++ List.map (fun row => CallCleanText (row_text row)) (rows (frame p)).
Proof.
  intros Hpos Hnd Hshape.
  destruct (clean_rows_run L self k (rows (frame p)) [] [] p) as [p' [Hrun H]].
  - rewrite app_nil_r. reflexivity.
  - exact Hpos.
  - rewrite app_nil_r. exact Hnd.
  - exact Hshape.
  - exists p'. split; [| rewrite app_nil_r in H; exact H].
    unfold CleanText.clean_df, bind, get_frame, len. exact Hrun.
Qed.

(** X18: on a rectangular table with unique index labels, a column named
    ['text'] and rows of three cells of which the first is a string,
    [CleanText(df, do_stemming, stopwords)] ends normally and returns the
    object with the two settings; it has called [clean_text] once per row,
    in row order, and written each result into the row's ['text'] cell;
    labels, order and the other cells are as they were, and [get_df] gives
    that table. *)
Theorem clean_text_init_cleans_every_row (L : Lib) (do_stemming : bool)
    (stopwords : gset pystr) (k : nat) (p : process) :
  rectangular (frame p) ->
  position (lit "text") (columns (frame p)) = Some k ->
  List.NoDup (index (frame p)) ->
  Forall (fun row => text_first_of_three row = true) (rows (frame p)) ->
  let self := {| CleanText.do_stemming := do_stemming;
                 CleanText.stopwords := stopwords |} in
  exists p',
    CleanText.__init__ L do_stemming stopwords p = (Ok self, p')
    /\ frame p' = {| columns := columns (frame p);
                     rows := List.map (cleaned_row L self k) (rows (frame p)) |}
    /\ fst (CleanText.get_df self p') = Ok (frame p')
    /\ stdout p' = stdout p
    /\ calls p'
       = calls p ++ List.map (fun row => CallCleanText (row_text row)) (rows (frame p)).
Proof.
  intros _ Hpos Hnd Hshape. cbv zeta.
  destruct (clean_df_run L {| CleanText.do_stemming := do_stemming;
                              CleanText.stopwords := stopwords |} k p Hpos Hnd Hshape)
    as [p' [Hrun [Hframe [Hout [_ Hcalls]]]]].
  exists p'. split.
  - unfold CleanText.__init__, bind. rewrite Hrun. reflexivity.
  - repeat split; assumption.
Qed.

Lemma clean_text_init_cleans_every_row_witness :
  rectangular (frame (fresh comments))
  /\ position (lit "text") (columns (frame (fresh comments))) = Some 0%nat
  /\ List.NoDup (index (frame (fresh comments)))
  /\ Forall (fun row => text_first_of_three row = true) (rows (frame (fresh comments)))
  /\ let self := {| CleanText.do_stemming := false; CleanText.stopwords := ∅ |} in
     exists p',
       CleanText.__init__ toy_lib false ∅ (fresh comments) = (Ok self, p')
       /\ frame p'
          = {| columns := columns (frame (fresh comments));
               rows := List.map (cleaned_row toy_lib self 0) (rows (frame (fresh comments))) |}
       /\ fst (CleanText.get_df self p') = Ok (frame p')
       /\ stdout p' = stdout (fresh comments)
       /\ calls p'
          = calls (fresh comments)
            ++ List.map (fun row => CallCleanText (row_text row))
                 (rows (frame (fresh comments))).
Proof.
  assert (H1 : rectangular (frame (fresh comments))) by (repeat constructor).
  assert (H2 : List.NoDup (index (frame (fresh comments)))).
  { cbn. repeat constructor; cbn; intuition discriminate. }
  assert (H3 : Forall (fun row => text_first_of_three row = true)
                 (rows (frame (fresh comments)))) by (repeat constructor).
  split; [exact H1 |]. split; [reflexivity |]. split; [exact H2 |]. split; [exact H3 |].
  exact (clean_text_init_cleans_every_row toy_lib false ∅ 0 (fresh comments)
           H1 eq_refl H2 H3).
Defined.

Lemma cleaned_row_first_twice (L : Lib) (S : gset pystr) (row : Z * list pyval) :
  lower_on_ascii L ->
  text_first_of_three row = true ->
  text_first_of_three (cleaned_row L (unstemmed S) 0 row) = true
  /\ cleaned_row L (unstemmed S) 0 (cleaned_row L (unstemmed S) 0 row)
     = cleaned_row L (unstemmed S) 0 row.
Proof.
  intros HL Hrow. destruct (text_first_row_outcome L row Hrow) as [s [a [b [Hcells _]]]].
  destruct row as [label cells]. cbn [snd] in Hcells. subst cells.
  unfold cleaned_row. cbn [snd fst]. cbn [insert list_insert snd fst].
  rewrite (clean_text_unstemmed_twice L S s HL). split; reflexivity.
Qed.

(** X19: with stemming off, on a table of texts with unique index labels
    whose first column is named ['text'], cleaning the cleaned table changes
    nothing: the second [clean_df] ends normally and leaves the dataset as
    the first one left it. *)
Theorem clean_df_twice (L : Lib) (S : gset pystr) (p : process) :
  lower_on_ascii L ->
  position (lit "text") (columns (frame p)) = Some 0%nat ->
  List.NoDup (index (frame p)) ->
  Forall (fun row => text_first_of_three row = true) (rows (frame p)) ->
  let p1 := snd (CleanText.clean_df L (unstemmed S) p) in
  exists p2,
    CleanText.clean_df L (unstemmed S) p1 = (Ok tt, p2) /\ frame p2 = frame p1.
Proof.
  intros HL Hpos Hnd Hshape. cbv zeta.
  destruct (clean_df_run L (unstemmed S) 0 p Hpos Hnd Hshape) as [p1 [Hrun [Hframe _]]].
  rewrite Hrun. cbn [snd].
  destruct (clean_df_run L (unstemmed S) 0 p1) as [p2 [Hrun2 [Hframe2 _]]].
  - rewrite Hframe. exact Hpos.
  - rewrite Hframe. unfold index. cbn [rows]. rewrite map_map.
    erewrite map_ext; [exact Hnd |]. intros row. apply cleaned_row_label.
  - rewrite Hframe. cbn [rows]. apply Forall_map.
    eapply List.Forall_impl; [| exact Hshape]. intros row Hrow.
    apply (cleaned_row_first_twice L S row HL Hrow).
  - exists p2. split; [exact Hrun2 |]. rewrite Hframe2, Hframe. cbn [columns rows].
    f_equal. rewrite map_map. apply map_ext_in. intros row Hrow.
    rewrite List.Forall_forall in Hshape.
    apply (cleaned_row_first_twice L S row HL (Hshape row Hrow)).
Qed.

Lemma clean_df_twice_witness :
  lower_on_ascii toy_lib
  /\ position (lit "text") (columns (frame (fresh comments))) = Some 0%nat
  /\ List.NoDup (index (frame (fresh comments)))
  /\ Forall (fun row => text_first_of_three row = true) (rows (frame (fresh comments)))
  /\ let p1 := snd (CleanText.clean_df toy_lib (unstemmed {[ lit "the" ]})
                      (fresh comments)) in
     exists p2,
       CleanText.clean_df toy_lib (unstemmed {[ lit "the" ]}) p1 = (Ok tt, p2)
       /\ frame p2 = frame p1.
Proof.
  assert (H2 : List.NoDup (index (frame (fresh comments)))).
  { cbn. repeat constructor; cbn; intuition discriminate. }
  assert (H3 : Forall (fun row => text_first_of_three row = true)
                 (rows (frame (fresh comments)))) by (repeat constructor).
  split; [exact toy_lower_on_ascii |]. split; [reflexivity |].
  split; [exact H2 |]. split; [exact H3 |].
  exact (clean_df_twice toy_lib {[ lit "the" ]} (fresh comments)
           toy_lower_on_ascii eq_refl H2 H3).
Defined.

(** *** Failures of [clean_df] *)

Lemma clean_rows_app (L : Lib) (self : CleanText.t) (xs ys : list nat) (p : process) :
  CleanText.clean_rows L self (xs ++ ys) p
  = (CleanText.clean_rows L self xs ;;; CleanText.clean_rows L self ys) p.
Proof.
  revert p. induction xs as [| x xs IH]; intros p; [reflexivity |].
  cbn [app CleanText.clean_rows]. unfold bind in *.
  destruct (CleanText.clean_row L self x p) as [[[] | e] p1]; [| reflexivity].
  rewrite IH. reflexivity.
Qed.

(** X20: with pandas writing the chained assignment [df['text'][index] = ..]
    through to the table, as the source relies on: on a rectangular table
    with unique index labels and a column named ['text'], when the rows
    before some row are rows of texts and that row, of three cells, has a
    first cell that is no string, [clean_df] raises [AttributeError] there:
    the rows before it stay cleaned, that row and the rows after it are
    untouched. *)
Theorem clean_df_text_not_str (L : Lib) (self : CleanText.t) (k : nat) (p : process)
    (good rest : list (Z * list pyval)) (bad : Z * list pyval) :
  rectangular (frame p) ->
  position (lit "text") (columns (frame p)) = Some k ->
  List.NoDup (index (frame p)) ->
  rows (frame p) = good ++ bad :: rest ->
  Forall (fun row => text_first_of_three row = true) good ->
  List.length (snd bad) = 3%nat ->
  (forall s, row_text bad <> PyStr s) ->
  let r := CleanText.clean_df L self p in
  fst r = Raise AttributeError
  /\ rows (frame (snd r)) = List.map (cleaned_row L self k) good ++ bad :: rest
  /\ calls (snd r)
     = calls p ++ List.map (fun row => CallCleanText (row_text row)) (good ++ [bad]).
Proof.
  intros _ Hpos Hnd Hrows Hgood Hwidth Hbad. cbv zeta.
  assert (Hrun_all : exists p',
             CleanText.clean_df L self p = (Raise AttributeError, p')
             /\ rows (frame p') = List.map (cleaned_row L self k) good ++ bad :: rest
             /\ calls p'
                = calls p
                  ++ List.map (fun row => CallCleanText (row_text row)) (good ++ [bad])).
  { unfold CleanText.clean_df, bind at 1, get_frame, len.
    rewrite Hrows, length_app. cbn [List.length]. rewrite seq_app, clean_rows_app.
    unfold bind at 1.
    destruct (clean_rows_run L self k good [] (bad :: rest) p)
      as [p1 [Hrun [Hframe [_ [_ Hcalls]]]]].
    - exact Hrows.
    - exact Hpos.
    - unfold index in Hnd. rewrite Hrows in Hnd. exact Hnd.
    - exact Hgood.
    - cbn [List.length] in Hrun. rewrite Hrun. cbn [Nat.add seq CleanText.clean_rows].
      unfold bind at 1. unfold CleanText.clean_row, bind at 1, get_frame.
      rewrite Hframe. cbn [rows app].
      rewrite nth_error_app2 by (rewrite length_map; lia).
      rewrite length_map, Nat.sub_diag. cbn [nth_error].
      destruct bad as [label cells]. cbn [snd] in Hwidth. unfold row_text in Hbad.
      cbn [snd] in Hbad.
      destruct cells as [| text [| a [| b [| c cells]]]]; try discriminate Hwidth.
      cbn [hd] in Hbad. unfold CleanText.clean_text_cell, bind, log.
      destruct text as [| v | z | s]; try contradiction (Hbad s eq_refl);
        eexists; (split; [reflexivity |]); cbn;
        rewrite Hframe, Hcalls, map_app, <- app_assoc; split; reflexivity. }
  destruct Hrun_all as [p' [-> H]]. split; [reflexivity | exact H].
Qed.

Lemma clean_df_text_not_str_witness :
  let good := [(0%Z, [PyStr (lit "This product is amazing!"); PyInt 2; PyInt 1])] in
  let bad := (1%Z, [PyInt 404; PyInt 1; PyInt 1]) in
  let r := CleanText.clean_df toy_lib plain (fresh number_as_text) in
  rectangular (frame (fresh number_as_text))
  /\ rows (frame (fresh number_as_text)) = good ++ bad :: []
  /\ fst r = Raise AttributeError
  /\ rows (frame (snd r)) = List.map (cleaned_row toy_lib plain 0) good ++ bad :: []
  /\ calls (snd r)
     = calls (fresh number_as_text)
       ++ List.map (fun row => CallCleanText (row_text row)) (good ++ [bad]).
Proof.
  cbv zeta. split; [repeat constructor |]. split; [reflexivity |].
  exact (clean_df_text_not_str toy_lib plain 0 (fresh number_as_text)
           [(0%Z, [PyStr (lit "This product is amazing!"); PyInt 2; PyInt 1])] []
           (1%Z, [PyInt 404; PyInt 1; PyInt 1])
           ltac:(repeat constructor) eq_refl
           ltac:(cbn; repeat constructor; cbn; intuition discriminate)
           eq_refl ltac:(repeat constructor) eq_refl
           ltac:(intros s; discriminate)).
Defined.

(** X21: on a table that has a row, whose first row is a row of text, and
    no column named ['text'], [clean_df] raises [KeyError] at the first
    row, after the call of [clean_text] on its text, and the dataset is as
    it was. *)
Theorem clean_df_no_text_column (L : Lib) (self : CleanText.t) (p : process)
    (row : Z * list pyval) (rest : list (Z * list pyval)) :
  rows (frame p) = row :: rest ->
  text_first_of_three row = true ->
  position (lit "text") (columns (frame p)) = None ->
  CleanText.clean_df L self p
  = (Raise KeyError, add_call (CallCleanText (row_text row)) p).
Proof.
  intros Hrows Hrow Hpos.
  destruct (text_first_row_outcome L row Hrow) as [s [a [b [Hcells _]]]].
  destruct row as [label cells]. cbn [snd] in Hcells. subst cells.
  unfold CleanText.clean_df, bind at 1, get_frame, len.
  rewrite Hrows. cbn [List.length seq CleanText.clean_rows].
  unfold bind at 1. unfold CleanText.clean_row, bind at 1, get_frame.
  rewrite Hrows. cbn [nth_error].
  unfold CleanText.clean_text_cell, bind, log, ret, setitem. cbn [frame add_call].
  rewrite Hpos. reflexivity.
Qed.

Lemma clean_df_no_text_column_witness :
  text_first_of_three (0%Z, [PyStr (lit "Hello World"); PyInt 1; PyInt 2]) = true
  /\ position (lit "text") (columns (frame (fresh no_text_column))) = None
  /\ CleanText.clean_df toy_lib plain (fresh no_text_column)
     = (Raise KeyError,
        add_call (CallCleanText (row_text (0%Z, [PyStr (lit "Hello World"); PyInt 1; PyInt 2])))
          (fresh no_text_column)).
Proof.
  split; [reflexivity |]. split; [reflexivity |].
  exact (clean_df_no_text_column toy_lib plain (fresh no_text_column)
           (0%Z, [PyStr (lit "Hello World"); PyInt 1; PyInt 2]) []
           eq_refl eq_refl eq_refl).
Defined.

(** *** The encoding the models get *)

Lemma repeat_nil_app {A} (x : A) (l : list A) (n : nat) :
  l ++ repeat x (n - n) = l.
Proof. rewrite Nat.sub_diag. apply app_nil_r. Qed.

(** With [truncation=True], [padding=True] and [max_length=128] the ids of
    one text are [CLS], its first 126 word pieces at most, [SEP], with no
    padding and a mask of ones. *)
Lemma transformers_call_128 (V : Transformers.Vocab) (text : pystr) :
  let enc := Transformers.call V text
               {| return_tensors := lit "pt"; truncation := true;
                  padding := true; max_length := 128 |} in
  Transformers.input_ids enc
  = Transformers.cls_token_id V
    :: firstn 126 (Transformers.wordpiece V text) ++ [Transformers.sep_token_id V]
  /\ Transformers.attention_mask enc
     = repeat 1%Z (List.length (Transformers.input_ids enc))
  /\ List.length (Transformers.input_ids enc)
     = (Nat.min 126 (List.length (Transformers.wordpiece V text)) + 2)%nat.
Proof.
  cbv zeta. unfold Transformers.call, Transformers.encode, Transformers.truncate,
    Transformers.longest, Transformers.pad_to.
  cbn [padding truncation max_length List.map fold_right].
  change (Z.to_nat (128 - 2)) with 126%nat.
  rewrite Nat.max_0_r. cbn [Transformers.input_ids Transformers.attention_mask].
  rewrite !repeat_nil_app. split; [reflexivity |]. split; [reflexivity |].
  cbn [List.length]. rewrite length_app, length_firstn. cbn [List.length]. lia.
Qed.

(** C8, counterexample: with a tokenizer of the transformers library, the
    encoding of a short comment is not brought to 128 ids: for the comment
    [Great video, thanks!] it has five, [CLS], three word pieces, [SEP]. *)
Lemma fixed_length_claim_fails_on_short_comment :
  Transformers.input_ids
    (tokenizer transformers_lib (lit "great video thanks!")
       {| return_tensors := lit "pt"; truncation := true;
          padding := true; max_length := 128 |})
  = [101; 1005; 1005; 1007; 102]%Z
  /\ ~ fixed_length_claim transformers_lib (fun enc => enc) predictor
        (lit "Great video, thanks!") (fresh no_frame).
Proof.
  split; [vm_compute; reflexivity |]. intros H.
  destruct H as [text [Hclean Hlen]].
  - vm_compute. discriminate.
  - vm_compute. reflexivity.
  - vm_compute in Hclean. injection Hclean as <-. vm_compute in Hlen. discriminate.
Qed.

(** C8: for every comment that reaches the tokenizer, [predict] calls it
    once, on the cleaned comment, with [max_length=128], [truncation=True]
    and [padding=True], and gives the encoding to both models, whose answers
    decide the result. With a tokenizer of the transformers library that
    encoding is [CLS], the first 126 word pieces at most, [SEP]: at most 128
    ids, exactly 128 when the comment has 126 word pieces or more, and for a
    shorter comment its own length, below 128, with no padding token and a
    mask of ones, since [padding=True] pads to the longest sequence of the
    batch and the batch is the one comment. *)
Theorem predict_encoding_truncated_not_padded (L : Lib) (V : Transformers.Vocab)
    (view : Encoding L -> Transformers.BatchEncoding)
    (self : SentimentPredictor.t) (s : pystr) (p : process) :
  transformers_tokenizer L V view ->
  PyStr.strip s <> [] ->
  fst (SentimentPredictor.get_language L self (PyStr s) p) = Ok (lit "en") ->
  exists text,
    SentimentPredictor.clean_text L self s false = Ok text
    /\ let args := {| return_tensors := lit "pt"; truncation := true;
                      padding := true; max_length := 128 |} in
       let enc := tokenizer L text args in
       let pieces := Transformers.wordpiece V text in
       tokenizer_calls (calls (snd (SentimentPredictor.predict L self (PyStr s) p)))
       = tokenizer_calls (calls p) ++ [(text, args)]
       /\ fst (SentimentPredictor.predict L self (PyStr s) p)
          = match nth_error (SentimentPredictor.labels self) (model_product L enc) with
            | None => Raise IndexError
            | Some product =>
                match nth_error (SentimentPredictor.labels self) (model_video L enc) with
                | None => Raise IndexError
                | Some video =>
                    Ok (Some {| SentimentPredictor.sentiment_for_product := product;
                                SentimentPredictor.sentiment_for_video := video |})
                end
            end
       /\ Transformers.input_ids (view enc)
          = Transformers.cls_token_id V :: firstn 126 pieces ++ [Transformers.sep_token_id V]
       /\ (List.length (Transformers.input_ids (view enc)) <= 128)%nat
       /\ ((126 <= List.length pieces)%nat ->
           List.length (Transformers.input_ids (view enc)) = 128%nat)
       /\ ((List.length pieces < 126)%nat ->
           Transformers.input_ids (view enc)
           = Transformers.cls_token_id V :: pieces ++ [Transformers.sep_token_id V]
           /\ List.length (Transformers.input_ids (view enc))
              = (List.length pieces + 2)%nat
           /\ (List.length (Transformers.input_ids (view enc)) < 128)%nat)
       /\ Transformers.attention_mask (view enc)
          = repeat 1%Z (List.length (Transformers.input_ids (view enc))).
Proof.
  intros Htok Hs Hen. exists (scrub L s). split; [reflexivity |]. cbv zeta.
  destruct (transformers_call_128 V (scrub L s)) as [Hids [Hmask Hlen]].
  rewrite (Htok (scrub L s)). rewrite Hmask, Hlen. rewrite Hids at 1 2.
  split.
  { rewrite (predict_on_english L self s p Hs Hen).
    rewrite classify_tokenizer_calls, after_detect_tokenizer_calls. reflexivity. }
  split.
  { rewrite (predict_on_english L self s p Hs Hen), classify_eq. cbv zeta.
    change SentimentPredictor.tokenizer_args
      with {| return_tensors := lit "pt"; truncation := true;
              padding := true; max_length := 128 |}.
    destruct (nth_error _ (model_product L _)); [| reflexivity].
    destruct (nth_error _ (model_video L _)); reflexivity. }
  split; [reflexivity |]. split; [lia |]. split; [lia |]. split; [| reflexivity].
  intros Hshort. rewrite firstn_all2 by lia. repeat split; lia.
Qed.

Lemma predict_encoding_truncated_not_padded_witness :
  transformers_tokenizer transformers_lib toy_vocab (fun enc => enc)
  /\ PyStr.strip long_comment <> []
  /\ fst (SentimentPredictor.get_language transformers_lib predictor
            (PyStr long_comment) (fresh no_frame)) = Ok (lit "en")
  /\ (126 <= List.length (Transformers.wordpiece toy_vocab
                            (CleanText.clean_text transformers_lib plain long_comment)))%nat
  /\ exists text,
    SentimentPredictor.clean_text transformers_lib predictor long_comment false = Ok text
    /\ let args := {| return_tensors := lit "pt"; truncation := true;
                      padding := true; max_length := 128 |} in
       let enc := tokenizer transformers_lib text args in
       let pieces := Transformers.wordpiece toy_vocab text in
       tokenizer_calls (calls (snd (SentimentPredictor.predict transformers_lib predictor (PyStr long_comment) (fresh no_frame))))
       = tokenizer_calls (calls (fresh no_frame)) ++ [(text, args)]
       /\ fst (SentimentPredictor.predict transformers_lib predictor (PyStr long_comment) (fresh no_frame))
          = match nth_error (SentimentPredictor.labels predictor) (model_product transformers_lib enc) with
            | None => Raise IndexError
            | Some product =>
                match nth_error (SentimentPredictor.labels predictor) (model_video transformers_lib enc) with
                | None => Raise IndexError
                | Some video =>
                    Ok (Some {| SentimentPredictor.sentiment_for_product := product;
                                SentimentPredictor.sentiment_for_video := video |})
                end
            end
       /\ Transformers.input_ids enc
          = Transformers.cls_token_id toy_vocab :: firstn 126 pieces ++ [Transformers.sep_token_id toy_vocab]
       /\ (List.length (Transformers.input_ids enc) <= 128)%nat
       /\ ((126 <= List.length pieces)%nat ->
           List.length (Transformers.input_ids enc) = 128%nat)
       /\ ((List.length pieces < 126)%nat ->
           Transformers.input_ids enc
           = Transformers.cls_token_id toy_vocab :: pieces ++ [Transformers.sep_token_id toy_vocab]
           /\ List.length (Transformers.input_ids enc)
              = (List.length pieces + 2)%nat
           /\ (List.length (Transformers.input_ids enc) < 128)%nat)
       /\ Transformers.attention_mask enc
          = repeat 1%Z (List.length (Transformers.input_ids enc)).
Proof.
  assert (H1 : transformers_tokenizer transformers_lib toy_vocab (fun enc => enc))
    by (intros text args; reflexivity).
  assert (H2 : PyStr.strip long_comment <> []) by (vm_compute; discriminate).
  assert (H3 : fst (SentimentPredictor.get_language transformers_lib predictor
                      (PyStr long_comment) (fresh no_frame)) = Ok (lit "en"))
    by (vm_compute; reflexivity).
  split; [exact H1 |]. split; [exact H2 |]. split; [exact H3 |].
  split; [vm_compute; repeat constructor |].
  exact (predict_encoding_truncated_not_padded transformers_lib toy_vocab (fun enc => enc)
           predictor long_comment (fresh no_frame) H1 H2 H3).
Defined.

Example encoding_of_long_comment :
  let enc := inputs_of transformers_lib long_comment in
  List.length (Transformers.input_ids enc) = 128%nat
  /\ List.last (Transformers.input_ids enc) 0%Z = 102%Z
  /\ Transformers.attention_mask enc = repeat 1%Z 128.
Proof. vm_compute. repeat split. Qed.

Example encoding_of_short_comment :
  inputs_of transformers_lib (lit "Great video, thanks!")
  = {| Transformers.input_ids := [101; 1005; 1005; 1007; 102]%Z;
       Transformers.attention_mask := [1; 1; 1; 1; 1]%Z |}.
Proof. vm_compute. reflexivity. Qed.
